(** * sat-api: session lifecycle, derived metrics and retention cleanup

    A shallow embedding of the session store accessor, the subject
    classifier adapter, the metrics aggregator and the retention cleanup
    engine of the sat-api backend
    (modules/user/user.service.ts, services/cleanup.service.ts,
    and the DataRetentionScheduler class), with the properties of its
    specification stated over that embedding.

    Modelling conventions.
    - Timestamps are milliseconds since the epoch, in [Z].
    - Database tables are lists of rows in insertion order; the primary key
      of a session is generated from a counter kept with the table.
    - A function that can throw returns a [result]; a function that writes
      to the database threads the table(s) through explicitly.
    - JavaScript numbers that are integers in the program are [Z]. The shares
      of a Progress row are computed on binary64 floats ([Double]); the star
      progress is computed on exact rationals ([Q]), and its binary64
      evaluation is compared with that on a bounded range.
    - The completion oracle (the chat-completions endpoint) is an input:
      its reply, as far as the code inspects it, is an [OracleReply]. *)

From Stdlib Require Import ZArith QArith Qround Qminmax Lia Lqa Ascii.
From Stdlib Require Import PrimFloat FloatOps SpecFloat Uint63.
From stdpp Require Import base decidable option list strings sorting.

Local Open Scope Z_scope.

(** ** JavaScript built-ins the services rely on *)

Module JS.

Definition lower_ascii (c : ascii) : ascii :=
  let n := nat_of_ascii c in
  if (Nat.leb 65 n && Nat.leb n 90)%bool then ascii_of_nat (n + 32) else c.

(** [String.prototype.toLowerCase], on the ASCII range. *)
Fixpoint toLowerCase (s : string) : string :=
  match s with
  | EmptyString => EmptyString
  | String c s' => String (lower_ascii c) (toLowerCase s')
  end.

(** [hay.includes(needle)]. *)
Fixpoint includes (needle hay : string) : bool :=
  String.prefix needle hay ||
  match hay with
  | EmptyString => false
  | String _ hay' => includes needle hay'
  end.

(** [parts.join(sep)]. *)
Fixpoint join (sep : string) (parts : list string) : string :=
  match parts with
  | [] => EmptyString
  | [p] => p
  | p :: rest => p +:+ sep +:+ join sep rest
  end.

Definition digit_of (c : ascii) : option Z :=
  let n := nat_of_ascii c in
  if (Nat.leb 48 n && Nat.leb n 57)%bool then Some (Z.of_nat (n - 48)) else None.

Definition is_space (c : ascii) : bool :=
  let n := nat_of_ascii c in
  (Nat.eqb n 32 || (Nat.leb 9 n && Nat.leb n 13))%bool.

(** The white space and line terminators outside ASCII, in the UTF-8
    encoding the strings are held in: U+00A0 on two bytes; U+1680,
    U+2000..U+200A, U+2028, U+2029, U+202F, U+205F, U+3000 and U+FEFF on
    three. *)
Definition is_space2 (a b : ascii) : bool :=
  (Nat.eqb (nat_of_ascii a) 194 && Nat.eqb (nat_of_ascii b) 160)%bool.

Definition is_space3 (a b c : ascii) : bool :=
  let x := nat_of_ascii a in
  let y := nat_of_ascii b in
  let z := nat_of_ascii c in
  ((Nat.eqb x 225 && Nat.eqb y 154 && Nat.eqb z 128)
   || (Nat.eqb x 226 && Nat.eqb y 128 &&
       ((Nat.leb 128 z && Nat.leb z 138) || Nat.eqb z 168 || Nat.eqb z 169 || Nat.eqb z 175))
   || (Nat.eqb x 226 && Nat.eqb y 129 && Nat.eqb z 159)
   || (Nat.eqb x 227 && Nat.eqb y 128 && Nat.eqb z 128)
   || (Nat.eqb x 239 && Nat.eqb y 187 && Nat.eqb z 191))%bool.

(** The string without its leading white space. *)
Fixpoint skip_spaces (s : string) : string :=
  match s with
  | EmptyString => s
  | String a s1 =>
      if is_space a then skip_spaces s1
      else match s1 with
           | EmptyString => s
           | String b s2 =>
               if is_space2 a b then skip_spaces s2
               else match s2 with
                    | EmptyString => s
                    | String c s3 => if is_space3 a b c then skip_spaces s3 else s
                    end
           end
  end.

(** The longest prefix of decimal digits; [None] when there is none. *)
Fixpoint digits (s : string) (acc : option Z) : option Z :=
  match s with
  | EmptyString => acc
  | String c s' =>
      match digit_of c with
      | Some d => digits s' (Some (10 * default 0 acc + d))
      | None => acc
      end
  end.

(** [parseInt(s, 10)]; [None] stands for [NaN]. *)
Definition parseInt (s : string) : option Z :=
  match skip_spaces s with
  | String "-"%char s' => Z.opp <$> digits s' None
  | String "+"%char s' => digits s' None
  | s' => digits s' None
  end.

Definition hex_digit_of (c : ascii) : option Z :=
  let n := nat_of_ascii c in
  if (Nat.leb 48 n && Nat.leb n 57)%bool then Some (Z.of_nat (n - 48))
  else if (Nat.leb 97 n && Nat.leb n 102)%bool then Some (Z.of_nat (n - 87))
  else if (Nat.leb 65 n && Nat.leb n 70)%bool then Some (Z.of_nat (n - 55))
  else None.

(** The longest prefix of hexadecimal digits; [None] when there is none. *)
Fixpoint hex_digits (s : string) (acc : option Z) : option Z :=
  match s with
  | EmptyString => acc
  | String c s' =>
      match hex_digit_of c with
      | Some d => hex_digits s' (Some (16 * default 0 acc + d))
      | None => acc
      end
  end.

(** [parseInt(s)], without a radix: after the sign, a prefix [0x] or [0X]
    selects radix 16, anything else radix 10. The integer the digits denote;
    [None] stands for [NaN]. *)
Definition parseIntAuto (s : string) : option Z :=
  let magnitude (s' : string) :=
    match s' with
    | String "0"%char (String x r) =>
        if (Ascii.eqb x "x" || Ascii.eqb x "X")%bool then hex_digits r None
        else digits s' None
    | _ => digits s' None
    end in
  match skip_spaces s with
  | String "-"%char s' => Z.opp <$> magnitude s'
  | String "+"%char s' => magnitude s'
  | s' => magnitude s'
  end.

(** *** Numbers

    A Number whose value is an integer is written as that integer, and
    [infinity], which is above every finite double, stands for [Infinity]
    (its opposite for [-Infinity]). *)
Definition infinity : Z := 2 ^ 1024.

(** The Number nearest to an integer: the integer itself up to 2^53 in
    magnitude, beyond that the integer rounded to 53 significant bits, halves
    to the even neighbour, and [Infinity] from 2^1024 - 2^970 on. *)
Definition toNumber (z : Z) : Z :=
  let a := Z.abs z in
  let e := Z.log2 a - 52 in
  if Z.leb e 0 then z
  else
    let q := a / 2 ^ e in
    let r := a mod 2 ^ e in
    let half := 2 ^ (e - 1) in
    let q := if (Z.ltb half r || (Z.eqb half r && Z.odd q))%bool then q + 1 else q in
    let v := q * 2 ^ e in
    Z.sgn z * (if Z.leb infinity v then infinity else v).

(** [a + b] for two Numbers that are integers or [Infinity], none negative:
    the exact sum, rounded. *)
Definition plus (a b : Z) : Z := toNumber (a + b).

(** [Math.round] of an exact value: the nearest integer, halves rounded up. *)
Definition Math_round (x : Q) : Z := Qfloor (x + (1 # 2))%Q.

(** [s || d] for a nullable string: [null] and the empty string are falsy. *)
Definition or_string (s : option string) (d : string) : string :=
  match s with
  | Some v => if bool_decide (v = "") then d else v
  | None => d
  end.

(** [s || null] for a nullable string. *)
Definition or_null (s : option string) : option string :=
  match s with
  | Some v => if bool_decide (v = "") then None else Some v
  | None => None
  end.

Definition truthy_string (s : option string) : bool :=
  match s with
  | Some v => negb (bool_decide (v = ""))
  | None => false
  end.

(** Stable sort by decreasing key, as [Array.prototype.sort] with the
    comparator [(a, b) => key(b) - key(a)] and as [orderBy: desc]. *)
Section sort.
Context {A : Type} (key : A → Z).

Fixpoint insert_desc (x : A) (l : list A) : list A :=
  match l with
  | [] => [x]
  | y :: l' => if Z.leb (key y) (key x) then x :: y :: l' else y :: insert_desc x l'
  end.

Definition sort_desc (l : list A) : list A := foldr insert_desc [] l.
End sort.

(** The UTF-16 code units a byte of UTF-8 text accounts for: one for the
    first byte of a character of one to three bytes, two for the first byte
    of a character of four bytes (a surrogate pair), none for a continuation
    byte. *)
Definition units (c : ascii) : nat :=
  let n := nat_of_ascii c in
  if Nat.ltb n 128 then 1%nat
  else if Nat.ltb n 192 then 0%nat
  else if Nat.ltb n 240 then 1%nat
  else 2%nat.

(** [s.length]: the number of UTF-16 code units of the text. *)
Fixpoint length (s : string) : nat :=
  match s with
  | EmptyString => 0%nat
  | String c s' => (units c + length s')%nat
  end.

End JS.

(** ** JavaScript numbers that are not integers: binary64 *)

Module Double.

(** The double nearest to an integer: its 53 significant bits, scaled. *)
Definition ofZ (z : Z) : float :=
  let a := Z.abs (JS.toNumber z) in
  let e := Z.max 0 (Z.log2 a - 52) in
  let f := Z.ldexp (PrimFloat.of_uint63 (Uint63.of_Z (a / 2 ^ e))) e in
  if Z.ltb z 0 then PrimFloat.opp f else f.

(** The exact value of a finite double; [None] for an infinity or [NaN]. *)
Definition toQ (x : float) : option Q :=
  match Prim2SF x with
  | S754_zero _ => Some 0%Q
  | S754_finite s m e =>
      let magnitude :=
        (inject_Z (Z.pos m) *
         (if Z.leb 0 e then inject_Z (2 ^ e) else / inject_Z (2 ^ (- e))))%Q in
      Some (if s then (- magnitude)%Q else magnitude)
  | S754_infinity _ | S754_nan => None
  end.

(** [Math.round]: the nearest integer, halves rounded up; [None] when the
    result is not a number or not finite. *)
Definition Math_round (x : float) : option Z :=
  match toQ x with
  | Some q => Some (Qfloor (q + (1 # 2))%Q)
  | None => None
  end.

(** [Math.min] (of two numbers, none of them [NaN]). *)
Definition Math_min (a b : float) : float := if PrimFloat.ltb b a then b else a.

End Double.

(** ** Time *)

Definition DAY_MS : Z := 1000 * 60 * 60 * 24.

(** [d.setHours(0, 0, 0, 0)]: local midnight of the day of [t], for a server
    whose zone is [tz] milliseconds ahead of UTC all year round. *)
Definition startOfDay (tz t : Z) : Z := (t + tz) / DAY_MS * DAY_MS - tz.

(** [d.setDate(d.getDate() - n)] in such a zone. *)
Definition minusDays (t n : Z) : Z := t - n * DAY_MS.

(** A [Date] holds a time within 8.64e15 ms of the epoch; set to a time
    outside that range it becomes an invalid date. *)
Definition MAX_TIME : Z := 8640000000000000.

Definition validDate (t : Z) : bool := Z.leb (- MAX_TIME) t && Z.leb t MAX_TIME.

(** ** Data model *)

Definition SessionId := nat.
Definition UserId := string.

Record Attachment := { url : option string }.

Record Message := {
  msg_id : string;
  sender : string;
  text : option string;
  attachments : list Attachment;
  image : option string;
}.

(** The [whiteboard] key of the [data] document, as far as the code tests
    it: absent ([undefined]), [null], or a value. A value is given by a text;
    the empty text stands for any value that is falsy and not [null]. *)
Inductive Whiteboard :=
  | NoWhiteboard
  | NullWhiteboard
  | Drawing (content : string).

(** The JSON document of the [data] column, at the shape the client writes. *)
Record SessionData := {
  messages : list Message;
  whiteboard : Whiteboard;
  chatHistory : list (list Attachment);
}.

Record Session := {
  id : SessionId;
  userId : UserId;
  data : option SessionData;
  completed : bool;
  lastPoint : option string;
  subject : option string;
  topic : option string;
  duration : Z;
  questionsAnswered : Z;
  correctAnswers : Z;
  photoUploadsCount : Z;
  aiInteractions : Z;
  spreadingJoyActions : Z;
  createdAt : Z;
  updatedAt : Z;
}.

Record ProgressMetadata := {
  sessionId : SessionId;
  hasWhiteboard : bool;
  photoUploads : Z;
  meta_aiInteractions : Z;
  isMultiSubjectSession : bool;
  totalSubjectsInSession : nat;
}.

Record Progress := {
  pr_userId : UserId;
  pr_subject : string;
  pr_topic : option string;
  score : Z;
  accuracy : Z;
  timeSpent : Z;
  questionsAttempted : Z;
  questionsCorrect : Z;
  questionsWrong : Z;
  level : string;
  metadata : ProgressMetadata;
}.

Record AdminSettings := {
  dataRetention : bool;
  retentionDuration : string;
}.

Record UserActivity := {
  ua_userId : UserId;
  date : Z;
  studyMinutes : Z;
  ua_questionsAnswered : Z;
  photoQuestions : Z;
  positiveActions : Z;
  starProgress : Z;
}.

(** The session and progress tables, with the key generator. *)
Record Db := {
  sessions : list Session;
  progress : list Progress;
  nextId : SessionId;
}.

(** The request body handed to [createSession] and [updateSession]: the
    columns it may name. An absent key is [None]. *)
Record SessionPatch := {
  p_userId : option UserId;
  p_data : option SessionData;
  p_completed : option bool;
  p_lastPoint : option (option string);
  p_subject : option (option string);
  p_topic : option (option string);
  p_duration : option Z;
  p_questionsAnswered : option Z;
  p_correctAnswers : option Z;
}.

Definition emptyPatch : SessionPatch :=
  {| p_userId := None; p_data := None; p_completed := None; p_lastPoint := None;
     p_subject := None; p_topic := None; p_duration := None;
     p_questionsAnswered := None; p_correctAnswers := None |}.

Inductive Error :=
  | P2025                 (* Prisma: record to update or delete not found *)
  | StorageFault          (* any other rejection by the storage engine *)
  | Err (msg : string).   (* new Error(msg) *)

Inductive result (A : Type) :=
  | Ok (a : A)
  | Throw (e : Error).
Arguments Ok {A} a.
Arguments Throw {A} e.

(** ** Storage layer (the Prisma calls on the session table) *)

Module Prisma.

Definition set_sessions (db : Db) (l : list Session) : Db :=
  {| sessions := l; progress := progress db; nextId := nextId db |}.

Definition findUnique (db : Db) (i : SessionId) : option Session :=
  List.find (λ s, bool_decide (id s = i)) (sessions db).

(** Modelled from the spec: the column defaults of the Session table (the
    Prisma schema is not part of the sources). A new row is not completed,
    has no resume marker, no transcript, no subject, and zero counters. *)
Definition defaultRow (i : SessionId) (u : UserId) (now : Z) : Session :=
  {| id := i; userId := u; data := None; completed := false; lastPoint := None;
     subject := None; topic := None; duration := 0; questionsAnswered := 0;
     correctAnswers := 0; photoUploadsCount := 0; aiInteractions := 0;
     spreadingJoyActions := 0; createdAt := now; updatedAt := now |}.

(** The columns named by the patch overwrite those of the row. *)
Definition assign (p : SessionPatch) (s : Session) : Session :=
  {| id := id s;
     userId := default (userId s) (p_userId p);
     data := match p_data p with Some d => Some d | None => data s end;
     completed := default (completed s) (p_completed p);
     lastPoint := default (lastPoint s) (p_lastPoint p);
     subject := default (subject s) (p_subject p);
     topic := default (topic s) (p_topic p);
     duration := default (duration s) (p_duration p);
     questionsAnswered := default (questionsAnswered s) (p_questionsAnswered p);
     correctAnswers := default (correctAnswers s) (p_correctAnswers p);
     photoUploadsCount := photoUploadsCount s;
     aiInteractions := aiInteractions s;
     spreadingJoyActions := spreadingJoyActions s;
     createdAt := createdAt s;
     updatedAt := updatedAt s |}.

(** Modelled from the spec: [updatedAt] is bumped on every mutation (the
    attribute that does it is in the Prisma schema, which is not part of the
    sources). *)
Definition touch (now : Z) (s : Session) : Session :=
  {| id := id s; userId := userId s; data := data s; completed := completed s;
     lastPoint := lastPoint s; subject := subject s; topic := topic s;
     duration := duration s; questionsAnswered := questionsAnswered s;
     correctAnswers := correctAnswers s; photoUploadsCount := photoUploadsCount s;
     aiInteractions := aiInteractions s; spreadingJoyActions := spreadingJoyActions s;
     createdAt := createdAt s; updatedAt := now |}.

(** [prisma.session.create({ data: { userId, ...data } })]. *)
Definition create (db : Db) (now : Z) (u : UserId) (p : SessionPatch) : Session * Db :=
  let row := assign p (defaultRow (nextId db) u now) in
  (row, {| sessions := sessions db ++ [row]; progress := progress db;
           nextId := S (nextId db) |}).

(** [prisma.session.update({ where: { id }, data })]; [updatedAt] is bumped
    by the store. *)
Definition update (db : Db) (now : Z) (i : SessionId) (f : Session → Session)
  : result Session * Db :=
  match findUnique db i with
  | None => (Throw P2025, db)
  | Some s =>
      let s' := touch now (f s) in
      (Ok s', set_sessions db
                (map (λ r, if bool_decide (id r = i) then touch now (f r) else r)
                     (sessions db)))
  end.

(** [prisma.session.delete({ where: { id } })]. [fault i] tells whether the
    storage engine rejects the deletion of row [i] (a lost connection, a
    referential restriction). *)
Definition delete (fault : SessionId → bool) (db : Db) (i : SessionId)
  : result Session * Db :=
  if fault i then (Throw StorageFault, db)
  else match findUnique db i with
       | None => (Throw P2025, db)
       | Some s =>
           (Ok s, set_sessions db
                    (List.filter (λ r, negb (bool_decide (id r = i))) (sessions db)))
       end.

(** [prisma.session.deleteMany({ where })]: the number of rows deleted. *)
Definition deleteMany (db : Db) (where_ : Session → bool) : Z * Db :=
  (Z.of_nat (length (List.filter where_ (sessions db))),
   set_sessions db (List.filter (λ r, negb (where_ r)) (sessions db))).

Definition createProgress (db : Db) (p : Progress) : Db :=
  {| sessions := sessions db; progress := progress db ++ [p]; nextId := nextId db |}.

End Prisma.

(** ** Subject classifier adapter *)

(** What the code can observe of one reply of the completion oracle.
    [raw_questionCount] is the [questionCount] of an element as [parseInt]
    reads it, that is, converted to a string: "7" for the number 7, "2.5" for
    2.5, "1e+21" for 10^21, the text itself for a string, "undefined" for an
    absent field. *)
Record RawBucket := {
  raw_subject : option string;
  raw_topic : option string;
  raw_questionCount : string;
}.

Inductive OracleReply :=
  | Unreadable       (* fetch throws, the HTTP body is not JSON, or the
                        content of the reply is neither absent nor a string *)
  | NotJson          (* JSON.parse throws, or the document is null *)
  | JsonNoSubjects   (* a document whose "subjects" is absent or not an array *)
  | JsonSubjects (subjects : list (option RawBucket)).
                     (* "subjects" is an array; a null element is [None] *)

(** A bucket of the classifier; [questionCount] is a Number (see
    [JS.toNumber]). *)
Record Bucket := {
  b_subject : string;
  b_topic : option string;
  questionCount : Z;
}.

Module Classifier.

Definition keywords : list string :=
  ["drawn"; "drawing"; "image"; "whiteboard"; "uploaded"; "shape"; "diagram"].

Definition isRelevant (msg : Message) : bool :=
  if bool_decide (sender msg = "user") && JS.truthy_string (text msg)
     && Nat.ltb 2 (JS.length (default "" (text msg)))
  then true
  else if bool_decide (sender msg = "bot") && JS.truthy_string (text msg)
  then let lowerText := JS.toLowerCase (default "" (text msg)) in
       existsb (λ k, JS.includes k lowerText) keywords
  else false.

(** [Math.max(1, parseInt(s.questionCount) || 1)]: a Number, at least 1. *)
Definition normaliseCount (c : string) : Z :=
  Z.max 1 (match JS.parseIntAuto c with
           | Some n => if Z.eqb n 0 then 1 else JS.toNumber n
           | None => 1
           end).

Definition normalise (s : RawBucket) : Bucket :=
  {| b_subject := JS.or_string (raw_subject s) "Unknown";
     b_topic := JS.or_null (raw_topic s);
     questionCount := normaliseCount (raw_questionCount s) |}.

Definition unknown (n : Z) : Bucket :=
  {| b_subject := "Unknown"; b_topic := None; questionCount := n |}.

Definition isReal (s : Bucket) : bool :=
  negb (bool_decide (b_subject s = "Unknown")) &&
  negb (bool_decide (b_subject s = "General")).

Definition mixedLabel (names : list string) : string :=
  "General Practice - Mixed: " +:+ JS.join ", " names.

(** [uniqueSubjects.reduce((sum, s) => sum + s.questionCount, 0)]. *)
Definition sumCounts (l : list Bucket) : Z :=
  fold_left (λ sum s, JS.plus sum (questionCount s)) l 0.

(** [subjects.map(s => ...)]: reading a field of a null element throws
    ([None]). *)
Fixpoint normaliseAll (subjects : list (option RawBucket)) : option (list Bucket) :=
  match subjects with
  | [] => Some []
  | None :: _ => None
  | Some s :: rest =>
      match normaliseAll rest with
      | Some l => Some (normalise s :: l)
      | None => None
      end
  end.

(** The body of the inner [try]: what is returned once the reply has been
    read, [None] when a [TypeError] is raised on a null element. *)
Definition fromSubjects (subjects : list (option RawBucket)) (relevant : Z)
  : option (list Bucket) :=
  match subjects with
  | [] => Some [unknown relevant]
  | _ =>
      match normaliseAll subjects with
      | None => None
      | Some mapped =>
          let sortedSubjects := JS.sort_desc questionCount mapped in
          let uniqueSubjects := List.filter isReal sortedSubjects in
          match uniqueSubjects with
          | [] => Some [unknown relevant]
          | [_] => Some uniqueSubjects
          | _ =>
              let subjectNames := map b_subject uniqueSubjects in
              let totalQuestions := sumCounts uniqueSubjects in
              Some [ {| b_subject := mixedLabel subjectNames; b_topic := None;
                        questionCount := totalQuestions |} ]
          end
      end
  end.

Definition detectAllSubjectsFromConversation
    (reply : OracleReply) (messages : list Message) : list Bucket :=
  let relevantMessages := List.filter isRelevant messages in
  let n := Z.of_nat (length relevantMessages) in
  match relevantMessages with
  | [] => [unknown 0]
  | _ =>
      match reply with
      | Unreadable => [unknown 1]
      | NotJson => [unknown n]
      | JsonNoSubjects => [unknown n]
      | JsonSubjects subjects =>
          match fromSubjects subjects n with
          | Some r => r
          | None => [unknown n]
          end
      end
  end.

End Classifier.

(** ** Session store accessor (userService) *)

(** Work dispatched by [updateSession] without awaiting it. *)
Inductive Job :=
  | RecalculateSessionMetrics (i : SessionId)
  | DetectDominantSubject (i : SessionId) (realMessages : list Message).

Module UserService.

Definition noLastPoint (s : Session) : bool :=
  match lastPoint s with
  | None => true
  | Some p => bool_decide (p = "")
  end.

(** The [where] clause of [getActiveSession]. *)
Definition isActiveOf (u : UserId) (s : Session) : bool :=
  bool_decide (userId s = u) && negb (completed s) && noLastPoint s.

Definition hasData (s : Session) : bool :=
  match data s with Some _ => true | None => false end.

(** The selection loop of [getActiveSession]. *)
Fixpoint selectValid (l : list Session) (validSession : option Session)
    (sessionsToDelete : list SessionId) : option Session * list SessionId :=
  match l with
  | [] => (validSession, sessionsToDelete)
  | session :: rest =>
      if hasData session && negb (bool_decide (is_Some validSession))
      then selectValid rest (Some session) sessionsToDelete
      else selectValid rest validSession (sessionsToDelete ++ [id session])
  end.

(** [indexOf] followed by [splice(index, 1)]. *)
Fixpoint removeFirst (x : SessionId) (l : list SessionId) : list SessionId :=
  match l with
  | [] => []
  | y :: l' => if bool_decide (y = x) then l' else y :: removeFirst x l'
  end.

(** The deletion loop: each deletion is in its own [try]. *)
Fixpoint deleteEach (fault : SessionId → bool) (ids : list SessionId) (db : Db) : Db :=
  match ids with
  | [] => db
  | i :: rest => deleteEach fault rest (Prisma.delete fault db i).2
  end.

Definition findActive (u : UserId) (db : Db) : list Session :=
  JS.sort_desc updatedAt (List.filter (isActiveOf u) (sessions db)).

Definition getActiveSession (fault : SessionId → bool) (u : UserId) (db : Db)
  : option Session * Db :=
  let activeSessions := findActive u db in
  match activeSessions with
  | [] => (None, db)
  | [s] => (Some s, db)
  | first :: _ =>
      let '(validSession, sessionsToDelete) := selectValid activeSessions None [] in
      let '(validSession, sessionsToDelete) :=
        match validSession with
        | Some v => (v, sessionsToDelete)
        | None => (first, removeFirst (id first) sessionsToDelete)
        end in
      (Some validSession, deleteEach fault sessionsToDelete db)
  end.

(** The settings read that follows the insertion only writes a log line. *)
Definition createSession (fault : SessionId → bool) (now : Z) (u : UserId)
    (data : SessionPatch) (db : Db) : Session * Db :=
  let '(existingActive, db) := getActiveSession fault u db in
  match existingActive with
  | Some s => (s, db)
  | None => Prisma.create db now u data
  end.

Definition resumeSession (i : SessionId) (u : UserId) (db : Db) : result Session :=
  match List.find (λ s, bool_decide (id s = i) && bool_decide (userId s = u)) (sessions db) with
  | None => Throw (Err "Session not found or unauthorized")
  | Some session =>
      if completed session then Throw (Err "Cannot resume a completed session")
      else Ok session
  end.

(** [None] is the [null] returned for a row that is already gone. *)
Definition deleteSession (fault : SessionId → bool) (i : SessionId) (db : Db)
  : result (option Session) * Db :=
  match Prisma.delete fault db i with
  | (Ok s, db') => (Ok (Some s), db')
  | (Throw P2025, db') => (Ok None, db')
  | (Throw e, db') => (Throw e, db')
  end.

(** *** updateSession *)

Definition notWelcome (msg : Message) : bool := negb (bool_decide (msg_id msg = "1")).

Definition fromUser (msg : Message) : bool := bool_decide (sender msg = "user").

Definition setSubject (b : Bucket) (s : Session) : Session :=
  Prisma.assign
    {| p_userId := None; p_data := None; p_completed := None; p_lastPoint := None;
       p_subject := Some (Some (b_subject b)); p_topic := Some (b_topic b);
       p_duration := None; p_questionsAnswered := None; p_correctAnswers := None |} s.

Definition setMetrics (joy photos : Z) (s : Session) : Session :=
  {| id := id s; userId := userId s; data := data s; completed := completed s;
     lastPoint := lastPoint s; subject := subject s; topic := topic s;
     duration := duration s; questionsAnswered := questionsAnswered s;
     correctAnswers := correctAnswers s; photoUploadsCount := photos;
     aiInteractions := aiInteractions s; spreadingJoyActions := joy;
     createdAt := createdAt s; updatedAt := updatedAt s |}.

(** The two computations queued when the patch carries messages. *)
Definition backgroundJobs (i : SessionId) (patch : SessionPatch) : list Job :=
  match p_data patch with
  | None => []
  | Some sessionData =>
      match messages sessionData with
      | [] => []
      | msgs =>
          RecalculateSessionMetrics i ::
          match List.filter notWelcome msgs with
          | [] => []
          | realMessages => [DetectDominantSubject i realMessages]
          end
      end
  end.

(** One iteration of the loop over [allSubjects]. A share that is [Infinity]
    or [NaN] (no user message: [totalQuestions] is 0) is rejected by the store
    for an integer column: [None]. *)
Definition progressRecord (session : Session) (sessionData : SessionData)
    (allSubjects : list Bucket) (totalQuestions : Z) (subjectData : Bucket)
  : option Progress :=
  let timeSpent := duration session in
  let proportion :=
    (Double.ofZ (questionCount subjectData) / Double.ofZ totalQuestions)%float in
  let subjectQuestionsAttempted := questionCount subjectData in
  match Double.Math_round (Double.ofZ timeSpent * proportion)%float,
        Double.Math_round (Double.ofZ (correctAnswers session) * proportion)%float with
  | Some subjectTimeSpent, Some subjectQuestionsCorrect =>
      Some {| pr_userId := userId session;
              pr_subject := b_subject subjectData;
              pr_topic := JS.or_null (b_topic subjectData);
              score := 0;
              accuracy := 0;
              timeSpent := subjectTimeSpent;
              questionsAttempted := subjectQuestionsAttempted;
              questionsCorrect := subjectQuestionsCorrect;
              questionsWrong := Z.max 0 (subjectQuestionsAttempted - subjectQuestionsCorrect);
              level := "beginner";
              metadata :=
                {| sessionId := id session;
                   hasWhiteboard :=
                     match whiteboard sessionData with
                     | NullWhiteboard => false
                     | NoWhiteboard | Drawing _ => true
                     end;
                   photoUploads := photoUploadsCount session;
                   meta_aiInteractions := aiInteractions session;
                   isMultiSubjectSession := Nat.ltb 1 (length allSubjects);
                   totalSubjectsInSession := length allSubjects |} |}
  | _, _ => None
  end.

(** The loop itself; a rejected row ends it (the enclosing [catch]). *)
Fixpoint createProgressRecords (session : Session) (sessionData : SessionData)
    (allSubjects : list Bucket) (totalQuestions : Z) (todo : list Bucket) (db : Db) : Db :=
  match todo with
  | [] => db
  | subjectData :: rest =>
      match progressRecord session sessionData allSubjects totalQuestions subjectData with
      | None => db
      | Some p =>
          createProgressRecords session sessionData allSubjects totalQuestions rest
            (Prisma.createProgress db p)
      end
  end.

(** The block run when the patch marks the session completed. [session] is
    the row as returned by the first update. *)
Definition recordCompletion (reply : OracleReply) (now : Z) (session : Session) (db : Db) : Db :=
  match data session with
  | None => db
  | Some sessionData =>
      match List.filter notWelcome (messages sessionData) with
      | [] => db
      | realMessages =>
          let questionsAsked := Z.of_nat (length (List.filter fromUser realMessages)) in
          let allSubjects :=
            Classifier.detectAllSubjectsFromConversation reply realMessages in
          let backfilled :=
            match allSubjects with
            | primarySubject :: _ =>
                if negb (JS.truthy_string (subject session))
                then match Prisma.update db now (id session) (setSubject primarySubject) with
                     | (Ok _, db') => Some db'
                     | (Throw _, _) => None
                     end
                else Some db
            | [] => Some db
            end in
          match backfilled with
          | None => db
          | Some db' =>
              createProgressRecords session sessionData allSubjects questionsAsked
                allSubjects db'
          end
      end
  end.

Definition updateSession (reply : OracleReply) (now : Z) (i : SessionId)
    (patch : SessionPatch) (db : Db) : result (Session * list Job) * Db :=
  match Prisma.update db now i (Prisma.assign patch) with
  | (Throw e, db') => (Throw e, db')
  | (Ok session, db') =>
      let jobs := backgroundJobs i patch in
      if bool_decide (p_completed patch = Some true) && hasData session
      then (Ok (session, jobs), recordCompletion reply now session db')
      else (Ok (session, jobs), db')
  end.

(** *** The queued computations *)

Definition isPhotoUpload (msg : Message) : bool :=
  fromUser msg && JS.truthy_string (text msg) &&
  (JS.includes "<img" (default "" (text msg)) ||
   JS.includes "[Whiteboard Submission]" (default "" (text msg))).

(** [spreadingJoyCount] is the answer of [analyzeSpreadingJoyInMessages]. *)
Definition recalculateSessionMetrics (spreadingJoyCount : Z) (now : Z) (i : SessionId)
    (db : Db) : option Session * Db :=
  match Prisma.findUnique db i with
  | None => (None, db)
  | Some session =>
      match data session with
      | None => (None, db)
      | Some sessionData =>
          match messages sessionData with
          | [] => (Some session, db)
          | msgs =>
              let photoUploadsCount := Z.of_nat (length (List.filter isPhotoUpload msgs)) in
              match Prisma.update db now i (setMetrics spreadingJoyCount photoUploadsCount) with
              | (Ok s, db') => (Some s, db')
              | (Throw _, db') => (None, db')
              end
          end
      end
  end.

Inductive JobOutcome :=
  | JobDone
  | JobFailed.   (* the rejection handler ran: the failure is only logged *)

Definition runJob (spreadingJoyCount : Z) (reply : OracleReply) (now : Z) (j : Job) (db : Db)
  : JobOutcome * Db :=
  match j with
  | RecalculateSessionMetrics i =>
      (JobDone, (recalculateSessionMetrics spreadingJoyCount now i db).2)
  | DetectDominantSubject i realMessages =>
      match Classifier.detectAllSubjectsFromConversation reply realMessages with
      | [] => (JobFailed, db)
      | dominantSubject :: _ =>
          match Prisma.update db now i (setSubject dominantSubject) with
          | (Ok _, db') => (JobDone, db')
          | (Throw _, db') => (JobFailed, db')
          end
      end
  end.

End UserService.

(** ** Metrics aggregator *)

Module Metrics.

(** *** Streaks (getProgressMetrics) *)

(** The [Set] of local midnights, then [sort((a, b) => b - a)]. *)
Definition sessionDays (tz : Z) (createdAts : list Z) : list Z :=
  JS.sort_desc (λ d, d) (remove_dups (map (startOfDay tz) createdAts)).

(** The first loop, from index [i] on: count while the [i]-th date is the
    [i]-th day before today. *)
Fixpoint countCurrent (tz today i : Z) (sortedDates : list Z) : Z :=
  match sortedDates with
  | [] => 0
  | sessionDate :: rest =>
      let expectedDate := startOfDay tz (minusDays today i) in
      if Z.eqb (startOfDay tz sessionDate) expectedDate
      then 1 + countCurrent tz today (i + 1) rest
      else 0
  end.

(** The second loop: [prevDate] is [sortedDates[i - 1]]. Returns
    [(tempStreak, longestStreak)]. *)
Fixpoint longestLoop (prevDate : Z) (rest : list Z) (tempStreak longestStreak : Z) : Z * Z :=
  match rest with
  | [] => (tempStreak, longestStreak)
  | currDate :: rest' =>
      let diffDays := (prevDate - currDate) / DAY_MS in
      if Z.eqb diffDays 1
      then longestLoop currDate rest' (tempStreak + 1) (Z.max longestStreak (tempStreak + 1))
      else longestLoop currDate rest' 1 longestStreak
  end.

Record Streaks := { currentStreak : Z; longestStreak : Z }.

(** The streak part of [getProgressMetrics], from the [createdAt] column of
    the user's sessions. *)
Definition streaks (tz now : Z) (createdAts : list Z) : Streaks :=
  match createdAts with
  | [] => {| currentStreak := 0; longestStreak := 0 |}
  | _ =>
      let sortedDates := sessionDays tz createdAts in
      let today := startOfDay tz now in
      let current := countCurrent tz today 0 sortedDates in
      let '(tempStreak, longest) :=
        match sortedDates with
        | [] => (1, 0)
        | first :: rest => longestLoop first rest 1 0
        end in
      {| currentStreak := current;
         longestStreak := Z.max (Z.max longest tempStreak) current |}
  end.

(** *** Star progress (calculateStarProgress) *)

Definition STUDY_GOAL_MINUTES : Q := 120%Q.
Definition QUESTIONS_GOAL : Q := 20%Q.

Definition starProgressOf (minutes questions : Z) : Z :=
  let studyProgress := Qmin (inject_Z minutes / STUDY_GOAL_MINUTES * 100)%Q 100%Q in
  let questionsProgress := Qmin (inject_Z questions / QUESTIONS_GOAL * 100)%Q 100%Q in
  let streakProgress : Q := if Z.ltb 0 minutes then 100%Q else 0%Q in
  let totalProgress :=
    (studyProgress * (4 # 10) + questionsProgress * (3 # 10) + streakProgress * (3 # 10))%Q in
  Z.min (JS.Math_round totalProgress) 100.

Definition isActivityOf (u : UserId) (day : Z) (a : UserActivity) : bool :=
  bool_decide (ua_userId a = u) && Z.eqb (date a) day.

(** Modelled from the spec: the column defaults of the UserActivity table
    (the Prisma schema is not part of the sources); a row created lazily for
    today starts with all counters at zero. *)
Definition newActivity (u : UserId) (day : Z) : UserActivity :=
  {| ua_userId := u; date := day; studyMinutes := 0; ua_questionsAnswered := 0;
     photoQuestions := 0; positiveActions := 0; starProgress := 0 |}.

Definition getTodayActivity (tz now : Z) (u : UserId) (acts : list UserActivity)
  : UserActivity * list UserActivity :=
  let today := startOfDay tz now in
  match List.find (isActivityOf u today) acts with
  | Some activity => (activity, acts)
  | None => (newActivity u today, acts ++ [newActivity u today])
  end.

Definition setStarProgress (p : Z) (a : UserActivity) : UserActivity :=
  {| ua_userId := ua_userId a; date := date a; studyMinutes := studyMinutes a;
     ua_questionsAnswered := ua_questionsAnswered a; photoQuestions := photoQuestions a;
     positiveActions := positiveActions a; starProgress := p |}.

(** [prisma.userActivity.upsert] on the key (userId, date). *)
Definition updateTodayActivity (tz now : Z) (u : UserId)
    (updates : UserActivity → UserActivity) (acts : list UserActivity) : list UserActivity :=
  let today := startOfDay tz now in
  match List.find (isActivityOf u today) acts with
  | Some _ => map (λ a, if isActivityOf u today a then updates a else a) acts
  | None => acts ++ [updates (newActivity u today)]
  end.

Definition calculateStarProgress (tz now : Z) (u : UserId) (acts : list UserActivity)
  : Z * list UserActivity :=
  let '(activity, acts) := getTodayActivity tz now u acts in
  let progress := starProgressOf (studyMinutes activity) (ua_questionsAnswered activity) in
  (progress, updateTodayActivity tz now u (setStarProgress progress) acts).

(** The formula as the specification words it: the weighted sum, rounded to
    the nearest integer and clamped to [0, 100]. *)
Definition specStarProgress (minutes questions : Z) : Z :=
  let weighted :=
    (40 * Qmin (inject_Z minutes / 120) 1 + 30 * Qmin (inject_Z questions / 20) 1
     + 30 * (if Z.ltb 0 minutes then 1 else 0))%Q in
  Z.max 0 (Z.min 100 (JS.Math_round weighted)).

(** The same computation as [starProgressOf], on binary64 floats as the
    code runs it (0.4 and 0.3 are the doubles nearest to them). *)
Definition starProgressDouble (minutes questions : Z) : option Z :=
  let studyProgress :=
    Double.Math_min (Double.ofZ minutes / Double.ofZ 120 * Double.ofZ 100)%float
      (Double.ofZ 100) in
  let questionsProgress :=
    Double.Math_min (Double.ofZ questions / Double.ofZ 20 * Double.ofZ 100)%float
      (Double.ofZ 100) in
  let streakProgress := if Z.ltb 0 minutes then Double.ofZ 100 else Double.ofZ 0 in
  let totalProgress :=
    (studyProgress * 0x1.999999999999ap-2 + questionsProgress * 0x1.3333333333333p-2
     + streakProgress * 0x1.3333333333333p-2)%float in
  match Double.Math_round totalProgress with
  | Some r => Some (Z.min r 100)
  | None => None
  end.

End Metrics.

(** ** Retention policy and cleanup engine *)

Module AdminService.

Definition DEFAULT_SETTINGS : AdminSettings :=
  {| dataRetention := true; retentionDuration := "30" |}.

(** [getSettings]: the stored row, or the defaults it creates when there is
    none. *)
Definition getSettings (row : option AdminSettings) : AdminSettings :=
  default DEFAULT_SETTINGS row.

End AdminService.

(** The outcome of reading the settings row. *)
Inductive SettingsRead :=
  | ReadFails
  | ReadRow (row : option AdminSettings).

(** [number | null], where the number may be [NaN]. *)
Inductive DurationDays :=
  | DaysNull
  | DaysNaN
  | Days (n : Z).

Record RetentionSettings := {
  enabled : bool;
  durationDays : DurationDays;
}.

Record CleanupResult := {
  sessionsDeleted : Z;
  filesDeleted : Z;
  errors : Z;
}.

(** The blob store, as far as the cleanup uses it. *)
Record S3 := {
  isConfigured : bool;
  deleteFile : string → bool;
}.

Module CleanupService.

Definition getRetentionSettings (read : SettingsRead) : RetentionSettings :=
  match read with
  | ReadFails => {| enabled := true; durationDays := Days 30 |}
  | ReadRow None => {| enabled := true; durationDays := Days 30 |}
  | ReadRow (Some settings) =>
      {| enabled := dataRetention settings;
         durationDays :=
           if bool_decide (retentionDuration settings = "never") then DaysNull
           else match JS.parseInt (retentionDuration settings) with
                | Some n => Days n
                | None => DaysNaN
                end |}
  end.

Definition isS3Url (u : option string) : bool :=
  JS.truthy_string u &&
  (JS.includes ".s3." (default "" u) || JS.includes "s3.amazonaws.com" (default "" u)).

Definition attachmentUrls (atts : list Attachment) : list string :=
  omap (λ a, if isS3Url (url a) then url a else None) atts.

Definition messageUrls (m : Message) : list string :=
  attachmentUrls (attachments m) ++
  (if isS3Url (image m) then [default "" (image m)] else []).

Definition extractFileUrlsFromSession (sessionData : option SessionData) : list string :=
  match sessionData with
  | None => []
  | Some d =>
      concat (map messageUrls (messages d)) ++ concat (map attachmentUrls (chatHistory d))
  end.

Definition deleteMultipleFiles (s3 : S3) (fileUrls : list string) : Z :=
  Z.of_nat (length (List.filter (deleteFile s3) fileUrls)).

(** The loop over the stale sessions; each iteration is in its own [try]. *)
Fixpoint cleanupEach (s3 : S3) (fault : SessionId → bool) (old : list Session)
    (result : CleanupResult) (db : Db) : CleanupResult * Db :=
  match old with
  | [] => (result, db)
  | session :: rest =>
      let fileUrls := extractFileUrlsFromSession (data session) in
      let deletedCount :=
        if Nat.ltb 0 (length fileUrls) && isConfigured s3
        then deleteMultipleFiles s3 fileUrls else 0 in
      let result :=
        {| sessionsDeleted := sessionsDeleted result;
           filesDeleted := filesDeleted result + deletedCount;
           errors := errors result |} in
      match Prisma.delete fault db (id session) with
      | (Ok _, db') =>
          cleanupEach s3 fault rest
            {| sessionsDeleted := sessionsDeleted result + 1;
               filesDeleted := filesDeleted result;
               errors := errors result |} db'
      | (Throw _, db') =>
          cleanupEach s3 fault rest
            {| sessionsDeleted := sessionsDeleted result;
               filesDeleted := filesDeleted result;
               errors := errors result + 1 |} db'
      end
  end.

Definition noResult : CleanupResult :=
  {| sessionsDeleted := 0; filesDeleted := 0; errors := 0 |}.

Definition cleanupOldSessions (read : SettingsRead) (s3 : S3) (fault : SessionId → bool)
    (now : Z) (db : Db) : CleanupResult * Db :=
  let retention := getRetentionSettings read in
  if negb (enabled retention) then (noResult, db)
  else match durationDays retention with
       | DaysNull => (noResult, db)
       | Days n =>
           let cutoffDate := minusDays now n in
           if negb (validDate cutoffDate)
           then
             (* an invalid date: printing it in the log line throws, the outer
                catch counts it *)
             ({| sessionsDeleted := 0; filesDeleted := 0; errors := 1 |}, db)
           else
             let oldSessions :=
               List.filter (λ s, completed s && Z.ltb (updatedAt s) cutoffDate)
                 (sessions db) in
             cleanupEach s3 fault oldSessions noResult db
       | DaysNaN =>
           (* an invalid date again *)
           ({| sessionsDeleted := 0; filesDeleted := 0; errors := 1 |}, db)
       end.

(** The deletion loop of [cleanupIncompleteSessions]; [None] when a deletion
    throws, which ends the loop in the enclosing [catch]. *)
Fixpoint deleteAll (fault : SessionId → bool) (l : list Session) (deletedCount : Z) (db : Db)
  : option Z * Db :=
  match l with
  | [] => (Some deletedCount, db)
  | session :: rest =>
      match Prisma.delete fault db (id session) with
      | (Ok _, db') => deleteAll fault rest (deletedCount + 1) db'
      | (Throw _, db') => (None, db')
      end
  end.

Definition cleanupIncompleteSessions (fault : SessionId → bool) (olderThanDays now : Z)
    (db : Db) : Z * Db :=
  let cutoffDate := minusDays now olderThanDays in
  let incompleteSessions :=
    List.filter (λ s, negb (completed s) && Z.ltb (createdAt s) cutoffDate) (sessions db) in
  let sessionsToDelete := List.filter (λ s, negb (UserService.hasData s)) incompleteSessions in
  match deleteAll fault sessionsToDelete 0 db with
  | (Some n, db') => (n, db')
  | (None, db') => (0, db')
  end.

Record FullCleanup := {
  completedSessions : Z * Z;
  incompleteSessions : Z;
  totalErrors : Z;
}.

Definition runFullCleanup (read : SettingsRead) (s3 : S3) (fault : SessionId → bool)
    (now : Z) (db : Db) : FullCleanup * Db :=
  let '(completedResult, db) := cleanupOldSessions read s3 fault now db in
  let '(incompleteCount, db) := cleanupIncompleteSessions fault 7 now db in
  ({| completedSessions := (sessionsDeleted completedResult, filesDeleted completedResult);
      incompleteSessions := incompleteCount;
      totalErrors := errors completedResult |}, db).

End CleanupService.

Module Retention.

Definition retentionOff (settings : AdminSettings) : bool :=
  negb (dataRetention settings) || bool_decide (retentionDuration settings = "never").

(** [userService.cleanupSessionsByRetentionPolicy]; the count returned and
    the table afterwards. *)
Definition cleanupSessionsByRetentionPolicy (row : option AdminSettings) (now : Z) (db : Db)
  : Z * Db :=
  let settings := AdminService.getSettings row in
  if retentionOff settings then Prisma.deleteMany db (λ _, true)
  else
    let retentionDays :=
      JS.parseInt (if bool_decide (retentionDuration settings = "") then "30"
                   else retentionDuration settings) in
    match retentionDays with
    | Some n =>
        if Z.ltb 0 n
        then let cutoffDate := minusDays now n in
             Prisma.deleteMany db (λ s, Z.ltb (updatedAt s) cutoffDate)
        else (0, db)
    | None => (0, db)
    end.

(** [DataRetentionScheduler.cleanupExpiredSessions]. *)
Definition cleanupExpiredSessions (row : option AdminSettings) (now : Z) (db : Db) : Db :=
  match row with
  | None => db
  | Some adminSettings =>
      if retentionOff adminSettings then (Prisma.deleteMany db (λ _, true)).2
      else
        let expire (days : Z) :=
          (Prisma.deleteMany db (λ s, Z.ltb (createdAt s) (now - days * DAY_MS))).2 in
        if bool_decide (retentionDuration adminSettings = "7") then expire 7
        else if bool_decide (retentionDuration adminSettings = "30") then expire 30
        else if bool_decide (retentionDuration adminSettings = "90") then expire 90
        else db
  end.

End Retention.


(** ** Vocabulary of the specification *)

(** A reply that is read but that the classifier cannot use: text that is
    not JSON, a document without a "subjects" array, an empty array, or an
    array with a null element. *)
Definition malformed (reply : OracleReply) : Prop :=
  match reply with
  | Unreadable => False
  | NotJson | JsonNoSubjects => True
  | JsonSubjects subjects => subjects = [] ∨ None ∈ subjects
  end.

(** The sum of the counts as integers. *)
Definition exactSum (l : list Bucket) : Z := foldr (λ s t, questionCount s + t) 0 l.

(** What a Progress row attributes to its subject. *)
Definition attribution (p : Progress) : Z * Z := (questionsAttempted p, questionsCorrect p).

(** Whether the deletion loop, run on [ids], removes row [s]: its id is
    listed and the store does not reject its deletion. *)
Definition shouldGo (fault : SessionId → bool) (ids : list SessionId) (s : Session) : bool :=
  existsb (λ i, bool_decide (id s = i) && negb (fault i)) ids.

(** True-active, whoever the owner: not completed and no resume marker. *)
Definition isActive (s : Session) : bool := negb (completed s) && UserService.noLastPoint s.

(** The invariant of the session table: at most one true-active session per
    user. *)
Definition atMostOneActive (db : Db) : Prop :=
  ∀ u, (length (List.filter (UserService.isActiveOf u) (sessions db)) ≤ 1)%nat.

(** Primary keys are unique and below the key generator. *)
Definition wellKeyed (db : Db) : Prop :=
  NoDup (id <$> sessions db) ∧ ∀ s, s ∈ sessions db → (id s < nextId db)%nat.

(** A table in a state the accessor can maintain. *)
Definition good (db : Db) : Prop := wellKeyed db ∧ atMostOneActive db.

(** A request to the session store accessor. An update comes with the
    answers the oracle gives to its completion block ([reply]) and to the
    computations it queues ([spreadingJoyCount], [queuedReply]). *)
Inductive Call :=
  | CreateSession (u : UserId) (data : SessionPatch)
  | UpdateSession (i : SessionId) (patch : SessionPatch) (reply : OracleReply)
      (spreadingJoyCount : Z) (queuedReply : OracleReply)
  | ResumeSession (i : SessionId) (u : UserId).

Definition runJobs (spreadingJoyCount : Z) (reply : OracleReply) (now : Z)
    (jobs : list Job) (db : Db) : Db :=
  fold_left (λ d j, (UserService.runJob spreadingJoyCount reply now j d).2) jobs db.

(** The table after one call made at time [now]; the computations queued by
    an update are run once the update has returned. *)
Definition call (fault : SessionId → bool) (now : Z) (c : Call) (db : Db) : Db :=
  match c with
  | CreateSession u data => (UserService.createSession fault now u data db).2
  | UpdateSession i patch reply spreadingJoyCount queuedReply =>
      match UserService.updateSession reply now i patch db with
      | (Ok (_, jobs), db') => runJobs spreadingJoyCount queuedReply now jobs db'
      | (Throw _, db') => db'
      end
  | ResumeSession i u => let _ := UserService.resumeSession i u db in db
  end.

Definition run (fault : SessionId → bool) (trace : list (Z * Call)) (db : Db) : Db :=
  fold_left (λ d c, call fault c.1 c.2 d) trace db.

(** User [v] has a true-active session. *)
Definition hasActive (db : Db) (v : UserId) : bool :=
  existsb (UserService.isActiveOf v) (sessions db).

(** User [v] has a true-active session other than row [i]. *)
Definition hasOtherActive (db : Db) (i : SessionId) (v : UserId) : bool :=
  existsb (λ r, negb (bool_decide (id r = i)) && UserService.isActiveOf v r) (sessions db).

(** The patch leaves row [i] true-active while the owner it leaves the row
    with has another true-active session. *)
Definition doublesByUpdate (db : Db) (i : SessionId) (patch : SessionPatch) : bool :=
  match Prisma.findUnique db i with
  | None => false
  | Some s =>
      let s' := Prisma.assign patch s in
      isActive s' && hasOtherActive db i (userId s')
  end.

(** The call inserts (the caller has no true-active session) a row that is
    true-active for a user who already has a true-active session. *)
Definition doublesByCreate (db : Db) (u : UserId) (data : SessionPatch) : bool :=
  let row := Prisma.assign data (Prisma.defaultRow (nextId db) u 0) in
  negb (hasActive db u) && isActive row && hasActive db (userId row).

(** The call does not give a second true-active session to a user who has
    one. *)
Definition guarded (db : Db) (c : Call) : bool :=
  match c with
  | CreateSession u data => negb (doublesByCreate db u data)
  | UpdateSession i patch _ _ _ => negb (doublesByUpdate db i patch)
  | ResumeSession _ _ => true
  end.

(** Every call of the trace is guarded in the state it is made in. *)
Fixpoint guardedRun (fault : SessionId → bool) (trace : list (Z * Call)) (db : Db) : bool :=
  match trace with
  | [] => true
  | c :: rest => guarded db c.2 && guardedRun fault rest (call fault c.1 c.2 db)
  end.

(** [d] is a local midnight. *)
Definition aligned (tz d : Z) : Prop := startOfDay tz d = d.

(** The user has a session created on the calendar day that starts at [d]. *)
Definition onDay (tz : Z) (createdAts : list Z) (d : Z) : Prop :=
  ∃ t, t ∈ createdAts ∧ startOfDay tz t = d.

(** The [k] calendar days that end with the day starting at [d] all satisfy
    [S]: a run of [k] consecutive days. *)
Definition consecutiveDays (S : Z → Prop) (d k : Z) : Prop :=
  ∀ j, 0 ≤ j < k → S (minusDays d j).

(** A list of local midnights in strictly decreasing order. *)
Definition calendar (tz : Z) (l : list Z) : Prop :=
  StronglySorted (λ a b, b < a) l ∧ Forall (aligned tz) l.

(** The patch that marks a session completed. *)
Definition markCompleted : SessionPatch :=
  {| p_userId := None; p_data := None; p_completed := Some true; p_lastPoint := None;
     p_subject := None; p_topic := None; p_duration := None;
     p_questionsAnswered := None; p_correctAnswers := None |}.

(** Concrete data used in the examples below. *)
Module Examples.

Definition noFault : SessionId → bool := λ _, false.

Definition emptyDb : Db := {| sessions := []; progress := []; nextId := 0%nat |}.

Definition msg (i who t : string) : Message :=
  {| msg_id := i; sender := who; text := Some t; attachments := []; image := None |}.

Definition question (i : string) : Message := msg i "user" "what is the next step?".

(** A welcome message followed by ten user questions. *)
Definition tenQuestions : SessionData :=
  {| messages :=
       msg "1" "bot" "Welcome!" ::
       map question ["2"; "3"; "4"; "5"; "6"; "7"; "8"; "9"; "10"; "11"];
     whiteboard := NoWhiteboard;
     chatHistory := [] |}.

Definition studySession : Session :=
  {| id := 0%nat; userId := "alice"; data := Some tenQuestions; completed := false;
     lastPoint := None; subject := None; topic := None; duration := 600;
     questionsAnswered := 10; correctAnswers := 6; photoUploadsCount := 0;
     aiInteractions := 0; spreadingJoyActions := 0; createdAt := 1000; updatedAt := 2000 |}.

Definition studyDb : Db :=
  {| sessions := [studySession]; progress := []; nextId := 1%nat |}.

Definition rawBucket (s t count : string) : RawBucket :=
  {| raw_subject := Some s; raw_topic := Some t; raw_questionCount := count |}.

Definition maths : Bucket :=
  {| b_subject := "Mathematics"; b_topic := Some "Algebra"; questionCount := 7 |}.

Definition physics : Bucket :=
  {| b_subject := "Physics"; b_topic := Some "Mechanics"; questionCount := 3 |}.

(** The oracle attributes seven questions to one subject and three to another. *)
Definition twoSubjects : OracleReply :=
  JsonSubjects [Some (rawBucket "Mathematics" "Algebra" "7");
                Some (rawBucket "Physics" "Mechanics" "3")].

(** A session completed and last updated four hundred days before [later]. *)
Definition oldSession : Session :=
  {| id := 0%nat; userId := "alice"; data := None; completed := true;
     lastPoint := None; subject := None; topic := None; duration := 600;
     questionsAnswered := 10; correctAnswers := 6; photoUploadsCount := 0;
     aiInteractions := 0; spreadingJoyActions := 0; createdAt := 0; updatedAt := 0 |}.

Definition archive : Db := {| sessions := [oldSession]; progress := []; nextId := 1%nat |}.

Definition later : Z := 400 * DAY_MS.

(** Initial data that carries a resume marker. *)
Definition paused : SessionPatch :=
  {| p_userId := None; p_data := None; p_completed := None;
     p_lastPoint := Some (Some "question 3");
     p_subject := None; p_topic := None; p_duration := None;
     p_questionsAnswered := None; p_correctAnswers := None |}.

(** A patch that clears the resume marker. *)
Definition unpause : SessionPatch :=
  {| p_userId := None; p_data := None; p_completed := None;
     p_lastPoint := Some None;
     p_subject := None; p_topic := None; p_duration := None;
     p_questionsAnswered := None; p_correctAnswers := None |}.


(** Start a session, pause it, start another one, clear the resume marker of
    the first. *)
Definition pauseAndReturn : list (Z * Call) :=
  [(10, CreateSession "alice" emptyPatch);
   (20, UpdateSession 0%nat paused NotJson 0 NotJson);
   (30, CreateSession "alice" emptyPatch);
   (40, UpdateSession 0%nat unpause NotJson 0 NotJson)].

(** Start a session, pause it, resume it by clearing the resume marker,
    ask for a session again, complete the session. *)
Definition pauseAndResume : list (Z * Call) :=
  [(10, CreateSession "alice" emptyPatch);
   (20, UpdateSession 0%nat paused NotJson 0 NotJson);
   (30, ResumeSession 0%nat "alice");
   (40, UpdateSession 0%nat unpause NotJson 0 NotJson);
   (50, CreateSession "alice" emptyPatch);
   (60, UpdateSession 0%nat markCompleted NotJson 0 NotJson)].

(** Three true-active sessions of one user; the store rejects the deletion
    of the first. *)
Definition dup (i : SessionId) (d : option SessionData) (t : Z) : Session :=
  {| id := i; userId := "alice"; data := d; completed := false;
     lastPoint := None; subject := None; topic := None; duration := 0;
     questionsAnswered := 0; correctAnswers := 0; photoUploadsCount := 0;
     aiInteractions := 0; spreadingJoyActions := 0; createdAt := t; updatedAt := t |}.

Definition duplicates : Db :=
  {| sessions := [dup 0%nat None 30; dup 1%nat (Some tenQuestions) 20;
                  dup 2%nat (Some tenQuestions) 10];
     progress := []; nextId := 3%nat |}.

Definition faultOnFirst : SessionId → bool := λ i, Nat.eqb i 0.

(** Noon of some day, and sessions created on the days today, today-1,
    today-2 and today-4, respectively today-1 and today-3. *)
Definition noon : Z := 20000 * DAY_MS + 12 * 60 * 60 * 1000.

Definition fourDays : list Z :=
  [noon; noon - DAY_MS + 5000; noon - 2 * DAY_MS - 7000; noon - 4 * DAY_MS].

Definition twoDays : list Z := [noon - DAY_MS - 60000; noon - 3 * DAY_MS + 60000].

(** The activity of a user on the day of [noon]: ninety minutes, ten
    questions. *)
Definition studyDay : UserActivity :=
  {| ua_userId := "alice"; date := 20000 * DAY_MS; studyMinutes := 90;
     ua_questionsAnswered := 10; photoQuestions := 0; positiveActions := 0;
     starProgress := 0 |}.

Definition never : AdminSettings := {| dataRetention := true; retentionDuration := "never" |}.

Definition noS3 : S3 := {| isConfigured := false; deleteFile := λ _, false |}.

End Examples.


(** ** Further vocabulary: the cleanup engine *)

(** A session that [cleanupOldSessions] selects at time [now]: retention is
    enabled with a number of days that gives a valid cut-off date, the
    session is completed, and its last update is before the cut-off. *)
Definition stale (read : SettingsRead) (now : Z) (s : Session) : bool :=
  let retention := CleanupService.getRetentionSettings read in
  match durationDays retention with
  | Days n =>
      enabled retention && validDate (minusDays now n) && completed s
      && Z.ltb (updatedAt s) (minusDays now n)
  | DaysNull | DaysNaN => false
  end.

(** Retention is enabled but the stored duration gives no valid cut-off
    date: it is neither "never" nor a number, or it is a number that takes
    the date out of the range of a [Date]. *)
Definition noCutoff (read : SettingsRead) (now : Z) : bool :=
  let retention := CleanupService.getRetentionSettings read in
  enabled retention &&
  match durationDays retention with
  | Days n => negb (validDate (minusDays now n))
  | DaysNaN => true
  | DaysNull => false
  end.

(** A session that [cleanupIncompleteSessions] selects: never completed,
    without a transcript, created before the threshold. *)
Definition abandoned (olderThanDays now : Z) (s : Session) : bool :=
  negb (completed s) && Z.ltb (createdAt s) (minusDays now olderThanDays)
  && negb (UserService.hasData s).

(** The number of files of a session that the blob store deletes when asked. *)
Definition filesRemoved (s3 : S3) (s : Session) : Z :=
  let fileUrls := CleanupService.extractFileUrlsFromSession (data s) in
  if Nat.ltb 0 (length fileUrls) && isConfigured s3
  then CleanupService.deleteMultipleFiles s3 fileUrls else 0.

Definition sumZ (l : list Z) : Z := foldr Z.add 0 l.

Definition count {A} (f : A → bool) (l : list A) : Z := Z.of_nat (length (List.filter f l)).

(** The sessions of a deletion list that come before the first one whose
    deletion the store rejects. *)
Fixpoint untilFault (fault : SessionId → bool) (l : list Session) : list Session :=
  match l with
  | [] => []
  | s :: rest => if fault (id s) then [] else s :: untilFault fault rest
  end.

Module CleanupExamples.

Definition photo : Message :=
  {| msg_id := "2"; sender := "user"; text := Some "see the picture";
     attachments :=
       [{| url := Some "https://bucket.s3.us-east-1.amazonaws.com/chat-media/a.png" |};
        {| url := Some "/uploads/local.png" |}];
     image := None |}.

Definition withPhoto : SessionData :=
  {| messages := [Examples.msg "1" "bot" "Welcome!"; photo]; whiteboard := NoWhiteboard;
     chatHistory := [] |}.

Definition row (i : SessionId) (d : option SessionData) (done : bool) (t : Z) : Session :=
  {| id := i; userId := "alice"; data := d; completed := done;
     lastPoint := None; subject := None; topic := None; duration := 0;
     questionsAnswered := 0; correctAnswers := 0; photoUploadsCount := 0;
     aiInteractions := 0; spreadingJoyActions := 0; createdAt := t; updatedAt := t |}.

(** Two completed sessions of long ago, a completed one of yesterday, an
    empty shell of long ago and an unfinished session of long ago that has a
    transcript. *)
Definition table : Db :=
  {| sessions :=
       [row 0%nat (Some withPhoto) true 0; row 1%nat (Some withPhoto) true DAY_MS;
        row 2%nat None true (399 * DAY_MS); row 3%nat None false 0;
        row 4%nat (Some Examples.tenQuestions) false 0];
     progress := []; nextId := 5%nat |}.

Definition s3 : S3 := {| isConfigured := true; deleteFile := λ _, true |}.

Definition thirtyDays : AdminSettings :=
  {| dataRetention := true; retentionDuration := "30" |}.

(** Empty shells of long ago; the store rejects the deletion of the second. *)
Definition shells : Db :=
  {| sessions := [row 0%nat None false 0; row 1%nat None false 0; row 2%nat None false 0];
     progress := []; nextId := 3%nat |}.

Definition faultOnSecond : SessionId → bool := λ i, Nat.eqb i 1.

End CleanupExamples.

(** ** The session queries of the user service *)

Module SessionQueries.

(** [String.prototype.trim]: the text is cut where only white space
    follows. *)
Fixpoint trimEnd (s : string) : string :=
  match s with
  | EmptyString => EmptyString
  | String c s' =>
      if bool_decide (JS.skip_spaces s = EmptyString) then EmptyString
      else String c (trimEnd s')
  end.

Definition trim (s : string) : string := trimEnd (JS.skip_spaces s).

Definition getSession (sessionId : SessionId) (db : Db) : option Session :=
  Prisma.findUnique db sessionId.

Definition getUserSessions (u : UserId) (db : Db) : list Session :=
  JS.sort_desc createdAt (List.filter (λ s, bool_decide (userId s = u)) (sessions db)).

(** The filter of [getIncompleteSessions]: a resume marker that is not
    blank, more than one message, or a whiteboard. *)
Definition worthShowing (session : Session) : bool :=
  (JS.truthy_string (lastPoint session) &&
   negb (bool_decide (trim (default "" (lastPoint session)) = "")))
  || match data session with
     | Some data =>
         Nat.ltb 1 (length (messages data)) ||
         match whiteboard data with
         | Drawing content => negb (bool_decide (content = ""))
         | NoWhiteboard | NullWhiteboard => false
         end
     | None => false
     end.

Definition getIncompleteSessions (u : UserId) (db : Db) : list Session :=
  let sessions :=
    JS.sort_desc updatedAt
      (List.filter (λ s, bool_decide (userId s = u) && negb (completed s)) (sessions db)) in
  List.filter worthShowing sessions.

(** The cut-off of [getCompleteSessions]; [None] when the duration is not a
    positive number. *)
Definition cutoffDate (settings : AdminSettings) (now : Z) : option Z :=
  let retentionDays :=
    JS.parseInt (if bool_decide (retentionDuration settings = "") then "30"
                 else retentionDuration settings) in
  match retentionDays with
  | Some n => if Z.ltb 0 n then Some (minusDays now n) else None
  | None => None
  end.

Definition getCompleteSessions (row : option AdminSettings) (u : UserId) (now : Z) (db : Db)
  : list Session :=
  let settings := AdminService.getSettings row in
  if negb (dataRetention settings) then []
  else
    let where_ (s : Session) :=
      bool_decide (userId s = u) && completed s &&
      match cutoffDate settings now with
      | Some cutoffDate => Z.leb cutoffDate (updatedAt s)
      | None => true
      end in
    JS.sort_desc updatedAt (List.filter where_ (sessions db)).

Record SessionCounts := {
  incompleteCount : nat;
  completeCount : nat;
  totalCount : nat;
}.

Definition getSessionCounts (row : option AdminSettings) (u : UserId) (now : Z) (db : Db)
  : SessionCounts :=
  let incompleteCount := length (getIncompleteSessions u db) in
  let completeCount := length (getCompleteSessions row u now db) in
  {| incompleteCount := incompleteCount;
     completeCount := completeCount;
     totalCount := incompleteCount + completeCount |}.

(** [title] is [req.body.title]: absent ([None], the column is left alone),
    [null] or a string. *)
Definition renameSession (now : Z) (sessionId : SessionId) (title : option (option string))
    (db : Db) : result Session * Db :=
  match
    Prisma.update db now sessionId
      (Prisma.assign
         {| p_userId := None; p_data := None; p_completed := None; p_lastPoint := None;
            p_subject := title; p_topic := None; p_duration := None;
            p_questionsAnswered := None; p_correctAnswers := None |})
  with
  | (Ok updatedSession, db') => (Ok updatedSession, db')
  | (Throw _, db') =>
      (Throw (Err "An unexpected error occurred while renaming the session."), db')
  end.

End SessionQueries.

(** ** The request handlers of the session routes *)

(** What a handler sends: [res.json({ success: true, ... })], or a status
    with the message of the error. *)
Inductive Response (A : Type) :=
  | Success (payload : A)
  | Failure (status : Z) (error : Error).

Arguments Success {A} payload.
Arguments Failure {A} status error.

Module UserController.


(** The computations queued by the service are returned beside the
    response. *)
Definition updateSession (reply : OracleReply) (now : Z) (user : UserId)
    (sessionId : SessionId) (body : SessionPatch) (db : Db)
  : Response Session * list Job * Db :=
  match SessionQueries.getSession sessionId db with
  | None => (Failure 404 (Err "Session not found"), [], db)
  | Some session =>
      if negb (bool_decide (userId session = user))
      then (Failure 403 (Err "Forbidden"), [], db)
      else match UserService.updateSession reply now sessionId body db with
           | (Ok (updated, jobs), db') => (Success updated, jobs, db')
           | (Throw e, db') => (Failure 500 e, [], db')
           end
  end.

Definition deleteSession (fault : SessionId → bool) (user : UserId) (sessionId : SessionId)
    (db : Db) : Response string * Db :=
  match SessionQueries.getSession sessionId db with
  | None => (Success "Session already deleted", db)
  | Some session =>
      if negb (bool_decide (userId session = user)) then (Failure 403 (Err "Forbidden"), db)
      else match UserService.deleteSession fault sessionId db with
           | (Ok None, db') => (Success "Session already deleted", db')
           | (Ok (Some _), db') => (Success "Session deleted successfully", db')
           | (Throw e, db') => (Failure 500 e, db')
           end
  end.

(** The handler does not look at the caller. *)
Definition renameSession (now : Z) (user : UserId) (sessionId : SessionId)
    (title : option (option string)) (db : Db) : Response Session * Db :=
  match SessionQueries.renameSession now sessionId title db with
  | (Ok sessions, db') => (Success sessions, db')
  | (Throw e, db') => (Failure 500 e, db')
  end.

Definition resumeSession (user : UserId) (sessionId : SessionId) (db : Db)
  : Response Session :=
  match UserService.resumeSession sessionId user db with
  | Ok session => Success session
  | Throw (Err message) =>
      if bool_decide (message = "Session not found or unauthorized")
      then Failure 404 (Err message)
      else if bool_decide (message = "Cannot resume a completed session")
      then Failure 400 (Err message)
      else Failure 500 (Err message)
  | Throw e => Failure 500 e
  end.

End UserController.

(** Row [i] apart, the two tables hold the same sessions. *)
Definition sameButRow (i : SessionId) (db db' : Db) : Prop :=
  ∃ g : Session → Session,
    sessions db' = map g (sessions db) ∧ (∀ r, id (g r) = id r) ∧ (∀ r, id r ≠ i → g r = r).

(** The row a queued computation works on. *)
Definition jobRow (j : Job) : SessionId :=
  match j with
  | RecalculateSessionMetrics i => i
  | DetectDominantSubject i _ => i
  end.


(** ** The statistics of the user service *)

Module PersonalStats.

(** The loop of [calculateStreak]. Both dates are local midnights. *)
Fixpoint streakLoop (tz currentDate : Z) (sortedSessions : list Session) (streak : Z) : Z :=
  match sortedSessions with
  | [] => streak
  | session :: rest =>
      let sessionDate := startOfDay tz (createdAt session) in
      let diffDays := (currentDate - sessionDate) / DAY_MS in
      if Z.eqb diffDays streak then streakLoop tz currentDate rest (streak + 1)
      else if Z.ltb streak diffDays then streak
      else streakLoop tz currentDate rest streak
  end.

Definition calculateStreak (tz now : Z) (sessions : list Session) : Z :=
  match sessions with
  | [] => 0
  | _ =>
      let sortedSessions := JS.sort_desc createdAt sessions in
      streakLoop tz (startOfDay tz now) sortedSessions 0
  end.

(** The loop of the longest streak in [getUserPersonalStats]: [prev] is
    [sortedSessions[i - 1]]. Returns [(tempStreak, longestStreak)]. *)
Fixpoint longestLoop (tz : Z) (prev : Session) (rest : list Session)
    (tempStreak longestStreak : Z) : Z * Z :=
  match rest with
  | [] => (tempStreak, longestStreak)
  | curr :: rest' =>
      let prevDate := startOfDay tz (createdAt prev) in
      let currDate := startOfDay tz (createdAt curr) in
      let diffDays := (currDate - prevDate) / DAY_MS in
      if Z.eqb diffDays 1
      then longestLoop tz curr rest' (tempStreak + 1) (Z.max longestStreak (tempStreak + 1))
      else if Z.ltb 1 diffDays
      then longestLoop tz curr rest' 1 longestStreak
      else longestLoop tz curr rest' tempStreak longestStreak
  end.

(** The sort is ascending: the comparator is [a.createdAt - b.createdAt]. *)
Definition longestStreakOf (tz : Z) (completedSessions : list Session) : Z :=
  match completedSessions with
  | [] => 0
  | _ =>
      let sortedSessions := JS.sort_desc (λ s, - createdAt s) completedSessions in
      let '(tempStreak, longestStreak) :=
        match sortedSessions with
        | [] => (1, 0)
        | first :: rest => longestLoop tz first rest 1 0
        end in
      Z.max longestStreak tempStreak
  end.

(** [allSessions.filter(s => s.completed && s.data !== null)]. *)
Definition completedSessions (allSessions : list Session) : list Session :=
  List.filter (λ s, completed s && UserService.hasData s) allSessions.

Definition sessionsWithData (allSessions : list Session) : list Session :=
  List.filter UserService.hasData allSessions.

(** [Date.prototype.getDay] in the zone: 0 is Sunday, and day 0 of the epoch
    was a Thursday. *)
Definition getDay (tz t : Z) : Z := ((t + tz) / DAY_MS + 4) mod 7.

Definition startOfWeek (tz now : Z) : Z :=
  let dayOfWeek := getDay tz now in
  let daysFromMonday := if Z.eqb dayOfWeek 0 then 6 else dayOfWeek - 1 in
  minusDays (startOfDay tz now) daysFromMonday.

(** The whole-number figures of [getUserPersonalStats]; the rounded
    averages and the lists it also returns are not part of this record. *)
Record Stats := {
  totalStudyTimeThisWeek : Z;
  latestSessionDate : Z;
  totalSessions : nat;
  totalStudyTime : Z;
  totalQuestionsAnswered : Z;
  st_correctAnswers : Z;
  st_currentStreak : Z;
  st_longestStreak : Z;
}.

Definition getUserPersonalStats (tz now : Z) (u : UserId) (db : Db) : Stats :=
  let allSessions :=
    JS.sort_desc createdAt (List.filter (λ s, bool_decide (userId s = u)) (sessions db)) in
  let completedSessions := completedSessions allSessions in
  let sessionsWithData := sessionsWithData allSessions in
  let startOfWeek := startOfWeek tz now in
  {| totalStudyTimeThisWeek :=
       fold_left (λ sum s, sum + duration s)
         (List.filter (λ s, Z.leb startOfWeek (updatedAt s)) sessionsWithData) 0;
     latestSessionDate :=
       match sessionsWithData with
       | s :: _ => createdAt s
       | [] => 0
       end;
     totalSessions := length completedSessions;
     totalStudyTime := fold_left (λ sum s, sum + duration s) completedSessions 0;
     totalQuestionsAnswered :=
       fold_left (λ sum s, sum + questionsAnswered s) completedSessions 0;
     st_correctAnswers := fold_left (λ sum s, sum + correctAnswers s) completedSessions 0;
     st_currentStreak := calculateStreak tz now completedSessions;
     st_longestStreak := longestStreakOf tz completedSessions |}.

End PersonalStats.

Module ProgressMetrics.

Definition STREAKER_THRESHOLD : Z := 200.
Definition SPREADING_JOY_THRESHOLD : Z := 100.
Definition SAY_CHEESE_THRESHOLD : Z := 100.

Record Medals := {
  streak : Metrics.Streaks;
  streakerStatus : string;
  totalSpreadingJoy : Z;
  spreadingJoyStatus : string;
  totalSayCheese : Z;
  sayCheeseStatus : string;
  todayActivity : UserActivity;
}.

Definition status (reached : bool) : string := if reached then "completed" else "in_progress".

(** [getProgressMetrics]; reading today's activity may create its row. *)
Definition getProgressMetrics (tz now : Z) (u : UserId) (db : Db) (acts : list UserActivity)
  : Medals * list UserActivity :=
  let allSessions :=
    JS.sort_desc createdAt (List.filter (λ s, bool_decide (userId s = u)) (sessions db)) in
  let streak := Metrics.streaks tz now (map createdAt allSessions) in
  let totalSpreadingJoy := fold_left (λ sum s, sum + spreadingJoyActions s) allSessions 0 in
  let totalSayCheese := fold_left (λ sum s, sum + photoUploadsCount s) allSessions 0 in
  let '(todayActivity, acts) := Metrics.getTodayActivity tz now u acts in
  ({| streak := streak;
      streakerStatus := status (Z.leb STREAKER_THRESHOLD (Metrics.currentStreak streak));
      totalSpreadingJoy := totalSpreadingJoy;
      spreadingJoyStatus := status (Z.leb SPREADING_JOY_THRESHOLD totalSpreadingJoy);
      totalSayCheese := totalSayCheese;
      sayCheeseStatus := status (Z.leb SAY_CHEESE_THRESHOLD totalSayCheese);
      todayActivity := todayActivity |}, acts).

End ProgressMetrics.

(** The user has a session of the list on the calendar day that starts at
    [d]. *)
Definition sessionOn (tz : Z) (l : list Session) (d : Z) : Prop :=
  onDay tz (map createdAt l) d.

Module StatsExamples.

Definition on (i : SessionId) (t : Z) : Session :=
  {| id := i; userId := "alice"; data := Some Examples.tenQuestions; completed := true;
     lastPoint := None; subject := None; topic := None; duration := 600;
     questionsAnswered := 10; correctAnswers := 6; photoUploadsCount := 0;
     aiInteractions := 0; spreadingJoyActions := 0; createdAt := t; updatedAt := t |}.

(** Sessions today (two of them), yesterday and three days ago. *)
Definition history : list Session :=
  [on 0%nat (Examples.noon - 3 * DAY_MS); on 1%nat (Examples.noon - DAY_MS);
   on 2%nat (Examples.noon - 1000); on 3%nat Examples.noon].

Definition historyDb : Db := {| sessions := history; progress := []; nextId := 4%nat |}.

End StatsExamples.


(** * Properties *)

(** ** The stable descending sort *)

Section sort_facts.
Context {A : Type} (key : A → Z).

Definition desc (a b : A) : Prop := key b ≤ key a.

Lemma insert_desc_perm x l : JS.insert_desc key x l ≡ₚ x :: l.
Proof.
  induction l as [|y l IH]; simpl; [done|].
  destruct (Z.leb (key y) (key x)); [done|].
  rewrite IH. apply Permutation_swap.
Qed.

Lemma sort_desc_perm l : JS.sort_desc key l ≡ₚ l.
Proof.
  induction l as [|x l IH]; simpl; [done|].
  unfold JS.sort_desc in *. simpl. rewrite insert_desc_perm. by f_equiv.
Qed.

Lemma insert_desc_sorted x l :
  StronglySorted desc l → StronglySorted desc (JS.insert_desc key x l).
Proof.
  induction 1 as [|y l Hl IH Hy]; simpl.
  - repeat constructor.
  - destruct (Z.leb (key y) (key x)) eqn:E.
    + apply Z.leb_le in E. constructor; [by constructor|].
      constructor; [done|].
      eapply Forall_impl; [exact Hy|]. unfold desc. intros; lia.
    + apply Z.leb_gt in E. constructor; [done|].
      rewrite insert_desc_perm. constructor; [unfold desc; lia|done].
Qed.

Lemma sort_desc_sorted l : StronglySorted desc (JS.sort_desc key l).
Proof.
  induction l as [|x l IH]; [constructor|].
  unfold JS.sort_desc in *. simpl. by apply insert_desc_sorted.
Qed.

Lemma sort_desc_elem x l : x ∈ JS.sort_desc key l ↔ x ∈ l.
Proof. by rewrite sort_desc_perm. Qed.

Lemma sort_desc_length l : length (JS.sort_desc key l) = length l.
Proof. by rewrite sort_desc_perm. Qed.

End sort_facts.

(** ** Subject classifier *)

Import Classifier.

Lemma fromSubjects_single subjects n r :
  fromSubjects subjects n = Some r → ∃ b, r = [b].
Proof.
  unfold fromSubjects. destruct subjects as [|s subjects]; [intros [= <-]; eauto|].
  destruct (normaliseAll _) as [mapped|]; [|done].
  destruct (List.filter _ _) as [|b [|b' real]]; intros [= <-]; eauto.
Qed.

Lemma detectAll_single reply messages :
  ∃ b, detectAllSubjectsFromConversation reply messages = [b].
Proof.
  unfold detectAllSubjectsFromConversation.
  destruct (List.filter isRelevant messages) as [|m relevant]; [eauto|].
  destruct reply as [| | |subjects]; eauto.
  destruct (fromSubjects _ _) as [r|] eqn:E; [|eauto].
  by apply fromSubjects_single in E.
Qed.


Lemma filter_perm {A} (f : A → bool) l l' : l ≡ₚ l' → List.filter f l ≡ₚ List.filter f l'.
Proof.
  induction 1 as [|x l l' _ IH|x y l|l l' l'' _ IH1 _ IH2]; simpl.
  - done.
  - destruct (f x); by rewrite IH.
  - destruct (f x), (f y); try done. apply Permutation_swap.
  - by rewrite IH1.
Qed.

Lemma toNumber_exact z : 0 ≤ z ≤ 2 ^ 53 → JS.toNumber z = z.
Proof.
  intros Hz. unfold JS.toNumber. cbv zeta.
  destruct (Z.leb_spec (Z.log2 (Z.abs z) - 52) 0) as [|He]; [done|].
  assert (z = 2 ^ 53) as ->; [|by vm_compute].
  rewrite Z.abs_eq in He by lia.
  destruct (Z.lt_ge_cases z (2 ^ 53)) as [Hlt|]; [|lia].
  destruct (Z.eq_dec z 0) as [->|Hz0]; [by vm_compute in He|].
  apply Z.log2_lt_pow2 in Hlt; lia.
Qed.

Lemma exactSum_cons b l : exactSum (b :: l) = questionCount b + exactSum l.
Proof. done. Qed.

Lemma exactSum_perm l l' : l ≡ₚ l' → exactSum l = exactSum l'.
Proof. induction 1; rewrite ?exactSum_cons; lia. Qed.

Lemma exactSum_nonneg l : Forall (λ s, 0 ≤ questionCount s) l → 0 ≤ exactSum l.
Proof. induction 1; rewrite ?exactSum_cons; [done|lia]. Qed.

(** While the sum stays within 2^53, adding the counts one by one as the
    code does is exact. *)
Lemma sumCounts_acc l acc :
  Forall (λ s, 0 ≤ questionCount s) l → 0 ≤ acc → acc + exactSum l ≤ 2 ^ 53 →
  fold_left (λ sum s, JS.plus sum (questionCount s)) l acc = acc + exactSum l.
Proof.
  intros Hl. revert acc. induction Hl as [|b l Hb Hl IH]; intros acc Hacc Hsum.
  - simpl. lia.
  - rewrite exactSum_cons in Hsum. pose proof (exactSum_nonneg l Hl).
    cbn [fold_left]. unfold JS.plus at 2. rewrite toNumber_exact by lia.
    rewrite IH by lia. rewrite exactSum_cons. lia.
Qed.

Lemma sumCounts_exact l :
  Forall (λ s, 0 ≤ questionCount s) l → exactSum l ≤ 2 ^ 53 → sumCounts l = exactSum l.
Proof. intros Hl Hsum. unfold sumCounts. by rewrite sumCounts_acc. Qed.

Lemma normalise_positive raws : Forall (λ s, 0 ≤ questionCount s) (normalise <$> raws).
Proof.
  apply Forall_forall. intros s (r & -> & _)%list_elem_of_fmap.
  unfold normalise, normaliseCount. simpl. lia.
Qed.

Lemma normaliseAll_some (raws : list RawBucket) :
  normaliseAll (Some <$> raws) = Some (normalise <$> raws).
Proof.
  induction raws as [|r raws IH]; [done|].
  rewrite !fmap_cons. simpl. by rewrite IH.
Qed.

Lemma normaliseAll_null (l : list (option RawBucket)) :
  None ∈ l → normaliseAll l = None.
Proof.
  induction l as [|[a|] l IH]; intros H.
  - by apply elem_of_nil in H.
  - apply elem_of_cons in H as [H|H]; [done|].
    simpl. by rewrite (IH H).
  - done.
Qed.

Lemma two_real_buckets (l : list Bucket) s1 s2 :
  s1 ∈ l → s2 ∈ l → b_subject s1 ≠ b_subject s2 → ∃ a b r, l = a :: b :: r.
Proof.
  destruct l as [|a [|b r]]; intros H1 H2 Hne.
  - by apply elem_of_nil in H1.
  - apply list_elem_of_singleton in H1, H2. congruence.
  - eauto.
Qed.

Lemma isReal_mixed names : isReal {| b_subject := mixedLabel names; b_topic := None; questionCount := 0 |} = true.
Proof. done. Qed.

Lemma createProgressRecords_length s sd all total todo db :
  (length (progress (UserService.createProgressRecords s sd all total todo db))
   ≤ length (progress db) + length todo)%nat.
Proof.
  revert db. induction todo as [|b todo IH]; intros db; simpl; [lia|].
  destruct (UserService.progressRecord _ _ _ _ _) as [p|]; [|lia].
  etrans; [apply IH|]. simpl. rewrite length_app. simpl. lia.
Qed.

Lemma update_progress db now i f : progress (Prisma.update db now i f).2 = progress db.
Proof. unfold Prisma.update. by destruct (Prisma.findUnique db i). Qed.

Lemma recordCompletion_length reply now s db :
  (length (progress (UserService.recordCompletion reply now s db)) ≤ S (length (progress db)))%nat.
Proof.
  unfold UserService.recordCompletion.
  destruct (data s) as [sd|]; [|lia].
  destruct (List.filter _ _) as [|m real]; [lia|].
  destruct (detectAll_single reply (m :: real)) as [b ->].
  destruct (negb _).
  - pose proof (update_progress db now (id s) (UserService.setSubject b)) as Hp.
    destruct (Prisma.update _ _ _ _) as [[r|e] db']; simpl in Hp; [|lia].
    etrans; [apply createProgressRecords_length|]. rewrite Hp. simpl. lia.
  - etrans; [apply createProgressRecords_length|]. simpl. lia.
Qed.

(** C10. For every message list and every reply of the oracle,
    detectAllSubjectsFromConversation returns exactly one bucket. Hence the
    queued detection always finds a first element to read (its only possible
    failure is that of the write itself), and completing a session adds at
    most one Progress row. *)
Theorem C10_detectAll_returns_exactly_one_bucket :
  (∀ reply messages,
     length (detectAllSubjectsFromConversation reply messages) = 1%nat) ∧
  (∀ joy reply now i realMessages db,
     ∃ dominantSubject,
       detectAllSubjectsFromConversation reply realMessages = [dominantSubject] ∧
       UserService.runJob joy reply now (DetectDominantSubject i realMessages) db =
         match Prisma.update db now i (UserService.setSubject dominantSubject) with
         | (Ok _, db') => (UserService.JobDone, db')
         | (Throw _, db') => (UserService.JobFailed, db')
         end) ∧
  (∀ reply now i patch db,
     (length (progress (UserService.updateSession reply now i patch db).2)
      ≤ S (length (progress db)))%nat).
Proof.
  split; [|split].
  - intros reply messages. by destruct (detectAll_single reply messages) as [b ->].
  - intros joy reply now i realMessages db.
    destruct (detectAll_single reply realMessages) as [b Hb].
    exists b. split; [done|]. simpl. by rewrite Hb.
  - intros reply now i patch db. unfold UserService.updateSession.
    pose proof (update_progress db now i (Prisma.assign patch)) as Hp.
    destruct (Prisma.update _ _ _ _) as [[s|e] db']; simpl in Hp; simpl; [|rewrite Hp; lia].
    destruct (_ && _); simpl; [|rewrite Hp; lia].
    rewrite <- Hp. apply recordCompletion_length.
Qed.

(** C4 (as amended). When the reply names two or more distinct real
    subjects, the classifier returns a single mixed-practice bucket: its label
    joins the names of all real buckets (those not called "Unknown" or
    "General") in decreasing order of their counts, its questionCount is the
    sum of their counts, added in that order as Numbers, which is their exact
    sum as long as that is at most 2^53. No reply ever yields more than one
    real bucket. A reply that is read but malformed yields the single bucket
    {Unknown, null, n}, n being the number of relevant messages, not of all
    messages. A reply that cannot be read yields {Unknown, null, 1}, and
    {Unknown, null, 0} when no message is relevant: the oracle is then not
    asked. *)
Theorem C4_classifyMulti_collapses_to_one_bucket :
  (∀ raws messages s1 s2,
     List.filter isRelevant messages ≠ [] →
     s1 ∈ normalise <$> raws → s2 ∈ normalise <$> raws →
     isReal s1 = true → isReal s2 = true → b_subject s1 ≠ b_subject s2 →
     let real := List.filter isReal (JS.sort_desc questionCount (normalise <$> raws)) in
     detectAllSubjectsFromConversation (JsonSubjects (Some <$> raws)) messages =
       [ {| b_subject := mixedLabel (b_subject <$> real); b_topic := None;
            questionCount := sumCounts real |} ] ∧
     real ≡ₚ List.filter isReal (normalise <$> raws) ∧
     (exactSum (List.filter isReal (normalise <$> raws)) ≤ 2 ^ 53 →
      sumCounts real = exactSum (List.filter isReal (normalise <$> raws)))) ∧
  (∀ reply messages,
     (length (List.filter isReal (detectAllSubjectsFromConversation reply messages)) ≤ 1)%nat) ∧
  (∀ reply messages,
     malformed reply →
     detectAllSubjectsFromConversation reply messages =
       [unknown (Z.of_nat (length (List.filter isRelevant messages)))]) ∧
  (∀ messages,
     List.filter isRelevant messages ≠ [] →
     detectAllSubjectsFromConversation Unreadable messages = [unknown 1]) ∧
  (∀ reply messages,
     List.filter isRelevant messages = [] →
     detectAllSubjectsFromConversation reply messages = [unknown 0]).
Proof.
  split; [|split; [|split; [|split]]].
  - intros raws messages s1 s2 Hrel H1 H2 R1 R2 Hne.
    set (mapped := normalise <$> raws) in *. cbv zeta.
    set (real := List.filter isReal (JS.sort_desc questionCount mapped)).
    assert (Hperm : real ≡ₚ List.filter isReal mapped)
      by (apply filter_perm, sort_desc_perm).
    split; [|split; [done|]].
    + assert (Hin : ∀ s, s ∈ mapped → isReal s = true → s ∈ real).
      { intros s Hs Hr. rewrite Hperm. apply list_elem_of_In, filter_In.
        split; [by apply list_elem_of_In|done]. }
      destruct (two_real_buckets real s1 s2) as (a & b & r & Hreal); auto.
      unfold detectAllSubjectsFromConversation.
      destruct (List.filter isRelevant messages) as [|m relevant]; [done|].
      unfold fromSubjects.
      destruct raws as [|r0 raws]; [by apply elem_of_nil in H1|].
      change (Some <$> r0 :: raws) with (Some r0 :: (Some <$> raws)).
      cbv beta iota.
      change (Some r0 :: (Some <$> raws)) with (Some <$> r0 :: raws).
      rewrite normaliseAll_some.
      fold mapped. fold real. rewrite Hreal. done.
    + intros Hsum. rewrite <- (exactSum_perm _ _ Hperm) in *.
      apply sumCounts_exact; [|done].
      apply Forall_forall. intros s Hs. unfold real in Hs.
      apply list_elem_of_In, filter_In in Hs as [Hs _]. apply list_elem_of_In in Hs.
      rewrite sort_desc_elem in Hs.
      by apply (proj1 (Forall_forall _ _) (normalise_positive raws)).
  - intros reply messages.
    destruct (detectAll_single reply messages) as [b ->].
    simpl. destruct (isReal b); simpl; lia.
  - intros reply messages Hm. unfold detectAllSubjectsFromConversation.
    destruct (List.filter isRelevant messages) as [|m relevant] eqn:E; [done|].
    destruct reply as [| | |subjects]; try done.
    destruct Hm as [->|Hnull]; [done|].
    unfold fromSubjects. destruct subjects as [|s subjects]; [done|].
    by rewrite (normaliseAll_null _ Hnull).
  - intros messages Hrel. unfold detectAllSubjectsFromConversation.
    by destruct (List.filter isRelevant messages).
  - intros reply messages Hrel. unfold detectAllSubjectsFromConversation.
    by rewrite Hrel.
Qed.

(** C4, as stated, fails on the count of the fallback bucket: with a
    question and an ordinary answer of the tutor, a reply that is not JSON
    yields questionCount 1, the number of relevant messages, although there
    are two messages; and a reply that cannot be read yields questionCount 1
    whatever the number of messages. *)
Lemma C4_counterexample :
  (let messages := [Examples.question "2"; Examples.msg "3" "bot" "Good question."] in
   length messages = 2%nat ∧
   detectAllSubjectsFromConversation NotJson messages = [unknown 1]) ∧
  (length (messages Examples.tenQuestions) = 11%nat ∧
   detectAllSubjectsFromConversation Unreadable (messages Examples.tenQuestions)
     = [unknown 1]).
Proof. by vm_compute. Qed.


(** ** The session table *)

Lemma find_id_some l i s :
  List.find (λ r, bool_decide (id r = i)) l = Some s → id s = i ∧ s ∈ l.
Proof.
  intros H. apply find_some in H as [Hin Hid].
  split; [by apply bool_decide_eq_true in Hid|by apply list_elem_of_In].
Qed.

Lemma find_id_map l i (g : Session → Session) s :
  (∀ r, id (g r) = id r) →
  List.find (λ r, bool_decide (id r = i)) l = Some s →
  List.find (λ r, bool_decide (id r = i))
    (map (λ r, if bool_decide (id r = i) then g r else r) l) = Some (g s).
Proof.
  intros Hg. induction l as [|r l IH]; [done|]. simpl.
  destruct (bool_decide (id r = i)) eqn:E.
  - intros [= ->]. simpl. rewrite Hg, E. done.
  - intros H. simpl. rewrite E. auto.
Qed.

Lemma update_found db now i f s :
  Prisma.findUnique db i = Some s →
  Prisma.update db now i f =
    (Ok (Prisma.touch now (f s)),
     Prisma.set_sessions db
       (map (λ r, if bool_decide (id r = i) then Prisma.touch now (f r) else r) (sessions db))).
Proof. intros H. unfold Prisma.update. by rewrite H. Qed.

Lemma findUnique_update db now i f s :
  (∀ r, id (f r) = id r) →
  Prisma.findUnique db i = Some s →
  Prisma.findUnique (Prisma.update db now i f).2 i = Some (Prisma.touch now (f s)).
Proof.
  intros Hf H. rewrite (update_found _ _ _ _ _ H). simpl.
  unfold Prisma.findUnique in *. simpl.
  by apply (find_id_map _ _ (λ r, Prisma.touch now (f r))).
Qed.

Lemma id_assign p r : id (Prisma.assign p r) = id r.
Proof. done. Qed.

Lemma createProgressRecords_snoc s sd all total b db p :
  UserService.progressRecord s sd all total b = Some p →
  progress (UserService.createProgressRecords s sd all total [b] db) = progress db ++ [p].
Proof. intros H. simpl. by rewrite H. Qed.

(** C3 (as amended). Completing a session with ten user questions and
    correctAnswers = 6, when the oracle attributes 7 questions to one real
    subject and 3 to another, adds exactly one Progress row: that of the
    combined mixed-practice bucket, with questionsAttempted = 10 and
    questionsCorrect = round(6 * 10/10) = 6. The attribution loop itself,
    run on two buckets of 7 and 3 questions out of 10, records 7/4 and
    3/2. (In both cases the share of the duration is a finite number.) *)
Theorem C3_two_subjects_yield_one_mixed_row :
  (∀ db now i s sd a b t,
     Prisma.findUnique db i = Some s →
     data s = Some sd →
     correctAnswers s = 6 →
     Double.Math_round (Double.ofZ (duration s) * (Double.ofZ 10 / Double.ofZ 10))%float
       = Some t →
     length (List.filter UserService.fromUser
               (List.filter UserService.notWelcome (messages sd))) = 10%nat →
     List.filter isRelevant (List.filter UserService.notWelcome (messages sd)) ≠ [] →
     isReal (normalise a) = true → isReal (normalise b) = true →
     questionCount (normalise a) = 7 → questionCount (normalise b) = 3 →
     ∃ p,
       progress (UserService.updateSession (JsonSubjects [Some a; Some b]) now i
                   markCompleted db).2 = progress db ++ [p] ∧
       pr_subject p = mixedLabel [b_subject (normalise a); b_subject (normalise b)] ∧
       attribution p = (10, 6)) ∧
  (∀ s sd b7 b3 db t7 t3,
     correctAnswers s = 6 → questionCount b7 = 7 → questionCount b3 = 3 →
     Double.Math_round (Double.ofZ (duration s) * (Double.ofZ 7 / Double.ofZ 10))%float
       = Some t7 →
     Double.Math_round (Double.ofZ (duration s) * (Double.ofZ 3 / Double.ofZ 10))%float
       = Some t3 →
     attribution <$>
       progress (UserService.createProgressRecords s sd [b7; b3] 10 [b7; b3] db) =
     (attribution <$> progress db) ++ [(7, 4); (3, 2)]).
Proof.
  split.
  - intros db now i s sd a b t Hfind Hdata Hcorrect Htime Hasked Hrel Ra Rb Ca Cb.
    assert (Hall : normaliseAll [Some a; Some b] = Some [normalise a; normalise b])
      by apply (normaliseAll_some [a; b]).
    revert Hall Ra Rb Ca Cb.
    generalize (normalise a) (normalise b). intros na nb Hall Ra Rb Ca Cb.
    set (mixed := {| b_subject := mixedLabel [b_subject na; b_subject nb];
                     b_topic := None; questionCount := 10 |}).
    assert (Hdetect : detectAllSubjectsFromConversation (JsonSubjects [Some a; Some b])
                        (List.filter UserService.notWelcome (messages sd)) = [mixed]).
    { unfold detectAllSubjectsFromConversation.
      destruct (List.filter isRelevant _) as [|m rel]; [done|].
      unfold fromSubjects. rewrite Hall.
      unfold JS.sort_desc. simpl. rewrite Ca, Cb. simpl. rewrite Ra, Rb.
      unfold sumCounts. simpl. rewrite Ca, Cb. done. }
    unfold UserService.updateSession.
    rewrite (update_found _ _ _ _ _ Hfind).
    set (session := Prisma.touch now (Prisma.assign markCompleted s)).
    set (db1 := Prisma.set_sessions db _).
    assert (Hfind1 : Prisma.findUnique db1 (id session) = Some session).
    { pose proof (findUnique_update db now i (Prisma.assign markCompleted) s (id_assign _) Hfind) as H.
      rewrite (update_found _ _ _ _ _ Hfind) in H.
      destruct (find_id_some _ _ _ Hfind) as [<- _]. exact H. }
    assert (Hhas : UserService.hasData session = true)
      by (unfold UserService.hasData, session; simpl; by rewrite Hdata).
    simpl bool_decide. rewrite Hhas. simpl.
    unfold UserService.recordCompletion.
    replace (data session) with (Some sd) by (by rewrite <- Hdata).
    destruct (List.filter UserService.notWelcome (messages sd)) as [|m real] eqn:Hreal;
      [done|].
    rewrite Hdetect, Hasked.
    assert (Hrec : ∃ p, UserService.progressRecord session sd [mixed] 10 mixed = Some p ∧
                        pr_subject p = b_subject mixed ∧ attribution p = (10, 6)).
    { unfold UserService.progressRecord.
      change (questionCount mixed) with 10.
      change (duration session) with (duration s).
      change (correctAnswers session) with (correctAnswers s).
      cbv zeta. rewrite Hcorrect, Htime.
      replace (Double.Math_round (Double.ofZ 6 * (Double.ofZ 10 / Double.ofZ 10))%float)
        with (Some 6) by (by vm_compute).
      eexists. split; [reflexivity|]. done. }
    destruct Hrec as (p & Hrec & Hsub & Hattr).
    exists p. split; [|done].
    destruct (negb (JS.truthy_string (subject session))).
    + rewrite (update_found _ _ _ _ _ Hfind1). cbv beta iota.
      by rewrite (createProgressRecords_snoc _ _ _ _ _ _ _ Hrec).
    + by rewrite (createProgressRecords_snoc _ _ _ _ _ _ _ Hrec).
  - intros s sd b7 b3 db t7 t3 Hcorrect C7 C3 T7 T3.
    unfold UserService.createProgressRecords, UserService.progressRecord. cbv zeta.
    rewrite Hcorrect, C7, C3, T7, T3.
    replace (Double.Math_round (Double.ofZ 6 * (Double.ofZ 7 / Double.ofZ 10))%float)
      with (Some 4) by (by vm_compute).
    replace (Double.Math_round (Double.ofZ 6 * (Double.ofZ 3 / Double.ofZ 10))%float)
      with (Some 2) by (by vm_compute).
    cbn [progress Prisma.createProgress]. rewrite !fmap_app, <- app_assoc. done.
Qed.

(** C3, as stated, fails: with counts 7 and 3 the classifier hands back one
    mixed bucket, so the completion records a single row, 10 attempted and 6
    correct, not the two rows 7/4 and 3/2. *)
Lemma C3_counterexample :
  let db' := (UserService.updateSession Examples.twoSubjects 5000 0%nat markCompleted
                Examples.studyDb).2 in
  attribution <$> progress db' = [(10, 6)] ∧
  attribution <$> progress db' ≠ [(7, 4); (3, 2)].
Proof. split; [by vm_compute|]. vm_compute. discriminate. Qed.

(** C3 on the session of ten questions. *)
Lemma C3_witness :
  (∃ p,
     progress (UserService.updateSession Examples.twoSubjects 5000 0%nat markCompleted
                 Examples.studyDb).2 = progress Examples.studyDb ++ [p] ∧
     pr_subject p = mixedLabel ["Mathematics"; "Physics"] ∧
     attribution p = (10, 6)) ∧
  attribution <$>
    progress (UserService.createProgressRecords Examples.studySession Examples.tenQuestions
                [Examples.maths; Examples.physics] 10 [Examples.maths; Examples.physics]
                Examples.studyDb) =
  (attribution <$> progress Examples.studyDb) ++ [(7, 4); (3, 2)].
Proof.
  destruct C3_two_subjects_yield_one_mixed_row as [Hone Hloop].
  split.
  - apply (Hone Examples.studyDb 5000 0%nat Examples.studySession Examples.tenQuestions
             (Examples.rawBucket "Mathematics" "Algebra" "7")
             (Examples.rawBucket "Physics" "Mechanics" "3") 600);
      try reflexivity.
    vm_compute. discriminate.
  - apply (Hloop Examples.studySession Examples.tenQuestions Examples.maths Examples.physics
             Examples.studyDb 420 180); try reflexivity; by vm_compute.
Defined.


(** ** Retention cleanup *)

Lemma filter_all {A} (l : list A) : List.filter (λ _, true) l = l.
Proof. induction l as [|x l IH]; simpl; [done|by rewrite IH]. Qed.

Lemma filter_none {A} (l : list A) : List.filter (λ _, negb true) l = [].
Proof. induction l as [|x l IH]; simpl; done. Qed.

Lemma deleteMany_all db :
  Prisma.deleteMany db (λ _, true) =
    (Z.of_nat (length (sessions db)), Prisma.set_sessions db []).
Proof. unfold Prisma.deleteMany. by rewrite filter_all, filter_none. Qed.

(** C1 (as amended). When retention is disabled or the duration is "never",
    userService.cleanupSessionsByRetentionPolicy deletes every session
    whatever its age, and so does the scheduler's cleanupExpiredSessions when
    a settings row exists; CleanupService.cleanupOldSessions, the file-aware
    cleanup behind runFullCleanup, skips the cleanup in that case and deletes
    nothing. *)
Theorem C1_retention_off_deletes_all_or_skips :
  (∀ row now db,
     Retention.retentionOff (AdminService.getSettings row) = true →
     Retention.cleanupSessionsByRetentionPolicy row now db =
       (Z.of_nat (length (sessions db)), Prisma.set_sessions db [])) ∧
  (∀ settings now db,
     Retention.retentionOff settings = true →
     sessions (Retention.cleanupExpiredSessions (Some settings) now db) = []) ∧
  (∀ settings s3 fault now db,
     Retention.retentionOff settings = true →
     CleanupService.cleanupOldSessions (ReadRow (Some settings)) s3 fault now db =
       (CleanupService.noResult, db)).
Proof.
  split; [|split].
  - intros row now db Hoff. unfold Retention.cleanupSessionsByRetentionPolicy.
    rewrite Hoff. apply deleteMany_all.
  - intros settings now db Hoff. unfold Retention.cleanupExpiredSessions.
    rewrite Hoff, deleteMany_all. done.
  - intros settings s3 fault now db Hoff.
    unfold CleanupService.cleanupOldSessions, CleanupService.getRetentionSettings.
    unfold Retention.retentionOff in Hoff. simpl.
    destruct (dataRetention settings); simpl in *; [|done].
    by rewrite Hoff.
Qed.

(** C1, as stated, fails on CleanupService.cleanupOldSessions: with the
    duration "never" a completed session last updated 400 days ago is still
    there after the cleanup. *)
Lemma C1_counterexample :
  sessions (CleanupService.cleanupOldSessions (ReadRow (Some Examples.never))
              Examples.noS3 Examples.noFault Examples.later Examples.archive).2
  = [Examples.oldSession].
Proof. by vm_compute. Qed.

(** C1 on the archive, with the duration "never". *)
Lemma C1_witness :
  Retention.cleanupSessionsByRetentionPolicy (Some Examples.never) Examples.later
    Examples.archive = (1, Prisma.set_sessions Examples.archive []) ∧
  sessions (Retention.cleanupExpiredSessions (Some Examples.never) Examples.later
              Examples.archive) = [] ∧
  CleanupService.cleanupOldSessions (ReadRow (Some Examples.never)) Examples.noS3
    Examples.noFault Examples.later Examples.archive
  = (CleanupService.noResult, Examples.archive).
Proof.
  destruct C1_retention_off_deletes_all_or_skips as (Hpolicy & Hscheduler & Hskip).
  split; [|split].
  - apply (Hpolicy (Some Examples.never) Examples.later Examples.archive). reflexivity.
  - apply (Hscheduler Examples.never Examples.later Examples.archive). reflexivity.
  - apply (Hskip Examples.never Examples.noS3 Examples.noFault Examples.later
             Examples.archive). reflexivity.
Defined.

(** ** deleteSession *)

Lemma find_id_filtered l i :
  List.find (λ r, bool_decide (id r = i))
    (List.filter (λ r, negb (bool_decide (id r = i))) l) = None.
Proof.
  induction l as [|r l IH]; [done|]. simpl.
  destruct (bool_decide (id r = i)) eqn:E; simpl; [done|]. by rewrite E.
Qed.

Lemma delete_absent fault db i :
  fault i = false → Prisma.findUnique db i = None →
  Prisma.delete fault db i = (Throw P2025, db).
Proof. intros Hf Hn. unfold Prisma.delete. by rewrite Hf, Hn. Qed.

(** C8. Provided the storage engine does not reject the deletion itself,
    deleteSession on an id that is absent succeeds with the "already gone"
    answer ([null]) and changes nothing; so two calls in a row on the same id
    both succeed, the second one with "already gone". *)
Theorem C8_deleteSession_is_idempotent (fault : SessionId → bool) (i : SessionId) (db : Db) :
  fault i = false →
  (Prisma.findUnique db i = None → UserService.deleteSession fault i db = (Ok None, db)) ∧
  ∃ r1 db1,
    UserService.deleteSession fault i db = (Ok r1, db1) ∧
    UserService.deleteSession fault i db1 = (Ok None, db1).
Proof.
  intros Hf.
  assert (Habsent : ∀ d, Prisma.findUnique d i = None →
                         UserService.deleteSession fault i d = (Ok None, d)).
  { intros d Hn. unfold UserService.deleteSession. by rewrite delete_absent. }
  split; [apply Habsent|].
  destruct (Prisma.findUnique db i) as [s|] eqn:E.
  - exists (Some s), (Prisma.set_sessions db
                        (List.filter (λ r, negb (bool_decide (id r = i))) (sessions db))).
    split.
    + unfold UserService.deleteSession, Prisma.delete. by rewrite Hf, E.
    + apply Habsent. unfold Prisma.findUnique. simpl. apply find_id_filtered.
  - exists None, db. split; by apply Habsent.
Qed.

(** C8 on the archive. *)
Lemma C8_witness :
  ∃ r1 db1,
    UserService.deleteSession Examples.noFault 0%nat Examples.archive = (Ok r1, db1) ∧
    UserService.deleteSession Examples.noFault 0%nat db1 = (Ok None, db1).
Proof.
  apply (C8_deleteSession_is_idempotent Examples.noFault 0%nat Examples.archive).
  reflexivity.
Defined.

(** ** createSession *)

Import UserService.

Lemma findActive_none u db :
  List.filter (isActiveOf u) (sessions db) = [] → findActive u db = [].
Proof. unfold findActive. by intros ->. Qed.

Lemma getActiveSession_none fault u db :
  List.filter (isActiveOf u) (sessions db) = [] → getActiveSession fault u db = (None, db).
Proof. intros H. unfold getActiveSession. by rewrite findActive_none. Qed.

Lemma getActiveSession_one fault u db s :
  List.filter (isActiveOf u) (sessions db) = [s] → getActiveSession fault u db = (Some s, db).
Proof. intros H. unfold getActiveSession, findActive. by rewrite H. Qed.

(** C7 (as amended). createSession returns the existing true-active session
    unchanged, inserting nothing, whenever there is one. For a user without a
    true-active session (in particular one without any session), when the row
    inserted by the first call is itself true-active for that user (the
    initial data sets no resume marker, does not mark it completed and names
    no other owner), a second call returns the same session, with the same
    id, and inserts nothing. *)
Theorem C7_createSession_returns_existing_active :
  (∀ fault now u data db s db',
     getActiveSession fault u db = (Some s, db') →
     createSession fault now u data db = (s, db')) ∧
  (∀ fault now now' u data data' db,
     List.filter (isActiveOf u) (sessions db) = [] →
     isActiveOf u (Prisma.assign data (Prisma.defaultRow (nextId db) u now)) = true →
     ∃ s1 db1,
       createSession fault now u data db = (s1, db1) ∧
       id s1 = nextId db ∧
       createSession fault now' u data' db1 = (s1, db1)).
Proof.
  split.
  - intros fault now u data db s db' H. unfold createSession. by rewrite H.
  - intros fault now now' u data data' db Hnone Hactive.
    set (row := Prisma.assign data (Prisma.defaultRow (nextId db) u now)) in *.
    exists row, (Prisma.create db now u data).2.
    assert (H1 : createSession fault now u data db = (row, (Prisma.create db now u data).2)).
    { unfold createSession. by rewrite getActiveSession_none. }
    split; [done|]. split; [done|].
    unfold createSession. rewrite (getActiveSession_one _ _ _ row); [done|].
    simpl. rewrite List.filter_app, Hnone. simpl. fold row. by rewrite Hactive.
Qed.

(** C7, as stated, fails: when the initial data carries a resume marker the
    row created by the first call is not true-active, and the second call
    creates another session, with another id. *)
Lemma C7_counterexample :
  let '(s1, db1) := createSession Examples.noFault 10 "alice" Examples.paused Examples.emptyDb in
  let '(s2, db2) := createSession Examples.noFault 20 "alice" Examples.paused db1 in
  id s1 = 0%nat ∧ id s2 = 1%nat ∧ length (sessions db2) = 2%nat.
Proof. by vm_compute. Qed.

(** C7 on a table with a true-active session, and on the empty table. *)
Lemma C7_witness :
  createSession Examples.noFault 50 "alice" Examples.paused Examples.studyDb
    = (Examples.studySession, Examples.studyDb) ∧
  ∃ s1 db1,
    createSession Examples.noFault 10 "alice" emptyPatch Examples.emptyDb = (s1, db1) ∧
    id s1 = 0%nat ∧
    createSession Examples.noFault 20 "alice" emptyPatch db1 = (s1, db1).
Proof.
  destruct C7_createSession_returns_existing_active as [Hexisting Htwice].
  split.
  - apply (Hexisting Examples.noFault 50 "alice" Examples.paused Examples.studyDb).
    reflexivity.
  - apply (Htwice Examples.noFault 10 20 "alice" emptyPatch emptyPatch Examples.emptyDb);
      reflexivity.
Defined.


(** C4 on a reply with two subjects, on a reply that is not JSON and on a
    reply that cannot be read. *)
Lemma C4_witness :
  (let raws := [Examples.rawBucket "Mathematics" "Algebra" "7";
                Examples.rawBucket "Physics" "Mechanics" "3"] in
   let real := List.filter isReal (JS.sort_desc questionCount (normalise <$> raws)) in
   detectAllSubjectsFromConversation Examples.twoSubjects (messages Examples.tenQuestions) =
     [ {| b_subject := mixedLabel (b_subject <$> real); b_topic := None;
          questionCount := sumCounts real |} ] ∧
   real ≡ₚ List.filter isReal (normalise <$> raws) ∧
   (exactSum (List.filter isReal (normalise <$> raws)) ≤ 2 ^ 53 →
    sumCounts real = exactSum (List.filter isReal (normalise <$> raws)))) ∧
  detectAllSubjectsFromConversation NotJson (messages Examples.tenQuestions) = [unknown 10] ∧
  detectAllSubjectsFromConversation Unreadable (messages Examples.tenQuestions) = [unknown 1].
Proof.
  destruct C4_classifyMulti_collapses_to_one_bucket
    as (Hmixed & _ & Hmalformed & Hunreadable & _).
  split; [|split].
  - apply (Hmixed [Examples.rawBucket "Mathematics" "Algebra" "7";
                   Examples.rawBucket "Physics" "Mechanics" "3"]
             (messages Examples.tenQuestions)
             (normalise (Examples.rawBucket "Mathematics" "Algebra" "7"))
             (normalise (Examples.rawBucket "Physics" "Mechanics" "3"))).
    + vm_compute. discriminate.
    + apply elem_of_cons. left. reflexivity.
    + apply elem_of_cons. right. apply elem_of_cons. left. reflexivity.
    + reflexivity.
    + reflexivity.
    + vm_compute. discriminate.
  - apply (Hmalformed NotJson (messages Examples.tenQuestions)). exact I.
  - apply (Hunreadable (messages Examples.tenQuestions)). vm_compute. discriminate.
Defined.


(** ** Star progress *)

Import Metrics.

Lemma round_between (x : Q) (lo hi : Z) :
  (inject_Z lo <= x)%Q → (x <= inject_Z hi)%Q → lo ≤ JS.Math_round x ≤ hi.
Proof.
  intros Hlo Hhi. unfold JS.Math_round. split.
  - rewrite <- (Qfloor_Z lo). apply Qfloor_resp_le. lra.
  - apply Z.lt_succ_r. rewrite Zlt_Qlt.
    eapply Qle_lt_trans; [apply Qfloor_le|].
    unfold Z.succ. rewrite inject_Z_plus. change (inject_Z 1) with 1%Q. lra.
Qed.

(** The weighted sum of the code and that of the specification agree. *)
Lemma weighted_sum_agrees (m q : Z) :
  0 ≤ m → 0 ≤ q →
  let code :=
    (Qmin (inject_Z m / STUDY_GOAL_MINUTES * 100) 100 * (4 # 10)
     + Qmin (inject_Z q / QUESTIONS_GOAL * 100) 100 * (3 # 10)
     + (if Z.ltb 0 m then 100 else 0) * (3 # 10))%Q in
  let spec :=
    (40 * Qmin (inject_Z m / 120) 1 + 30 * Qmin (inject_Z q / 20) 1
     + 30 * (if Z.ltb 0 m then 1 else 0))%Q in
  (code == spec)%Q ∧ (0 <= spec)%Q ∧ (spec <= 100)%Q.
Proof.
  intros Hm Hq. unfold STUDY_GOAL_MINUTES, QUESTIONS_GOAL, Qdiv. cbv zeta.
  change (/ 120)%Q with (1 # 120)%Q. change (/ 20)%Q with (1 # 20)%Q.
  assert (Hm' : (0 <= inject_Z m)%Q)
    by (change 0%Q with (inject_Z 0); by rewrite <- Zle_Qle).
  assert (Hq' : (0 <= inject_Z q)%Q)
    by (change 0%Q with (inject_Z 0); by rewrite <- Zle_Qle).
  set (x := inject_Z m) in *. set (y := inject_Z q) in *.
  assert (Hstreak : ∃ c : Q, (0 <= c)%Q ∧ (c <= 1)%Q ∧
            ((if Z.ltb 0 m then 100 else 0) * (3 # 10) == 30 * c)%Q ∧
            ((if Z.ltb 0 m then 1 else 0) == c)%Q).
  { destruct (Z.ltb 0 m); [exists 1%Q|exists 0%Q]; repeat split; try lra; reflexivity. }
  destruct Hstreak as (c & Hc0 & Hc1 & Hcode & Hspec).
  rewrite Hcode, Hspec.
  destruct (Q.min_spec (x * (1 # 120) * 100) 100) as [[Hx ->]|[Hx ->]],
           (Q.min_spec (x * (1 # 120)) 1) as [[Hx1 ->]|[Hx1 ->]],
           (Q.min_spec (y * (1 # 20) * 100) 100) as [[Hy ->]|[Hy ->]],
           (Q.min_spec (y * (1 # 20)) 1) as [[Hy1 ->]|[Hy1 ->]];
    lra.
Qed.

Lemma starProgressOf_spec (m q : Z) :
  0 ≤ m → 0 ≤ q →
  starProgressOf m q = specStarProgress m q ∧ 0 ≤ starProgressOf m q ≤ 100.
Proof.
  intros Hm Hq.
  destruct (weighted_sum_agrees m q Hm Hq) as (Heq & H0 & H100).
  unfold starProgressOf, specStarProgress. cbv zeta in *.
  match goal with
  | |- Z.min (JS.Math_round ?c) 100 = Z.max 0 (Z.min 100 (JS.Math_round ?s)) ∧ _ =>
      assert (Hr : JS.Math_round c = JS.Math_round s)
        by (unfold JS.Math_round; apply Qfloor_comp, Qplus_comp; [exact Heq|reflexivity]);
      rewrite Hr
  end.
  pose proof (round_between _ 0 100 H0 H100). lia.
Qed.

Lemma find_map_update {A} (P : A → bool) (g : A → A) l :
  (∀ a, P (g a) = P a) →
  List.find P (map (λ a, if P a then g a else a) l) = g <$> List.find P l.
Proof.
  intros Hg. induction l as [|a l IH]; [done|]. simpl.
  destruct (P a) eqn:E.
  - by rewrite Hg, E.
  - by rewrite E.
Qed.

Lemma find_snoc {A} (P : A → bool) l x :
  List.find P l = None → P x = true → List.find P (l ++ [x]) = Some x.
Proof.
  intros Hn Hx. induction l as [|a l IH]; simpl in *.
  - by rewrite Hx.
  - destruct (P a); [done|]. auto.
Qed.

Lemma isActivityOf_new u day : isActivityOf u day (newActivity u day) = true.
Proof.
  unfold isActivityOf. simpl.
  rewrite bool_decide_eq_true_2 by done. simpl. apply Z.eqb_refl.
Qed.

Lemma upsert_found tz now u f acts a :
  (∀ r, isActivityOf u (startOfDay tz now) (f r) = isActivityOf u (startOfDay tz now) r) →
  List.find (isActivityOf u (startOfDay tz now)) acts = Some a →
  List.find (isActivityOf u (startOfDay tz now)) (updateTodayActivity tz now u f acts)
  = Some (f a).
Proof.
  intros Hf Ha. unfold updateTodayActivity. cbv zeta. rewrite Ha.
  by rewrite find_map_update, Ha.
Qed.

(** The binary64 evaluation of the star progress, as the code runs it, gives
    the same integer as the exact one for all counts up to twice the daily
    goals (240 minutes, 40 questions). *)
Lemma starProgress_binary64_agrees (m q : Z) :
  0 ≤ m ≤ 240 → 0 ≤ q ≤ 40 →
  starProgressDouble m q = Some (starProgressOf m q).
Proof.
  intros Hm Hq.
  assert (H : forallb
                (λ m, forallb
                        (λ q, bool_decide (starProgressDouble m q = Some (starProgressOf m q)))
                        (seqZ 0 41))
                (seqZ 0 241) = true) by (vm_compute; reflexivity).
  rewrite forallb_forall in H.
  assert (Hin : ∀ x n, 0 ≤ x < n → In x (seqZ 0 n))
    by (intros x n Hx; apply list_elem_of_In, elem_of_seqZ; lia).
  pose proof (H m (Hin m 241 ltac:(lia))) as H'.
  rewrite forallb_forall in H'.
  eapply bool_decide_eq_true_1, H', Hin. lia.
Qed.

(** C9. For non-negative counters, the star progress computed by the code is
    the weighted sum 40 * min(studyMinutes/120, 1) + 30 *
    min(questionsAnswered/20, 1) + 30 * [studyMinutes > 0], rounded to the
    nearest integer and clamped to [0, 100]; it is an integer between 0 and
    100; and after calculateStarProgress the row of the user for today exists
    and carries that value as its starProgress. Evaluated on binary64 floats,
    as the code does, the result is that same integer for all counts up to
    twice the daily goals (240 minutes, 40 questions). *)
Theorem C9_star_progress_formula_bound_and_persistence :
  (∀ m q,
     0 ≤ m → 0 ≤ q →
     starProgressOf m q = specStarProgress m q ∧ 0 ≤ starProgressOf m q ≤ 100) ∧
  (∀ tz now u acts,
     (∀ a, a ∈ acts → 0 ≤ studyMinutes a ∧ 0 ≤ ua_questionsAnswered a) →
     ∃ today,
       List.find (isActivityOf u (startOfDay tz now)) (calculateStarProgress tz now u acts).2
         = Some today ∧
       starProgress today = (calculateStarProgress tz now u acts).1 ∧
       (calculateStarProgress tz now u acts).1
         = specStarProgress (studyMinutes today) (ua_questionsAnswered today) ∧
       0 ≤ (calculateStarProgress tz now u acts).1 ≤ 100) ∧
  (∀ m q,
     0 ≤ m ≤ 240 → 0 ≤ q ≤ 40 →
     starProgressDouble m q = Some (specStarProgress m q)).
Proof.
  split; [apply starProgressOf_spec|]. split; cycle 1.
  { intros m q Hm Hq. rewrite starProgress_binary64_agrees by done.
    f_equal. apply starProgressOf_spec; lia. }
  intros tz now u acts Hpos.
  unfold calculateStarProgress, getTodayActivity. cbv zeta.
  set (day := startOfDay tz now).
  assert (Hkey : ∀ p r, isActivityOf u day (setStarProgress p r) = isActivityOf u day r) by done.
  destruct (List.find (isActivityOf u day) acts) as [a|] eqn:E.
  - destruct (Hpos a) as [Hm Hq].
    { apply find_some in E as [Hin _]. by apply list_elem_of_In. }
    destruct (starProgressOf_spec _ _ Hm Hq) as [Hspec Hbound].
    eexists. split; [apply upsert_found; [apply Hkey|exact E]|].
    simpl. auto.
  - destruct (starProgressOf_spec 0 0) as [Hspec Hbound]; [lia..|].
    eexists. split.
    + apply upsert_found; [apply Hkey|]. apply find_snoc; [exact E|apply isActivityOf_new].
    + simpl. auto.
Qed.

(** C9 for ninety minutes and ten questions. *)
Lemma C9_witness :
  (starProgressOf 90 10 = specStarProgress 90 10 ∧ 0 ≤ starProgressOf 90 10 ≤ 100) ∧
  (∃ today,
    List.find (isActivityOf "alice" (startOfDay 0 Examples.noon))
      (calculateStarProgress 0 Examples.noon "alice" [Examples.studyDay]).2 = Some today ∧
    starProgress today = (calculateStarProgress 0 Examples.noon "alice" [Examples.studyDay]).1 ∧
    (calculateStarProgress 0 Examples.noon "alice" [Examples.studyDay]).1
      = specStarProgress (studyMinutes today) (ua_questionsAnswered today) ∧
    0 ≤ (calculateStarProgress 0 Examples.noon "alice" [Examples.studyDay]).1 ≤ 100) ∧
  starProgressDouble 90 10 = Some (specStarProgress 90 10).
Proof.
  destruct C9_star_progress_formula_bound_and_persistence as (Hformula & Hstored & Hdouble).
  split; [|split].
  - apply (Hformula 90 10); lia.
  - apply (Hstored 0 Examples.noon "alice" [Examples.studyDay]).
    intros a Ha. apply list_elem_of_singleton in Ha. rewrite Ha. simpl. lia.
  - apply (Hdouble 90 10); lia.
Defined.


(** ** Repair of duplicate active sessions *)

Lemma selectValid_some l k del :
  selectValid l (Some k) del = (Some k, del ++ map id l).
Proof.
  revert del. induction l as [|s l IH]; intros del; simpl.
  - by rewrite app_nil_r.
  - rewrite andb_false_r, IH, <- app_assoc. done.
Qed.

Lemma selectValid_nodata l del :
  Forall (λ s, hasData s = false) l →
  selectValid l None del = (None, del ++ map id l).
Proof.
  intros H. revert del. induction H as [|s l Hs _ IH]; intros del; simpl.
  - by rewrite app_nil_r.
  - rewrite Hs. simpl. rewrite IH, <- app_assoc. done.
Qed.

Lemma selectValid_first pre k post del :
  Forall (λ s, hasData s = false) pre → hasData k = true →
  selectValid (pre ++ k :: post) None del = (Some k, del ++ map id (pre ++ post)).
Proof.
  intros H Hk. revert del. induction H as [|s l Hs _ IH]; intros del; simpl.
  - rewrite Hk. simpl. apply selectValid_some.
  - rewrite Hs. simpl. rewrite IH, <- app_assoc. done.
Qed.

Lemma first_with_data l :
  Forall (λ s, hasData s = false) l ∨
  ∃ pre k post, l = pre ++ k :: post ∧ Forall (λ s, hasData s = false) pre ∧ hasData k = true.
Proof.
  induction l as [|s l IH]; [by left|].
  destruct (hasData s) eqn:E.
  - right. exists [], s, l. auto.
  - destruct IH as [IH|(pre & k & post & -> & Hpre & Hk)].
    + left. by constructor.
    + right. exists (s :: pre), k, post. split; [done|]. split; [by constructor|done].
Qed.

Lemma removeFirst_head i l : removeFirst i (i :: l) = l.
Proof. simpl. by rewrite bool_decide_eq_true_2. Qed.

(** What a deletion leaves in the table. *)
Lemma delete_sessions fault db i :
  sessions (Prisma.delete fault db i).2 =
    List.filter (λ s, negb (bool_decide (id s = i) && negb (fault i))) (sessions db).
Proof.
  unfold Prisma.delete. destruct (fault i) eqn:Hf; simpl.
  - rewrite <- (filter_all (sessions db)) at 1.
    apply filter_ext. intros s. by rewrite andb_false_r.
  - destruct (Prisma.findUnique db i) as [s|] eqn:E; simpl.
    + apply filter_ext. intros r. by rewrite andb_true_r.
    + unfold Prisma.findUnique in E.
      rewrite <- (filter_all (sessions db)) at 1.
      apply filter_ext_in. intros r Hr.
      pose proof (find_none _ _ E r Hr) as Hn. simpl in Hn. by rewrite Hn.
Qed.

Lemma filter_filter {A} (f g : A → bool) l :
  List.filter f (List.filter g l) = List.filter (λ x, g x && f x) l.
Proof.
  induction l as [|x l IH]; [done|]. simpl.
  destruct (g x); simpl; [destruct (f x)|]; by rewrite ?IH.
Qed.

Lemma deleteEach_sessions fault ids db :
  sessions (deleteEach fault ids db) =
    List.filter (λ s, negb (shouldGo fault ids s)) (sessions db).
Proof.
  revert db. induction ids as [|i ids IH]; intros db; simpl.
  - by rewrite filter_all.
  - rewrite IH, delete_sessions, filter_filter.
    apply filter_ext. intros s. unfold shouldGo. simpl.
    by rewrite negb_orb.
Qed.

Lemma shouldGo_spec fault ids s :
  shouldGo fault ids s = bool_decide (id s ∈ ids) && negb (fault (id s)).
Proof.
  unfold shouldGo. induction ids as [|i ids IH]; cbn [existsb].
  - rewrite bool_decide_eq_false_2; [done|]. by intros ?%elem_of_nil.
  - rewrite IH. destruct (decide (id s = i)) as [E|Hne].
    + rewrite E.
      rewrite (bool_decide_eq_true_2 (i = i)) by done.
      rewrite (bool_decide_eq_true_2 (i ∈ i :: ids)) by (apply elem_of_cons; by left).
      by destruct (fault i), (bool_decide (i ∈ ids)).
    + rewrite (bool_decide_eq_false_2 (id s = i)) by done. simpl.
      f_equal. apply bool_decide_ext. rewrite elem_of_cons. intuition.
Qed.

Lemma NoDup_id_inj (l : list Session) s s' :
  NoDup (id <$> l) → s ∈ l → s' ∈ l → id s = id s' → s = s'.
Proof.
  induction l as [|r l IH]; intros Hnd Hs Hs' Hid.
  - by apply elem_of_nil in Hs.
  - rewrite fmap_cons in Hnd. apply NoDup_cons in Hnd as [Hr Hnd].
    apply elem_of_cons in Hs as [->|Hs]; apply elem_of_cons in Hs' as [->|Hs']; auto.
    + exfalso. apply Hr. rewrite Hid. by apply list_elem_of_fmap_2.
    + exfalso. apply Hr. rewrite <- Hid. by apply list_elem_of_fmap_2.
Qed.

Lemma findActive_elem u db s :
  s ∈ findActive u db ↔ s ∈ sessions db ∧ isActiveOf u s = true.
Proof.
  unfold findActive. rewrite sort_desc_elem, !list_elem_of_In, filter_In. done.
Qed.

Lemma sorted_split {A} (R : A → A → Prop) pre k post :
  StronglySorted R (pre ++ k :: post) → Forall (R k) post.
Proof.
  induction pre as [|a pre IH]; simpl; intros H.
  - by apply StronglySorted_inv in H as [_ H].
  - apply StronglySorted_inv in H as [H _]. auto.
Qed.

Lemma NoDup_id_filter (f : Session → bool) l :
  NoDup (id <$> l) → NoDup (id <$> List.filter f l).
Proof.
  induction l as [|r l IH]; [done|]. rewrite fmap_cons, NoDup_cons. intros [Hr Hnd].
  simpl. destruct (f r); [|auto].
  rewrite fmap_cons. apply NoDup_cons. split; [|auto].
  intros (r' & Hid & Hin%list_elem_of_In%filter_In)%list_elem_of_fmap.
  apply Hr. rewrite Hid. apply list_elem_of_fmap_2, list_elem_of_In, Hin.
Qed.

Lemma findActive_NoDup u db :
  NoDup (id <$> sessions db) → NoDup (id <$> findActive u db).
Proof.
  intros H. unfold findActive. rewrite sort_desc_perm. by apply NoDup_id_filter.
Qed.

(** With several candidates, the row kept is the first one with a transcript
    in the order of the query, or the first one of all when none has a
    transcript; the ids of all the others are handed to the deletion loop. *)
Lemma getActiveSession_many fault u db :
  (1 < length (findActive u db))%nat →
  ∃ pre kept post,
    findActive u db = pre ++ kept :: post ∧
    Forall (λ s, hasData s = false) pre ∧
    (hasData kept = true ∨ (pre = [] ∧ Forall (λ s, hasData s = false) (findActive u db))) ∧
    getActiveSession fault u db = (Some kept, deleteEach fault (map id (pre ++ post)) db).
Proof.
  intros Hlen. unfold getActiveSession. cbv zeta.
  destruct (findActive u db) as [|a [|b r]] eqn:E; simpl in Hlen; [lia..|].
  destruct (first_with_data (a :: b :: r)) as [Hno|(pre & k & post & Heq & Hpre & Hk)].
  - exists [], a, (b :: r). split; [done|]. split; [constructor|]. split; [by right|].
    cbv beta iota. rewrite (selectValid_nodata _ _ Hno).
    change (map id (a :: b :: r)) with (id a :: map id (b :: r)).
    rewrite app_nil_l, removeFirst_head. done.
  - exists pre, k, post. split; [done|]. split; [done|]. split; [by left|].
    cbv beta iota. rewrite Heq, (selectValid_first _ _ _ _ Hpre Hk). done.
Qed.

Lemma others_ids u db pre kept post s :
  NoDup (id <$> sessions db) →
  findActive u db = pre ++ kept :: post →
  s ∈ sessions db →
  id s ∈ map id (pre ++ post) ↔ isActiveOf u s = true ∧ id s ≠ id kept.
Proof.
  intros Hnd HL Hs.
  assert (Hperm : findActive u db ≡ₚ kept :: (pre ++ post))
    by (rewrite HL; symmetry; apply Permutation_middle).
  assert (HndL : NoDup (id <$> kept :: (pre ++ post)))
    by (rewrite <- Hperm; by apply findActive_NoDup).
  rewrite fmap_cons in HndL. apply NoDup_cons in HndL as [Hkept _].
  assert (Hmem : ∀ r, r ∈ kept :: (pre ++ post) ↔ r ∈ sessions db ∧ isActiveOf u r = true)
    by (intros r; rewrite <- Hperm; apply findActive_elem).
  split.
  - intros (s' & Hid & Hin)%list_elem_of_fmap.
    assert (Hs' : s' ∈ sessions db ∧ isActiveOf u s' = true)
      by (apply Hmem, elem_of_cons; by right).
    assert (s = s') as <- by (apply (NoDup_id_inj (sessions db)); tauto).
    split; [tauto|]. intros Heq. apply Hkept. rewrite <- Heq.
    by apply list_elem_of_fmap_2.
  - intros [Hact Hne].
    assert (Hin : s ∈ kept :: (pre ++ post)) by (by apply Hmem).
    apply elem_of_cons in Hin as [->|Hin]; [done|].
    by apply list_elem_of_fmap_2.
Qed.

(** C5. When the query of getActiveSession returns more than one row, the
    row kept is the most recently updated one that has a transcript or, when
    no row has one, the most recently updated one of all; every other
    candidate is deleted, except exactly those whose own deletion is rejected
    by the store: a failed deletion never prevents the others. *)
Theorem C5_getActiveSession_repairs_duplicates
    (fault : SessionId → bool) (u : UserId) (db : Db) :
  NoDup (id <$> sessions db) →
  (1 < length (findActive u db))%nat →
  ∃ kept,
    (getActiveSession fault u db).1 = Some kept ∧
    kept ∈ sessions db ∧ isActiveOf u kept = true ∧
    (∀ s, s ∈ sessions db → isActiveOf u s = true → hasData s = true →
          hasData kept = true ∧ updatedAt s ≤ updatedAt kept) ∧
    ((∀ s, s ∈ sessions db → isActiveOf u s = true → hasData s = false) →
     ∀ s, s ∈ sessions db → isActiveOf u s = true → updatedAt s ≤ updatedAt kept) ∧
    sessions (getActiveSession fault u db).2 =
      List.filter
        (λ s, negb (isActiveOf u s && negb (bool_decide (id s = id kept))
                    && negb (fault (id s))))
        (sessions db).
Proof.
  intros Hnd Hlen.
  destruct (getActiveSession_many fault u db Hlen)
    as (pre & kept & post & HL & Hpre & Hcase & Hget).
  assert (Hsorted : Forall (λ s, updatedAt s ≤ updatedAt kept) post).
  { pose proof (sort_desc_sorted updatedAt
                  (List.filter (isActiveOf u) (sessions db))) as H.
    fold (findActive u db) in H. rewrite HL in H.
    by apply sorted_split in H. }
  assert (Hkept : kept ∈ findActive u db)
    by (rewrite HL; apply elem_of_app; right; apply elem_of_cons; by left).
  assert (Hafter : ∀ s, s ∈ kept :: post → updatedAt s ≤ updatedAt kept).
  { intros s [->|Hin]%elem_of_cons; [lia|].
    by apply (proj1 (Forall_forall _ _) Hsorted). }
  assert (Hsplit : ∀ s, s ∈ sessions db → isActiveOf u s = true →
                        s ∈ pre ∨ s ∈ kept :: post).
  { intros s Hs Ha. apply elem_of_app. rewrite <- HL. by apply findActive_elem. }
  exists kept. rewrite Hget. simpl.
  split; [done|]. apply findActive_elem in Hkept as [Hk1 Hk2].
  split; [done|]. split; [done|]. split; [|split].
  - intros s Hs Ha Hd. destruct (Hsplit s Hs Ha) as [Hin|Hin].
    + apply (proj1 (Forall_forall _ _) Hpre) in Hin. congruence.
    + split; [|by apply Hafter]. destruct Hcase as [Hk|[_ Hall]]; [done|].
      assert (hasData s = false); [|congruence].
      apply (proj1 (Forall_forall _ _) Hall). by apply findActive_elem.
  - intros Hnone s Hs Ha. destruct Hcase as [Hk|[-> _]].
    + rewrite (Hnone kept Hk1 Hk2) in Hk. done.
    + destruct (Hsplit s Hs Ha) as [Hin|Hin]; [by apply elem_of_nil in Hin|].
      by apply Hafter.
  - rewrite deleteEach_sessions. apply filter_ext_in. intros s Hs%list_elem_of_In.
    rewrite shouldGo_spec. f_equal. f_equal.
    pose proof (others_ids u db pre kept post s Hnd HL Hs) as Hiff.
    destruct (isActiveOf u s) eqn:Ha; simpl.
    + rewrite <- bool_decide_not. apply bool_decide_ext. rewrite Hiff. intuition.
    + apply bool_decide_eq_false_2. rewrite Hiff. intros [? _]. done.
Qed.


(** C5 on three duplicates, the deletion of one of them being rejected. *)
Lemma C5_witness :
  ∃ kept,
    (getActiveSession Examples.faultOnFirst "alice" Examples.duplicates).1 = Some kept ∧
    kept ∈ sessions Examples.duplicates ∧ isActiveOf "alice" kept = true ∧
    (∀ s, s ∈ sessions Examples.duplicates → isActiveOf "alice" s = true →
          hasData s = true → hasData kept = true ∧ updatedAt s ≤ updatedAt kept) ∧
    ((∀ s, s ∈ sessions Examples.duplicates → isActiveOf "alice" s = true →
           hasData s = false) →
     ∀ s, s ∈ sessions Examples.duplicates → isActiveOf "alice" s = true →
          updatedAt s ≤ updatedAt kept) ∧
    sessions (getActiveSession Examples.faultOnFirst "alice" Examples.duplicates).2 =
      List.filter
        (λ s, negb (isActiveOf "alice" s && negb (bool_decide (id s = id kept))
                    && negb (Examples.faultOnFirst (id s))))
        (sessions Examples.duplicates).
Proof.
  apply (C5_getActiveSession_repairs_duplicates Examples.faultOnFirst "alice"
           Examples.duplicates).
  - apply (bool_decide_unpack _). vm_compute. exact I.
  - vm_compute. lia.
Defined.

(** ** The invariant of the session table *)

Lemma good_ext db db' :
  sessions db' = sessions db → nextId db' = nextId db → good db → good db'.
Proof.
  intros Hs Hn [[Hnd Hlt] Hinv]. unfold good, wellKeyed, atMostOneActive.
  rewrite Hs, Hn. done.
Qed.

Lemma isActiveOf_split u s : isActiveOf u s = bool_decide (userId s = u) && isActive s.
Proof. unfold isActiveOf, isActive. by rewrite andb_assoc. Qed.

Lemma count_map_le {A} (P : A → bool) (g : A → A) l :
  (∀ r, r ∈ l → P (g r) = true → P r = true) →
  (length (List.filter P (map g l)) ≤ length (List.filter P l))%nat.
Proof.
  induction l as [|r l IH]; intros H; simpl; [lia|].
  assert (IH' : (length (List.filter P (map g l)) ≤ length (List.filter P l))%nat).
  { apply IH. intros r' Hr'. apply H, elem_of_cons. by right. }
  destruct (P (g r)) eqn:E.
  - rewrite (H r) by (done || apply elem_of_cons; by left). simpl. lia.
  - destruct (P r); simpl; lia.
Qed.

Lemma ids_map (g : Session → Session) l :
  (∀ r, id (g r) = id r) → id <$> map g l = id <$> l.
Proof.
  intros Hg. induction l as [|r l IH]; [done|].
  cbn [map]. rewrite !fmap_cons, Hg. f_equal. exact IH.
Qed.

(** An update that keeps the key, and does not make the row it changes
    true-active for anyone it was not true-active for, preserves the
    invariant. *)
Lemma update_good db now i f :
  good db →
  (∀ r, id (f r) = id r) →
  (∀ r v, r ∈ sessions db → id r = i → isActiveOf v (f r) = true → isActiveOf v r = true) →
  good (Prisma.update db now i f).2.
Proof.
  intros [[Hnd Hlt] Hinv] Hid Hact. unfold Prisma.update.
  destruct (Prisma.findUnique db i) as [s|]; [|done]. simpl.
  set (g := λ r, if bool_decide (id r = i) then Prisma.touch now (f r) else r).
  assert (Hg : ∀ r, id (g r) = id r).
  { intros r. unfold g. destruct (bool_decide (id r = i)); [apply Hid|done]. }
  split; [split|].
  - simpl. by rewrite (ids_map g).
  - simpl. intros r (r0 & -> & Hr0)%list_elem_of_fmap. rewrite Hg. auto.
  - intros v. simpl. etrans; [|apply (Hinv v)].
    apply count_map_le. intros r Hr. unfold g.
    destruct (bool_decide (id r = i)) eqn:E; [|done].
    apply bool_decide_eq_true in E. apply (Hact r v Hr E).
Qed.

Lemma update_neutral_good db now i f :
  good db →
  (∀ r, id (f r) = id r) →
  (∀ r v, isActiveOf v (f r) = isActiveOf v r) →
  good (Prisma.update db now i f).2.
Proof.
  intros Hg Hid Hn. apply update_good; [done..|].
  intros r v _ _. by rewrite Hn.
Qed.

Lemma createProgressRecords_tables s sd all total todo db :
  sessions (createProgressRecords s sd all total todo db) = sessions db ∧
  nextId (createProgressRecords s sd all total todo db) = nextId db.
Proof.
  revert db. induction todo as [|b todo IH]; intros db; simpl; [done|].
  destruct (progressRecord _ _ _ _ _); [|done]. by rewrite !(proj1 (IH _)), !(proj2 (IH _)).
Qed.

Lemma createProgressRecords_good s sd all total todo db :
  good db → good (createProgressRecords s sd all total todo db).
Proof.
  destruct (createProgressRecords_tables s sd all total todo db) as [H1 H2].
  by apply good_ext.
Qed.

Lemma recordCompletion_good reply now s db :
  good db → good (recordCompletion reply now s db).
Proof.
  intros Hg. unfold recordCompletion.
  destruct (data s) as [sd|]; [|done].
  destruct (List.filter notWelcome (messages sd)) as [|m real]; [done|].
  destruct (Classifier.detectAllSubjectsFromConversation _ _) as [|b rest].
  - by apply createProgressRecords_good.
  - destruct (negb _).
    + pose proof (update_neutral_good db now (id s) (setSubject b) Hg
                    (λ _, eq_refl) (λ _ _, eq_refl)) as Hu.
      destruct (Prisma.update _ _ _ _) as [[r|e] db']; [|done].
      by apply createProgressRecords_good.
    + by apply createProgressRecords_good.
Qed.

Lemma runJob_good joy reply now j db : good db → good (runJob joy reply now j db).2.
Proof.
  intros Hg. destruct j as [i|i realMessages]; simpl.
  - unfold recalculateSessionMetrics.
    destruct (Prisma.findUnique db i) as [s|]; [|done].
    destruct (data s) as [sd|]; [|done].
    destruct (messages sd) as [|m msgs]; [done|].
    pose proof (update_neutral_good db now i
                  (setMetrics joy (Z.of_nat (length (List.filter isPhotoUpload (m :: msgs)))))
                  Hg (λ _, eq_refl) (λ _ _, eq_refl)) as Hu.
    by destruct (Prisma.update _ _ _ _) as [[r|e] db'].
  - destruct (Classifier.detectAllSubjectsFromConversation _ _) as [|b rest]; [done|].
    pose proof (update_neutral_good db now i (setSubject b) Hg
                  (λ _, eq_refl) (λ _ _, eq_refl)) as Hu.
    by destruct (Prisma.update _ _ _ _) as [[r|e] db'].
Qed.

Lemma runJobs_good joy reply now jobs db : good db → good (runJobs joy reply now jobs db).
Proof.
  unfold runJobs. revert db. induction jobs as [|j jobs IH]; intros db Hg; simpl; [done|].
  by apply IH, runJob_good.
Qed.

Lemma count_split (P : Session → bool) (g : Session → Session) i l :
  (∀ r, id r ≠ i → g r = r) →
  length (List.filter P (map g l)) =
    (length (List.filter (λ r, negb (bool_decide (id r = i)) && P r) l) +
     length (List.filter (λ r, bool_decide (id r = i) && P (g r)) l))%nat.
Proof.
  intros Hg. induction l as [|r l IH]; [done|]. simpl.
  destruct (bool_decide (id r = i)) eqn:E; simpl.
  - destruct (P (g r)); simpl; lia.
  - apply bool_decide_eq_false in E. rewrite (Hg r E). destruct (P r); simpl; lia.
Qed.

Lemma one_row_per_key (Q : Session → bool) i l :
  NoDup (id <$> l) →
  (length (List.filter (λ r, bool_decide (id r = i) && Q r) l) ≤ 1)%nat.
Proof.
  induction l as [|r l IH]; [simpl; lia|].
  rewrite fmap_cons, NoDup_cons. intros [Hr Hnd]. simpl.
  destruct (bool_decide (id r = i)) eqn:E; simpl; [|auto].
  apply bool_decide_eq_true in E.
  assert (Hnone : List.filter (λ r, bool_decide (id r = i) && Q r) l = []).
  { clear IH Hnd. induction l as [|r' l IH]; [done|]. simpl.
    rewrite bool_decide_eq_false_2.
    - simpl. apply IH. intros H. apply Hr. rewrite fmap_cons. apply elem_of_cons. by right.
    - intros H. apply Hr. rewrite fmap_cons. apply elem_of_cons. left. by rewrite E, H. }
  rewrite Hnone. destruct (Q r); simpl; lia.
Qed.

Lemma existsb_none {A} (P : A → bool) l : existsb P l = false → List.filter P l = [].
Proof.
  induction l as [|x l IH]; [done|]. simpl. intros H.
  apply orb_false_iff in H as [Hx Hl]. rewrite Hx. auto.
Qed.

Lemma filter_and_le {A} (P Q : A → bool) l :
  (length (List.filter (λ x, Q x && P x) l) ≤ length (List.filter P l))%nat.
Proof.
  induction l as [|x l IH]; [done|]. simpl.
  destruct (Q x), (P x); simpl; lia.
Qed.

(** An update that keeps the key, and leaves the row it changes true-active
    only for a user who has no other true-active session, preserves the
    invariant. *)
Lemma update_single_good db now i f :
  good db →
  (∀ r, id (f r) = id r) →
  (∀ s, Prisma.findUnique db i = Some s → isActive (f s) = true →
        hasOtherActive db i (userId (f s)) = false) →
  good (Prisma.update db now i f).2.
Proof.
  intros [[Hnd Hlt] Hinv] Hid Hact. unfold Prisma.update.
  destruct (Prisma.findUnique db i) as [s|] eqn:Hfind; [|done]. simpl.
  set (g := λ r, if bool_decide (id r = i) then Prisma.touch now (f r) else r).
  assert (Hg : ∀ r, id (g r) = id r).
  { intros r. unfold g. destruct (bool_decide (id r = i)); [apply Hid|done]. }
  split; [split|].
  - simpl. by rewrite (ids_map g).
  - simpl. intros r (r0 & -> & Hr0)%list_elem_of_fmap. rewrite Hg. auto.
  - intros v. simpl. rewrite (count_split (isActiveOf v) g i).
    2:{ intros r Hr. unfold g. by rewrite bool_decide_eq_false_2. }
    pose proof (filter_and_le (isActiveOf v) (λ r, negb (bool_decide (id r = i)))
                  (sessions db)) as Hothers.
    pose proof (one_row_per_key (λ r, isActiveOf v (g r)) i (sessions db) Hnd) as Hrow.
    specialize (Hinv v).
    destruct (List.filter (λ r, bool_decide (id r = i) && isActiveOf v (g r)) (sessions db))
      as [|r rest] eqn:Hfilter; [simpl; lia|].
    assert (Hr : r ∈ List.filter (λ r, bool_decide (id r = i) && isActiveOf v (g r))
                       (sessions db)) by (rewrite Hfilter; apply elem_of_cons; by left).
    apply list_elem_of_In, filter_In in Hr as [Hr Hb]. apply list_elem_of_In in Hr.
    apply andb_true_iff in Hb as [Hi Hv]. apply bool_decide_eq_true in Hi.
    destruct (find_id_some _ _ _ Hfind) as [Hs Hin].
    assert (r = s) as -> by (apply (NoDup_id_inj (sessions db)); [done..|by rewrite Hi]).
    unfold g in Hv. rewrite bool_decide_eq_true_2 in Hv by done.
    change (isActiveOf v (Prisma.touch now (f s))) with (isActiveOf v (f s)) in Hv.
    rewrite isActiveOf_split in Hv. apply andb_true_iff in Hv as [Hu Ha].
    apply bool_decide_eq_true in Hu.
    specialize (Hact s eq_refl Ha). rewrite Hu in Hact.
    unfold hasOtherActive in Hact. apply existsb_none in Hact. rewrite Hact.
    simpl in *. lia.
Qed.

Lemma updateSession_good reply now i patch db :
  good db → doublesByUpdate db i patch = false →
  good (updateSession reply now i patch db).2.
Proof.
  intros Hg Hre. unfold updateSession.
  assert (Hu : good (Prisma.update db now i (Prisma.assign patch)).2).
  { apply update_single_good; [done|done|]. intros s Hfind Ha.
    unfold doublesByUpdate in Hre. rewrite Hfind in Hre. cbv zeta in Hre.
    by rewrite Ha in Hre. }
  destruct (Prisma.update _ _ _ _) as [[s|e] db']; [|done].
  destruct (_ && _); simpl; [|done].
  by apply recordCompletion_good.
Qed.

Lemma getActiveSession_good fault u db :
  atMostOneActive db →
  (getActiveSession fault u db).2 = db ∧
  ((getActiveSession fault u db).1 = None → List.filter (isActiveOf u) (sessions db) = []).
Proof.
  intros Hinv. specialize (Hinv u). unfold getActiveSession. cbv zeta.
  pose proof (sort_desc_length updatedAt (List.filter (isActiveOf u) (sessions db))) as Hlen.
  fold (findActive u db) in Hlen.
  destruct (findActive u db) as [|a [|b r]]; simpl in Hlen.
  - split; [done|]. intros _. by destruct (List.filter _ _).
  - split; [done|]. done.
  - rewrite <- Hlen in Hinv. lia.
Qed.

Lemma createSession_good fault now u data db :
  good db → doublesByCreate db u data = false → good (createSession fault now u data db).2.
Proof.
  intros [[Hnd Hlt] Hinv] Hguard. unfold createSession.
  destruct (getActiveSession_good fault u db Hinv) as [Hdb Hnone].
  destruct (getActiveSession fault u db) as [[s|] db']; simpl in Hdb, Hnone; subst db'.
  - done.
  - specialize (Hnone eq_refl). unfold Prisma.create. simpl.
    set (row := Prisma.assign data (Prisma.defaultRow (nextId db) u now)).
    assert (Hrow : ∀ v, isActiveOf v row = true →
                        List.filter (isActiveOf v) (sessions db) = []).
    { intros v Hv. destruct (decide (v = u)) as [->|Hne]; [done|].
      rewrite isActiveOf_split in Hv. apply andb_true_iff in Hv as [Hu Ha].
      apply bool_decide_eq_true in Hu.
      unfold doublesByCreate, hasActive in Hguard. cbv zeta in Hguard.
      change (isActive (Prisma.assign data (Prisma.defaultRow (nextId db) u 0)))
        with (isActive row) in Hguard.
      change (userId (Prisma.assign data (Prisma.defaultRow (nextId db) u 0)))
        with (userId row) in Hguard.
      rewrite Ha, Hu, andb_true_r in Hguard.
      assert (Hu0 : existsb (isActiveOf u) (sessions db) = false).
      { destruct (existsb (isActiveOf u) (sessions db)) eqn:E; [|done].
        apply existsb_exists in E as (r & Hr & Hact).
        assert (H : In r (List.filter (isActiveOf u) (sessions db)))
          by (apply filter_In; auto).
        by rewrite Hnone in H. }
      rewrite Hu0 in Hguard. simpl in Hguard. by apply existsb_none. }
    split; [split|]; cbn [sessions nextId].
    + rewrite fmap_app. apply NoDup_app. split; [done|]. split; [|apply NoDup_singleton].
      intros x (r & -> & Hr)%list_elem_of_fmap Hx.
      apply list_elem_of_singleton in Hx. specialize (Hlt r Hr). simpl in Hx. lia.
    + intros r [Hr| ->%list_elem_of_singleton]%elem_of_app; [specialize (Hlt r Hr)|simpl]; lia.
    + intros v. cbn [sessions]. rewrite List.filter_app, length_app. simpl.
      destruct (isActiveOf v row) eqn:E.
      * rewrite (Hrow v E). simpl. lia.
      * simpl. specialize (Hinv v). lia.
Qed.

Lemma call_good fault now c db : good db → guarded db c = true → good (call fault now c db).
Proof.
  intros Hg Hc. destruct c as [u data|i patch reply joy reply'|i u]; simpl in *.
  - apply negb_true_iff in Hc. by apply createSession_good.
  - apply negb_true_iff in Hc.
    pose proof (updateSession_good reply now i patch db Hg Hc) as Hu.
    destruct (updateSession _ _ _ _ _) as [[[s jobs]|e] db']; [|done].
    by apply runJobs_good.
  - done.
Qed.

(** ** The guard excludes nothing more *)

Lemma map_count_eq {A} (P : A → bool) (g : A → A) l :
  (∀ r, P (g r) = P r) → length (List.filter P (map g l)) = length (List.filter P l).
Proof.
  intros H. induction l as [|r l IH]; [done|]. simpl. rewrite H.
  destruct (P r); simpl; lia.
Qed.

Lemma update_neutral_count db now i f v :
  (∀ r u, isActiveOf u (f r) = isActiveOf u r) →
  length (List.filter (isActiveOf v) (sessions (Prisma.update db now i f).2)) =
  length (List.filter (isActiveOf v) (sessions db)).
Proof.
  intros Hn. unfold Prisma.update.
  destruct (Prisma.findUnique db i) as [s|]; [|done]. simpl.
  apply map_count_eq. intros r. destruct (bool_decide (id r = i)); [|done].
  change (isActiveOf v (Prisma.touch now (f r))) with (isActiveOf v (f r)). apply Hn.
Qed.

Lemma runJob_count joy reply now j db v :
  length (List.filter (isActiveOf v) (sessions (runJob joy reply now j db).2)) =
  length (List.filter (isActiveOf v) (sessions db)).
Proof.
  destruct j as [i|i realMessages]; simpl.
  - unfold recalculateSessionMetrics.
    destruct (Prisma.findUnique db i) as [s|]; [|done].
    destruct (data s) as [sd|]; [|done].
    destruct (messages sd) as [|m msgs]; [done|].
    pose proof (update_neutral_count db now i
                  (setMetrics joy (Z.of_nat (length (List.filter isPhotoUpload (m :: msgs)))))
                  v (λ _ _, eq_refl)) as Hu.
    by destruct (Prisma.update _ _ _ _) as [[r|e] db'].
  - destruct (Classifier.detectAllSubjectsFromConversation _ _) as [|b rest]; [done|].
    pose proof (update_neutral_count db now i (setSubject b) v (λ _ _, eq_refl)) as Hu.
    by destruct (Prisma.update _ _ _ _) as [[r|e] db'].
Qed.

Lemma runJobs_count joy reply now jobs db v :
  length (List.filter (isActiveOf v) (sessions (runJobs joy reply now jobs db))) =
  length (List.filter (isActiveOf v) (sessions db)).
Proof.
  unfold runJobs. revert db. induction jobs as [|j jobs IH]; intros db; simpl; [done|].
  by rewrite IH, runJob_count.
Qed.

Lemma existsb_count {A} (P : A → bool) l :
  existsb P l = true → (1 ≤ length (List.filter P l))%nat.
Proof.
  induction l as [|x l IH]; [done|]. simpl.
  destruct (P x); simpl; [lia|auto].
Qed.

Lemma find_count (P : Session → bool) i l s :
  List.find (λ r, bool_decide (id r = i)) l = Some s → P s = true →
  (1 ≤ length (List.filter (λ r, bool_decide (id r = i) && P r) l))%nat.
Proof.
  induction l as [|r l IH]; [done|]. simpl.
  destruct (bool_decide (id r = i)); simpl; [|auto].
  intros [= ->] ->. simpl. lia.
Qed.

(** A call the guard rejects leaves some user with two true-active
    sessions, whatever the table it is made on. *)
Lemma unguarded_call_doubles fault now c db :
  guarded db c = false → ¬ atMostOneActive (call fault now c db).
Proof.
  intros Hc Hinv. destruct c as [u data|i patch reply joy reply'|i u]; simpl in *; [| |done].
  - apply negb_false_iff in Hc. unfold doublesByCreate in Hc.
    apply andb_true_iff in Hc as [Hc Hv]. apply andb_true_iff in Hc as [Hu Hrow].
    apply negb_true_iff, existsb_none in Hu.
    set (row := Prisma.assign data (Prisma.defaultRow (nextId db) u now)).
    specialize (Hinv (userId row)). revert Hinv.
    unfold createSession, getActiveSession, findActive. rewrite Hu. simpl.
    fold row. rewrite List.filter_app, length_app. simpl.
    apply existsb_count in Hv.
    change (userId (Prisma.assign data (Prisma.defaultRow (nextId db) u 0)))
      with (userId row) in Hv.
    change (default u (p_userId data)) with (userId row).
    rewrite (isActiveOf_split (userId row) row), bool_decide_eq_true_2 by done.
    change (isActive row)
      with (isActive (Prisma.assign data (Prisma.defaultRow (nextId db) u 0))).
    rewrite Hrow. cbn [andb length]. lia.
  - apply negb_false_iff in Hc. unfold doublesByUpdate in Hc.
    destruct (Prisma.findUnique db i) as [s|] eqn:Hfind; [|done].
    apply andb_true_iff in Hc as [Hact Hother].
    set (v := userId (Prisma.assign patch s)) in *.
    specialize (Hinv v). revert Hinv.
    unfold updateSession. rewrite (update_found db now i (Prisma.assign patch) s Hfind).
    assert (p_completed patch ≠ Some true) as Hnc.
    { intros Hp. unfold isActive in Hact. simpl in Hact. by rewrite Hp in Hact. }
    rewrite (bool_decide_eq_false_2 (p_completed patch = Some true)) by done. simpl.
    rewrite runJobs_count. simpl.
    rewrite (count_split (isActiveOf v)
               (λ r, if bool_decide (id r = i)
                     then Prisma.touch now (Prisma.assign patch r) else r) i).
    2:{ intros r Hr. by rewrite bool_decide_eq_false_2. }
    apply existsb_count in Hother.
    pose proof (find_count
                  (λ r, isActiveOf v
                          (if bool_decide (id r = i)
                           then Prisma.touch now (Prisma.assign patch r) else r))
                  i (sessions db) s Hfind) as Hrow.
    destruct (find_id_some _ _ _ Hfind) as [Hs _].
    cbv beta in Hrow. rewrite (bool_decide_eq_true_2 (id s = i)) in Hrow by done.
    change (isActiveOf v (Prisma.touch now (Prisma.assign patch s)))
      with (isActiveOf v (Prisma.assign patch s)) in Hrow.
    rewrite isActiveOf_split, Hact in Hrow.
    rewrite (bool_decide_eq_true_2 (userId (Prisma.assign patch s) = v)) in Hrow by done.
    specialize (Hrow eq_refl). lia.
Qed.

(** C2 (as amended). Starting from a table with unique ids and at most one
    true-active session per user, any sequence of createSession,
    updateSession and resumeSession calls leaves at most one true-active
    session per user, provided no call gives a second true-active session to
    a user who has one at that moment: no updateSession patch leaves its
    session true-active while the owner the patch leaves it with has another
    true-active session, and no createSession inserts a true-active session
    for another user who has one. Pausing a session and resuming it later is
    such a sequence, and the condition cannot be weakened: a call that
    violates it leaves a user with two such sessions
    ([unguarded_call_doubles]). *)
Theorem C2_guarded_calls_keep_one_active
    (fault : SessionId → bool) (trace : list (Z * Call)) (db : Db) :
  wellKeyed db → atMostOneActive db →
  guardedRun fault trace db = true →
  atMostOneActive (run fault trace db).
Proof.
  intros Hk Hinv Hrun.
  assert (Hg : good db) by done. clear Hk Hinv.
  enough (good (run fault trace db)) as [_ H] by exact H.
  unfold run. revert db Hg Hrun.
  induction trace as [|[now c] trace IH]; intros db Hg Hrun; simpl in *; [done|].
  apply andb_true_iff in Hrun as [Hc Hrun].
  apply IH; [by apply call_good|done].
Qed.

(** C2, as stated, fails: a user starts a session, pauses it, starts a new
    one, and the resume marker of the first is cleared by an update; both
    sessions are then true-active. *)
Lemma C2_counterexample :
  length (List.filter (isActiveOf "alice")
            (sessions (run Examples.noFault Examples.pauseAndReturn Examples.emptyDb)))
  = 2%nat.
Proof. by vm_compute. Qed.

(** C2 on a trace that starts a session, pauses it, resumes it, asks for a
    session again and completes it. *)
Lemma C2_witness :
  atMostOneActive (run Examples.noFault Examples.pauseAndResume Examples.emptyDb).
Proof.
  apply (C2_guarded_calls_keep_one_active Examples.noFault Examples.pauseAndResume
           Examples.emptyDb).
  - split; [apply NoDup_nil_2|]. intros s Hs. by apply elem_of_nil in Hs.
  - intros u. simpl. lia.
  - vm_compute. reflexivity.
Defined.


(** ** Streaks *)

Ltac days :=
  unfold aligned, startOfDay, minusDays in *; change DAY_MS with 86400000 in *;
  Z.div_mod_to_equations; lia.

Lemma startOfDay_aligned tz t : aligned tz (startOfDay tz t).
Proof. days. Qed.

Lemma minusDays_aligned tz d j : aligned tz d → aligned tz (minusDays d j).
Proof. days. Qed.

Lemma startOfDay_mono tz t t' : t ≤ t' → startOfDay tz t ≤ startOfDay tz t'.
Proof. days. Qed.

Lemma strictly_sorted (l : list Z) :
  StronglySorted (desc (λ d, d)) l → NoDup l → StronglySorted (λ a b, b < a) l.
Proof.
  induction 1 as [|a l Hl IH Ha]; intros Hnd; [constructor|].
  apply NoDup_cons in Hnd as [Hnotin Hnd].
  constructor; [auto|].
  apply Forall_forall. intros b Hb.
  pose proof (proj1 (Forall_forall _ _) Ha b Hb) as Hle. unfold desc in Hle.
  assert (b ≠ a) by (intros ->; done). lia.
Qed.

Lemma sessionDays_elem tz createdAts d :
  d ∈ sessionDays tz createdAts ↔ onDay tz createdAts d.
Proof.
  unfold sessionDays, onDay.
  rewrite sort_desc_elem, elem_of_remove_dups, list_elem_of_fmap.
  split; intros (t & H1 & H2); exists t; auto.
Qed.

Lemma sessionDays_sorted tz createdAts :
  StronglySorted (λ a b, b < a) (sessionDays tz createdAts).
Proof.
  apply strictly_sorted; [apply sort_desc_sorted|].
  unfold sessionDays. rewrite sort_desc_perm. apply NoDup_remove_dups.
Qed.

Lemma sessionDays_aligned tz createdAts :
  Forall (aligned tz) (sessionDays tz createdAts).
Proof.
  apply Forall_forall. intros d (t & _ & <-)%sessionDays_elem.
  apply startOfDay_aligned.
Qed.

Lemma calendar_cons tz d l :
  calendar tz (d :: l) →
  aligned tz d ∧ calendar tz l ∧ ∀ x, x ∈ l → aligned tz x ∧ x ≤ minusDays d 1.
Proof.
  intros [Hs Ha]. apply StronglySorted_inv in Hs as [Hs Hd].
  apply Forall_cons in Ha as [Had Ha].
  split; [done|]. split; [done|]. intros x Hx.
  pose proof (proj1 (Forall_forall _ _) Hd x Hx) as Hlt.
  pose proof (proj1 (Forall_forall _ _) Ha x Hx) as Hax.
  split; [done|]. days.
Qed.

(** The first loop counts exactly the days present without a gap, from the
    [i]-th day before today on. *)
Lemma countCurrent_spec tz today l i :
  aligned tz today → calendar tz l →
  let k := countCurrent tz today i l in
  0 ≤ k ∧
  (∀ j, 0 ≤ j < k → minusDays today (i + j) ∈ l) ∧
  ((∀ x, x ∈ l → x ≤ minusDays today i) → minusDays today (i + k) ∉ l).
Proof.
  intros Ht. revert i. induction l as [|d l IH]; intros i Hcal; simpl.
  - split; [lia|]. split; [lia|]. intros _ H. by apply elem_of_nil in H.
  - destruct (calendar_cons _ _ _ Hcal) as (Hd & Hl & Hbelow).
    destruct (Z.eqb_spec (startOfDay tz d) (startOfDay tz (minusDays today i))) as [E|E].
    + assert (Hdi : d = minusDays today i).
      { pose proof (minusDays_aligned tz today i Ht). unfold aligned in *. congruence. }
      destruct (IH (i + 1) Hl) as (Hk & Hin & Hout).
      split; [lia|]. split.
      * intros j Hj. destruct (decide (j = 0)) as [->|Hj0].
        -- replace (i + 0) with i by lia. rewrite <- Hdi. apply elem_of_cons. by left.
        -- apply elem_of_cons. right.
           replace (i + j) with (i + 1 + (j - 1)) by lia. apply Hin. lia.
      * intros _ [Heq|Hin']%elem_of_cons.
        -- days.
        -- replace (i + (1 + countCurrent tz today (i + 1) l))
             with (i + 1 + countCurrent tz today (i + 1) l) in Hin' by lia.
           revert Hin'. apply Hout. intros x Hx. destruct (Hbelow x Hx). days.
    + split; [lia|]. split; [lia|]. intros Hle.
      replace (i + 0) with i by lia.
      intros [Heq|Hin']%elem_of_cons.
      * apply E. by rewrite Heq.
      * destruct (Hbelow _ Hin') as [_ Hlt].
        pose proof (Hle d (proj2 (elem_of_cons _ _ _) (or_introl eq_refl))).
        days.
Qed.

Lemma diffDays_one tz prev curr :
  aligned tz prev → aligned tz curr →
  (prev - curr) / DAY_MS = 1 ↔ curr = minusDays prev 1.
Proof. intros. split; intros; days. Qed.

(** The second loop only reports runs that exist. *)
Lemma longestLoop_run tz (S : Z → Prop) rest prev temp longest :
  calendar tz (prev :: rest) →
  (∀ x, x ∈ prev :: rest → S x) →
  1 ≤ temp →
  (∀ j, 0 ≤ j < temp → S (prev + j * DAY_MS)) →
  (∃ d, consecutiveDays S d longest) →
  ∃ d, consecutiveDays S d
         (Z.max (longestLoop prev rest temp longest).2 (longestLoop prev rest temp longest).1).
Proof.
  revert prev temp longest.
  induction rest as [|curr rest IH]; intros prev temp longest Hcal HS Htemp Hrun Hlong; simpl.
  - destruct (Z.max_spec longest temp) as [[_ ->]|[_ ->]]; [|done].
    exists (prev + (temp - 1) * DAY_MS). intros j Hj.
    replace (minusDays _ j) with (prev + (temp - 1 - j) * DAY_MS) by days.
    apply Hrun. lia.
  - destruct (calendar_cons _ _ _ Hcal) as (Hprev & Hcal' & Hbelow).
    assert (Hcurr : aligned tz curr ∧ curr ≤ minusDays prev 1)
      by (apply Hbelow, elem_of_cons; by left).
    assert (HS' : ∀ x, x ∈ curr :: rest → S x)
      by (intros x Hx; apply HS, elem_of_cons; by right).
    destruct (Z.eqb_spec ((prev - curr) / DAY_MS) 1) as [E|E].
    + apply (diffDays_one tz) in E; [|tauto..].
      assert (Hrun' : ∀ j, 0 ≤ j < temp + 1 → S (curr + j * DAY_MS)).
      { intros j Hj. destruct (decide (j = 0)) as [->|Hj0].
        - replace (curr + 0 * DAY_MS) with curr by lia. apply HS', elem_of_cons. by left.
        - replace (curr + j * DAY_MS) with (prev + (j - 1) * DAY_MS) by days.
          apply Hrun. lia. }
      apply IH; [done|done|lia|done|].
      destruct (Z.max_spec longest (temp + 1)) as [[_ ->]|[_ ->]]; [|done].
      exists (curr + temp * DAY_MS). intros j Hj.
      replace (minusDays _ j) with (curr + (temp - j) * DAY_MS) by days.
      apply Hrun'. lia.
    + apply IH; [done|done|lia| |done].
      intros j Hj. replace j with 0 by lia.
      replace (curr + 0 * DAY_MS) with curr by lia. apply HS', elem_of_cons. by left.
Qed.

(** The second loop misses no run. *)
Lemma longestLoop_max tz rest prev temp longest :
  calendar tz (prev :: rest) →
  1 ≤ temp → temp = 1 ∨ temp ≤ longest →
  let r := longestLoop prev rest temp longest in
  longest ≤ r.2 ∧ 1 ≤ r.1 ∧ temp ≤ Z.max r.2 r.1 ∧
  ∀ d k, 1 ≤ k → consecutiveDays (λ x, x ∈ prev :: rest) d k →
    (d = prev → k + temp - 1 ≤ Z.max r.2 r.1) ∧ (d ≠ prev → k ≤ Z.max r.2 r.1).
Proof.
  revert prev temp longest.
  induction rest as [|curr rest IH]; intros prev temp longest Hcal Htemp Hinv; simpl.
  - split; [lia|]. split; [lia|]. split; [lia|]. intros d k Hk Hrun. split.
    + intros ->. destruct (decide (k = 1)) as [->|Hk1]; [lia|].
      pose proof (Hrun 1 ltac:(lia)) as H1. apply list_elem_of_singleton in H1. days.
    + intros Hne. pose proof (Hrun 0 ltac:(lia)) as H0.
      apply list_elem_of_singleton in H0. days.
  - destruct (calendar_cons _ _ _ Hcal) as (Hprev & Hcal' & Hbelow).
    assert (Hcurr : aligned tz curr ∧ curr ≤ minusDays prev 1)
      by (apply Hbelow, elem_of_cons; by left).
    (* a run that does not start at [prev] lies within the rest *)
    assert (Hrest : ∀ d k, consecutiveDays (λ x, x ∈ prev :: curr :: rest) d k → d < prev →
                           consecutiveDays (λ x, x ∈ curr :: rest) d k).
    { intros d k Hrun Hd j Hj. specialize (Hrun j Hj).
      apply elem_of_cons in Hrun as [Heq|Hin]; [days|done]. }
    (* a run of two days or more that starts at [prev] continues at the day before *)
    assert (Htail : ∀ k, 2 ≤ k → consecutiveDays (λ x, x ∈ prev :: curr :: rest) prev k →
                         consecutiveDays (λ x, x ∈ curr :: rest) (minusDays prev 1) (k - 1)).
    { intros k Hk Hrun j Hj. specialize (Hrun (j + 1) ltac:(lia)).
      replace (minusDays (minusDays prev 1) j) with (minusDays prev (j + 1)) by days.
      apply elem_of_cons in Hrun as [Heq|Hin]; [days|done]. }
    assert (Hlt : ∀ d, d ≠ prev → d ∈ prev :: curr :: rest → d < prev).
    { intros d Hne [?|Hin]%elem_of_cons; [done|]. destruct (Hbelow d Hin). days. }
    destruct (Z.eqb_spec ((prev - curr) / DAY_MS) 1) as [E|E].
    + apply (diffDays_one tz) in E; [|tauto..].
      destruct (IH curr (temp + 1) (Z.max longest (temp + 1)) Hcal')
        as (HL & HT & Hge & Hruns); [lia|lia|].
      split; [lia|]. split; [lia|]. split; [lia|]. intros d k Hk Hrun. split.
      * intros ->. destruct (decide (k = 1)) as [->|Hk1]; [lia|].
        pose proof (Htail k ltac:(lia) Hrun) as Hrun'. rewrite <- E in Hrun'.
        destruct (Hruns curr (k - 1) ltac:(lia) Hrun') as [H _]. specialize (H eq_refl). lia.
      * intros Hne. pose proof (Hrun 0 ltac:(lia)) as H0.
        replace (minusDays d 0) with d in H0 by days.
        pose proof (Hrest d k Hrun (Hlt d Hne H0)) as Hrun'.
        destruct (Hruns d k Hk Hrun') as [H1 H2].
        destruct (decide (d = curr)) as [Hdc|Hdc]; [specialize (H1 Hdc)|specialize (H2 Hdc)]; lia.
    + assert (Hgap : curr < minusDays prev 1).
      { destruct Hcurr as [Hc Hle]. rewrite (diffDays_one tz) in E by done. lia. }
      destruct (IH curr 1 longest Hcal') as (HL & HT & Hge & Hruns); [lia|by left|].
      split; [lia|]. split; [lia|]. split; [lia|]. intros d k Hk Hrun. split.
      * intros ->. destruct (decide (k = 1)) as [->|Hk1]; [lia|].
        pose proof (Htail k ltac:(lia) Hrun 0 ltac:(lia)) as H0.
        replace (minusDays (minusDays prev 1) 0) with (minusDays prev 1) in H0 by days.
        apply elem_of_cons in H0 as [Heq|Hin]; [lia|].
        assert (Hcal2 := Hcal').
        destruct (calendar_cons _ _ _ Hcal2) as (_ & _ & Hbelow').
        destruct (Hbelow' _ Hin). days.
      * intros Hne. pose proof (Hrun 0 ltac:(lia)) as H0.
        replace (minusDays d 0) with d in H0 by days.
        pose proof (Hrest d k Hrun (Hlt d Hne H0)) as Hrun'.
        destruct (Hruns d k Hk Hrun') as [H1 H2].
        destruct (decide (d = curr)) as [Hdc|Hdc]; [specialize (H1 Hdc)|specialize (H2 Hdc)]; lia.
Qed.

(** The streaks computed by getProgressMetrics, characterised on the set of
    days that have a session. *)
Lemma streaks_spec tz now createdAts :
  let today := startOfDay tz now in
  let S := onDay tz createdAts in
  let r := streaks tz now createdAts in
  (0 ≤ currentStreak r ∧
   consecutiveDays S today (currentStreak r) ∧
   ((∀ d, S d → d ≤ today) → ¬ S (minusDays today (currentStreak r)))) ∧
  (∃ d, consecutiveDays S d (longestStreak r)) ∧
  (∀ d k, 0 ≤ k → consecutiveDays S d k → k ≤ longestStreak r).
Proof.
  cbv zeta.
  assert (Htoday : aligned tz (startOfDay tz now)) by apply startOfDay_aligned.
  set (today := startOfDay tz now) in *.
  assert (createdAts = [] ∨ createdAts ≠ []) as [->|Hne]
    by (destruct createdAts; [by left|by right]).
  { (* no session at all *)
    assert (Hnone : ∀ d, ¬ onDay tz [] d) by (intros d (t & Ht & _); by apply elem_of_nil in Ht).
    simpl. split; [|split].
    - split; [lia|]. split; [intros j Hj; lia|]. intros _. apply Hnone.
    - exists 0. intros j Hj. lia.
    - intros d k Hk Hrun. destruct (decide (k = 0)) as [->|Hk0]; [lia|].
      destruct (Hnone _ (Hrun 0 ltac:(lia))). }
  set (S := onDay tz createdAts).
  set (r := streaks tz now createdAts).
  pose proof (sessionDays_elem tz createdAts) as Hmem.
  assert (Hcal : calendar tz (sessionDays tz createdAts))
    by (split; [apply sessionDays_sorted|apply sessionDays_aligned]).
  destruct (countCurrent_spec tz today (sessionDays tz createdAts) 0 Htoday Hcal)
    as (Hc0 & Hcin & Hcout).
  assert (Hcurrent : consecutiveDays S today (countCurrent tz today 0 (sessionDays tz createdAts))).
  { intros j Hj. apply Hmem. replace j with (0 + j) by lia. by apply Hcin. }
  assert (Hr : ∃ t' L',
            match sessionDays tz createdAts with
            | [] => (1, 0)
            | first :: rest => longestLoop first rest 1 0
            end = (t', L') ∧
            r = {| currentStreak := countCurrent tz today 0 (sessionDays tz createdAts);
                   longestStreak :=
                     Z.max (Z.max L' t')
                       (countCurrent tz today 0 (sessionDays tz createdAts)) |}).
  { subst r. unfold streaks. destruct createdAts as [|t0 ts]; [done|].
    cbv zeta. fold today.
    destruct (match sessionDays tz (t0 :: ts) with
              | [] => (1, 0) | first :: rest => longestLoop first rest 1 0 end)
      as [t' L']. eauto. }
  destruct Hr as (t' & L' & Hloop & ->). simpl.
  set (c := countCurrent tz today 0 (sessionDays tz createdAts)) in *.
  destruct (sessionDays tz createdAts) as [|first rest] eqn:Hdays.
  { destruct createdAts as [|t0 ts]; [done|].
    assert (H : startOfDay tz t0 ∈ @nil Z)
      by (apply Hmem; exists t0; split; [apply elem_of_cons; by left|done]).
    by apply elem_of_nil in H. }
  pose proof (longestLoop_run tz S rest first 1 0 Hcal) as Hrun.
  pose proof (longestLoop_max tz rest first 1 0 Hcal) as Hmax.
  rewrite Hloop in Hrun, Hmax. simpl in Hrun, Hmax.
  destruct Hmax as (HL & HT & _ & Hmax); [lia|by left|].
  split; [|split].
  - split; [done|]. split; [done|]. intros Hbound Hin. apply Hmem in Hin.
    replace c with (0 + c) in Hin by lia. revert Hin. apply Hcout.
    intros x Hx. replace (minusDays today 0) with today by days.
    apply Hbound. by apply Hmem.
  - destruct (Z.max_spec (Z.max L' t') c) as [[_ ->]|[_ ->]]; [by exists today|].
    apply Hrun.
    + intros x Hx. by apply Hmem.
    + lia.
    + intros j Hj. replace j with 0 by lia. replace (first + 0 * DAY_MS) with first by lia.
      apply Hmem, elem_of_cons. by left.
    + exists 0. intros j Hj. lia.
  - intros d k Hk Hruns. destruct (decide (k = 0)) as [->|Hk0]; [lia|].
    assert (Hruns' : consecutiveDays (λ x, x ∈ first :: rest) d k)
      by (intros j Hj; apply Hmem, Hruns, Hj).
    destruct (Hmax d k ltac:(lia) Hruns') as [H1 H2].
    destruct (decide (d = first)) as [Hd|Hd]; [specialize (H1 Hd)|specialize (H2 Hd)]; lia.
Qed.

Ltac members H := rewrite ?elem_of_cons, ?elem_of_nil in H.

(** C6. The current streak is the number of consecutive calendar days
    (local midnights), counted backward from today, that each have a session,
    stopping at the first day without one (no session being dated after now);
    the longest streak is the greatest number of consecutive calendar days
    with a session anywhere in the history. With sessions exactly on today,
    today-1, today-2 and today-4 the streaks are 3 and 3; with sessions
    exactly on today-1 and today-3 they are 0 and 1. *)
Theorem C6_streaks_count_consecutive_days (tz now : Z) (createdAts : list Z) :
  let today := startOfDay tz now in
  let S := onDay tz createdAts in
  let r := streaks tz now createdAts in
  ((∀ t, t ∈ createdAts → t ≤ now) →
   0 ≤ currentStreak r ∧
   consecutiveDays S today (currentStreak r) ∧
   ¬ S (minusDays today (currentStreak r))) ∧
  ((∃ d, consecutiveDays S d (longestStreak r)) ∧
   (∀ d k, 0 ≤ k → consecutiveDays S d k → k ≤ longestStreak r)) ∧
  ((∀ d, S d ↔ d ∈ [today; minusDays today 1; minusDays today 2; minusDays today 4]) →
   currentStreak r = 3 ∧ longestStreak r = 3) ∧
  ((∀ d, S d ↔ d ∈ [minusDays today 1; minusDays today 3]) →
   currentStreak r = 0 ∧ longestStreak r = 1).
Proof.
  intros today S r.
  destruct (streaks_spec tz now createdAts) as ((Hc0 & Hcrun & Hcstop) & (d0 & Hlrun) & Hlmax).
  fold today S r in Hc0, Hcrun, Hcstop, Hlrun, Hlmax.
  assert (Htoday : aligned tz today) by apply startOfDay_aligned.
  split; [|split; [|split]].
  - intros Hpast. split; [done|]. split; [done|]. apply Hcstop.
    intros d (t & Ht & <-). apply startOfDay_mono, Hpast, Ht.
  - split; [by exists d0|done].
  - intros HS.
    assert (Hbound : ∀ d, S d → d ≤ today) by (intros d Hd%HS; members Hd; days).
    specialize (Hcstop Hbound).
    assert (Hthree : consecutiveDays S today 3).
    { intros j Hj. apply HS.
      assert (j = 0 ∨ j = 1 ∨ j = 2) as [-> | [-> | ->]] by lia;
        rewrite !elem_of_cons; replace (minusDays today 0) with today by days; tauto. }
    split.
    + assert (currentStreak r < 4).
      { apply Z.nle_gt. intros Hge. pose proof (Hcrun 3 ltac:(lia)) as H3.
        apply HS in H3. members H3. days. }
      assert (3 ≤ currentStreak r); [|lia].
      apply Z.nlt_ge. intros Hlt. apply Hcstop, HS.
      assert (currentStreak r = 0 ∨ currentStreak r = 1 ∨ currentStreak r = 2)
        as [-> | [-> | ->]] by lia;
        rewrite !elem_of_cons; replace (minusDays today 0) with today by days; tauto.
    + pose proof (Hlmax today 3 ltac:(lia) Hthree) as Hge.
      assert (longestStreak r < 4); [|lia].
      apply Z.nle_gt. intros Hfour.
      pose proof (Hlrun 0 ltac:(lia)) as H0. pose proof (Hlrun 1 ltac:(lia)) as H1.
      pose proof (Hlrun 2 ltac:(lia)) as H2. pose proof (Hlrun 3 ltac:(lia)) as H3.
      apply HS in H0, H1, H2, H3. members H0. members H1. members H2. members H3. days.
  - intros HS.
    assert (Hbound : ∀ d, S d → d ≤ today) by (intros d Hd%HS; members Hd; days).
    split.
    + assert (currentStreak r < 1); [|lia].
      apply Z.nle_gt. intros Hge. pose proof (Hcrun 0 ltac:(lia)) as H0.
      apply HS in H0. members H0. days.
    + assert (Hone : consecutiveDays S (minusDays today 1) 1).
      { intros j Hj. replace j with 0 by lia. apply HS.
        rewrite !elem_of_cons. left. days. }
      pose proof (Hlmax _ 1 ltac:(lia) Hone) as Hge.
      assert (longestStreak r < 2); [|lia].
      apply Z.nle_gt. intros Htwo.
      pose proof (Hlrun 0 ltac:(lia)) as H0. pose proof (Hlrun 1 ltac:(lia)) as H1.
      apply HS in H0, H1. members H0. members H1. days.
Qed.

(** C6 on the two histories of the specification. *)
Lemma C6_witness :
  (currentStreak (streaks 0 Examples.noon Examples.fourDays) = 3 ∧
   longestStreak (streaks 0 Examples.noon Examples.fourDays) = 3) ∧
  (currentStreak (streaks 0 Examples.noon Examples.twoDays) = 0 ∧
   longestStreak (streaks 0 Examples.noon Examples.twoDays) = 1) ∧
  (0 ≤ currentStreak (streaks 0 Examples.noon Examples.fourDays) ∧
   consecutiveDays (onDay 0 Examples.fourDays) (startOfDay 0 Examples.noon)
     (currentStreak (streaks 0 Examples.noon Examples.fourDays)) ∧
   ¬ onDay 0 Examples.fourDays
       (minusDays (startOfDay 0 Examples.noon)
          (currentStreak (streaks 0 Examples.noon Examples.fourDays)))).
Proof.
  destruct (C6_streaks_count_consecutive_days 0 Examples.noon Examples.fourDays)
    as (Hcurrent & _ & Hfour & _).
  destruct (C6_streaks_count_consecutive_days 0 Examples.noon Examples.twoDays)
    as (_ & _ & _ & Htwo).
  split; [|split].
  - apply Hfour. intros d.
    change [startOfDay 0 Examples.noon; minusDays (startOfDay 0 Examples.noon) 1;
            minusDays (startOfDay 0 Examples.noon) 2;
            minusDays (startOfDay 0 Examples.noon) 4]
      with (startOfDay 0 <$> Examples.fourDays).
    unfold onDay. rewrite list_elem_of_fmap.
    split; intros (t & H1 & H2); exists t; auto.
  - apply Htwo. intros d.
    change [minusDays (startOfDay 0 Examples.noon) 1;
            minusDays (startOfDay 0 Examples.noon) 3]
      with (startOfDay 0 <$> Examples.twoDays).
    unfold onDay. rewrite list_elem_of_fmap.
    split; intros (t & H1 & H2); exists t; auto.
  - apply Hcurrent. intros t Ht. unfold Examples.fourDays in Ht.
    rewrite !elem_of_cons, elem_of_nil in Ht.
    unfold Examples.noon in *. change DAY_MS with 86400000 in *. lia.
Defined.


(** * Further properties of the code *)

(** ** The cleanup engine *)

Import CleanupService.

Lemma delete_outcome fault db i :
  (Prisma.delete fault db i).1 =
    if fault i then Throw StorageFault
    else match Prisma.findUnique db i with
         | Some s => Ok s
         | None => Throw P2025
         end.
Proof. unfold Prisma.delete. destruct (fault i); [done|]. by destruct (Prisma.findUnique db i). Qed.

Lemma delete_tables fault db i :
  progress (Prisma.delete fault db i).2 = progress db ∧
  nextId (Prisma.delete fault db i).2 = nextId db.
Proof.
  unfold Prisma.delete. destruct (fault i); [done|].
  by destruct (Prisma.findUnique db i).
Qed.

(** On the table, the loop of [cleanupOldSessions] is the deletion, one by
    one, of the sessions it was given. *)
Lemma cleanupEach_db s3 fault old result db :
  (cleanupEach s3 fault old result db).2 = UserService.deleteEach fault (map id old) db.
Proof.
  revert result db. induction old as [|s old IH]; intros result db; [done|].
  simpl. destruct (Prisma.delete fault db (id s)) as [[r|e] db'] eqn:E; simpl; apply IH.
Qed.

Lemma findUnique_present db s :
  s ∈ sessions db → ∃ r, Prisma.findUnique db (id s) = Some r.
Proof.
  intros Hs. unfold Prisma.findUnique.
  destruct (List.find _ _) as [r|] eqn:E; [eauto|].
  apply list_elem_of_In in Hs. pose proof (find_none _ _ E s Hs) as H. simpl in H.
  by rewrite bool_decide_eq_true_2 in H.
Qed.

Lemma delete_keeps_others fault db i s :
  s ∈ sessions db → id s ≠ i → s ∈ sessions (Prisma.delete fault db i).2.
Proof.
  intros Hs Hne. rewrite delete_sessions. apply list_elem_of_In, filter_In.
  split; [by apply list_elem_of_In|].
  by rewrite bool_decide_eq_false_2.
Qed.

(** The counters of the loop: one more deletion for every session whose
    deletion the store accepts, one more error for every other one, and the
    files of all of them. *)
Lemma cleanupEach_result s3 fault old result db :
  NoDup (id <$> old) → (∀ s, s ∈ old → s ∈ sessions db) →
  let r := (cleanupEach s3 fault old result db).1 in
  sessionsDeleted r = sessionsDeleted result + count (λ s, negb (fault (id s))) old ∧
  errors r = errors result + count (λ s, fault (id s)) old ∧
  filesDeleted r = filesDeleted result + sumZ (filesRemoved s3 <$> old).
Proof.
  revert result db. induction old as [|s old IH]; intros result db Hnd Hin.
  - unfold count, sumZ. simpl. lia.
  - rewrite fmap_cons in Hnd. apply NoDup_cons in Hnd as [Hs Hnd].
    assert (Hrest : ∀ r, r ∈ old → r ∈ sessions (Prisma.delete fault db (id s)).2).
    { intros r Hr. apply delete_keeps_others; [apply Hin, elem_of_cons; by right|].
      intros Heq. apply Hs. rewrite <- Heq. by apply list_elem_of_fmap_2. }
    pose proof (delete_outcome fault db (id s)) as Hout.
    destruct (findUnique_present db s) as [r0 Hr0]; [apply Hin, elem_of_cons; by left|].
    rewrite Hr0 in Hout.
    cbn [cleanupEach]. cbv zeta.
    destruct (Prisma.delete fault db (id s)) as [[r|e] db'] eqn:E; simpl in Hout, Hrest.
    + destruct (fault (id s)) eqn:Hf; [done|].
      match goal with |- context [cleanupEach _ _ _ ?r _] =>
        destruct (IH r db' Hnd Hrest) as (H1 & H2 & H3) end.
      cbv zeta in H1, H2, H3. rewrite H1, H2, H3. cbn [sessionsDeleted errors filesDeleted].
      unfold count in *. rewrite fmap_cons. cbn [List.filter sumZ foldr]. rewrite Hf.
      cbn [negb length]. unfold filesRemoved at 2.
      rewrite ?Nat2Z.inj_succ. unfold sumZ. lia.
    + destruct (fault (id s)) eqn:Hf; [|done].
      match goal with |- context [cleanupEach _ _ _ ?r _] =>
        destruct (IH r db' Hnd Hrest) as (H1 & H2 & H3) end.
      cbv zeta in H1, H2, H3. rewrite H1, H2, H3. cbn [sessionsDeleted errors filesDeleted].
      unfold count in *. rewrite fmap_cons. cbn [List.filter sumZ foldr]. rewrite Hf.
      cbn [negb length]. unfold filesRemoved at 2.
      rewrite ?Nat2Z.inj_succ. unfold sumZ. lia.
Qed.

Lemma mem_filter_ids (f : Session → bool) l s :
  NoDup (id <$> l) → s ∈ l → bool_decide (id s ∈ map id (List.filter f l)) = f s.
Proof.
  intros Hnd Hs. destruct (f s) eqn:E.
  - apply bool_decide_eq_true_2. apply (list_elem_of_fmap_2 id).
    apply list_elem_of_In, filter_In. split; [by apply list_elem_of_In|done].
  - apply bool_decide_eq_false_2. intros Hin.
    apply list_elem_of_fmap in Hin as (r & Hid & Hr).
    apply list_elem_of_In, filter_In in Hr as [Hr Hfr]. apply list_elem_of_In in Hr.
    assert (s = r) by (by apply (NoDup_id_inj l)). subst r. congruence.
Qed.

(** Deleting one by one the rows selected by a query removes exactly the
    selected rows whose deletion the store accepts. *)
Lemma deleteEach_filter fault (f : Session → bool) db :
  NoDup (id <$> sessions db) →
  sessions (UserService.deleteEach fault (map id (List.filter f (sessions db))) db) =
    List.filter (λ s, negb (f s && negb (fault (id s)))) (sessions db).
Proof.
  intros Hnd. rewrite deleteEach_sessions. apply filter_ext_in. intros s Hs.
  rewrite shouldGo_spec, mem_filter_ids; [done..|by apply list_elem_of_In].
Qed.

Lemma deleteEach_tables fault ids db :
  progress (UserService.deleteEach fault ids db) = progress db ∧
  nextId (UserService.deleteEach fault ids db) = nextId db.
Proof.
  revert db. induction ids as [|i ids IH]; intros db; [done|]. simpl.
  destruct (IH (Prisma.delete fault db i).2) as [-> ->]. apply delete_tables.
Qed.

Lemma filter_elem {A} (f : A → bool) l x : x ∈ List.filter f l ↔ x ∈ l ∧ f x = true.
Proof. by rewrite !list_elem_of_In, filter_In. Qed.

Lemma count_filter {A} (f g : A → bool) l :
  count g (List.filter f l) = count (λ x, f x && g x) l.
Proof. unfold count. by rewrite filter_filter. Qed.

Lemma filter_nothing {A} (f : A → bool) l : (∀ x, f x = false) → List.filter f l = [].
Proof. intros H. induction l as [|x l IH]; [done|]. simpl. by rewrite H. Qed.

(** The two ways [cleanupOldSessions] goes: with a valid cut-off it runs the
    loop on the sessions it selects; otherwise it touches nothing, and counts
    one error when retention is enabled but gives no cut-off. *)
Lemma cleanupOldSessions_cases read s3 fault now db :
  (∃ n, (∀ s, stale read now s = completed s && Z.ltb (updatedAt s) (minusDays now n)) ∧
        noCutoff read now = false ∧
        cleanupOldSessions read s3 fault now db =
          cleanupEach s3 fault
            (List.filter (λ s, completed s && Z.ltb (updatedAt s) (minusDays now n))
               (sessions db)) noResult db) ∨
  ((∀ s, stale read now s = false) ∧
   cleanupOldSessions read s3 fault now db =
     ({| sessionsDeleted := 0; filesDeleted := 0;
         errors := if noCutoff read now then 1 else 0 |}, db)).
Proof.
  unfold cleanupOldSessions, stale, noCutoff. cbv zeta.
  destruct (enabled (getRetentionSettings read)); simpl.
  - destruct (durationDays (getRetentionSettings read)) as [| |n]; simpl.
    + by right.
    + by right.
    + destruct (validDate (minusDays now n)); simpl; [|by right].
      left. by exists n.
  - right. split; [|done]. intros s. by destruct (durationDays _).
Qed.

Ltac unique_ids := refine (@bool_decide_unpack _ (NoDup_dec _) _); vm_compute; exact I.

(** The table after [cleanupOldSessions]. *)
Lemma cleanupOldSessions_table read s3 fault now db :
  NoDup (id <$> sessions db) →
  sessions (cleanupOldSessions read s3 fault now db).2 =
    List.filter (λ s, negb (stale read now s && negb (fault (id s)))) (sessions db) ∧
  progress (cleanupOldSessions read s3 fault now db).2 = progress db.
Proof.
  intros Hnd.
  destruct (cleanupOldSessions_cases read s3 fault now db)
    as [(n & Hst & _ & ->)|(Hst & ->)].
  - rewrite cleanupEach_db. split; [|apply deleteEach_tables].
    rewrite deleteEach_filter by done. apply filter_ext. intros s. by rewrite Hst.
  - split; [|done]. simpl. rewrite <- (filter_all (sessions db)) at 1.
    apply filter_ext. intros s. by rewrite Hst.
Qed.

Lemma filter_negb_length {A} (f : A → bool) l :
  Z.of_nat (length (List.filter (λ x, negb (f x)) l)) =
    Z.of_nat (length l) - count f l.
Proof.
  unfold count. pose proof (List.filter_length f l) as H. cbv beta in H. lia.
Qed.

(** X1. With unique ids, cleanupOldSessions removes from the table exactly
    the sessions that are stale (retention enabled with a number of days that
    gives a valid cut-off date, session completed, last update before the
    cut-off) and whose deletion the store accepts; every other session, in
    particular every unfinished one, stays, the progress rows are untouched,
    and [sessionsDeleted] is the number of rows that have gone. With a
    duration that takes the cut-off out of the range of a date no session is
    stale, and nothing is removed. *)
Theorem cleanupOldSessions_removes_exactly_stale read s3 fault now db :
  NoDup (id <$> sessions db) →
  let out := cleanupOldSessions read s3 fault now db in
  sessions out.2 =
    List.filter (λ s, negb (stale read now s && negb (fault (id s)))) (sessions db) ∧
  progress out.2 = progress db ∧
  sessionsDeleted out.1 = Z.of_nat (length (sessions db)) - Z.of_nat (length (sessions out.2)) ∧
  (noCutoff read now = true → out.2 = db).
Proof.
  intros Hnd. cbv zeta.
  destruct (cleanupOldSessions_table read s3 fault now db Hnd) as [Htable Hprogress].
  split; [done|]. split; [done|].
  rewrite Htable, filter_negb_length.
  replace (Z.of_nat (length (sessions db)) -
           (Z.of_nat (length (sessions db)) -
            count (λ s, stale read now s && negb (fault (id s))) (sessions db)))
    with (count (λ s, stale read now s && negb (fault (id s))) (sessions db)) by lia.
  destruct (cleanupOldSessions_cases read s3 fault now db)
    as [(n & Hst & Hcut & ->)|(Hst & ->)].
  - split; [|by rewrite Hcut].
    destruct (cleanupEach_result s3 fault
                (List.filter (λ s, completed s && Z.ltb (updatedAt s) (minusDays now n))
                   (sessions db)) noResult db) as (H1 & _).
    { by apply NoDup_id_filter. }
    { intros s Hs. by apply filter_elem in Hs as [Hs _]. }
    cbv zeta in H1. rewrite H1, count_filter. simpl. unfold count.
    rewrite (filter_ext (λ s, stale read now s && negb (fault (id s)))
               (λ s, completed s && Z.ltb (updatedAt s) (minusDays now n)
                     && negb (fault (id s)))); [done|].
    intros s. by rewrite Hst.
  - split; [|done]. simpl. unfold count. rewrite filter_nothing; [done|].
    intros s. by rewrite Hst.
Qed.

Lemma cleanupOldSessions_removes_exactly_stale_witness :
  let read := ReadRow (Some CleanupExamples.thirtyDays) in
  let out := cleanupOldSessions read CleanupExamples.s3 Examples.faultOnFirst Examples.later
               CleanupExamples.table in
  sessions out.2 =
    List.filter
      (λ s, negb (stale read Examples.later s && negb (Examples.faultOnFirst (id s))))
      (sessions CleanupExamples.table) ∧
  progress out.2 = progress CleanupExamples.table ∧
  sessionsDeleted out.1 =
    Z.of_nat (length (sessions CleanupExamples.table)) - Z.of_nat (length (sessions out.2)) ∧
  (noCutoff read Examples.later = true → out.2 = CleanupExamples.table).
Proof.
  apply (cleanupOldSessions_removes_exactly_stale (ReadRow (Some CleanupExamples.thirtyDays))
           CleanupExamples.s3 Examples.faultOnFirst Examples.later CleanupExamples.table).
  unique_ids.
Defined.

(** X2. The report of cleanupOldSessions: [sessionsDeleted] counts the
    stale sessions whose deletion was accepted; [filesDeleted] adds up the
    files removed for every stale session, including those whose own deletion
    was then rejected and which therefore stay in the table without their
    files; [errors] counts the stale sessions whose deletion was rejected,
    and is 1 when retention is enabled but the stored duration gives no valid
    cut-off date (it is not a number, or takes the date out of range). *)
Theorem cleanupOldSessions_report read s3 fault now db :
  NoDup (id <$> sessions db) →
  let r := (cleanupOldSessions read s3 fault now db).1 in
  sessionsDeleted r = count (λ s, stale read now s && negb (fault (id s))) (sessions db) ∧
  errors r =
    (if noCutoff read now then 1
     else count (λ s, stale read now s && fault (id s)) (sessions db)) ∧
  filesDeleted r = sumZ (filesRemoved s3 <$> List.filter (stale read now) (sessions db)).
Proof.
  intros Hnd. cbv zeta.
  destruct (cleanupOldSessions_cases read s3 fault now db)
    as [(n & Hst & Hcut & ->)|(Hst & ->)].
  - rewrite Hcut.
    destruct (cleanupEach_result s3 fault
                (List.filter (λ s, completed s && Z.ltb (updatedAt s) (minusDays now n))
                   (sessions db)) noResult db) as (H1 & H2 & H3).
    { by apply NoDup_id_filter. }
    { intros s Hs. by apply filter_elem in Hs as [Hs _]. }
    cbv zeta in H1, H2, H3. rewrite H1, H2, H3, !count_filter. simpl.
    unfold count.
    rewrite (filter_ext (stale read now) _ Hst),
            (filter_ext (λ s, stale read now s && negb (fault (id s)))
               (λ s, completed s && Z.ltb (updatedAt s) (minusDays now n)
                     && negb (fault (id s)))),
            (filter_ext (λ s, stale read now s && fault (id s))
               (λ s, completed s && Z.ltb (updatedAt s) (minusDays now n)
                     && fault (id s))); [done|..]; intros s; by rewrite Hst.
  - simpl. unfold count.
    rewrite !filter_nothing; [by destruct (noCutoff read now)|intros s; by rewrite ?Hst..].
Qed.

Lemma cleanupOldSessions_report_witness :
  let read := ReadRow (Some CleanupExamples.thirtyDays) in
  let r := (cleanupOldSessions read CleanupExamples.s3 Examples.faultOnFirst Examples.later
              CleanupExamples.table).1 in
  sessionsDeleted r =
    count (λ s, stale read Examples.later s && negb (Examples.faultOnFirst (id s)))
      (sessions CleanupExamples.table) ∧
  errors r =
    (if noCutoff read Examples.later then 1
     else count (λ s, stale read Examples.later s && Examples.faultOnFirst (id s))
            (sessions CleanupExamples.table)) ∧
  filesDeleted r =
    sumZ (filesRemoved CleanupExamples.s3 <$>
          List.filter (stale read Examples.later) (sessions CleanupExamples.table)).
Proof.
  apply (cleanupOldSessions_report (ReadRow (Some CleanupExamples.thirtyDays))
           CleanupExamples.s3 Examples.faultOnFirst Examples.later CleanupExamples.table).
  unique_ids.
Defined.

Lemma abandoned_query olderThanDays now l :
  List.filter (λ s, negb (UserService.hasData s))
    (List.filter (λ s, negb (completed s) && Z.ltb (createdAt s) (minusDays now olderThanDays)) l)
  = List.filter (abandoned olderThanDays now) l.
Proof. by rewrite filter_filter. Qed.

Lemma untilFault_all fault l :
  (∀ s, s ∈ l → fault (id s) = false) → untilFault fault l = l.
Proof.
  induction l as [|s l IH]; intros H; [done|]. simpl.
  rewrite H by (apply elem_of_cons; by left). f_equal. apply IH.
  intros r Hr. apply H, elem_of_cons. by right.
Qed.

Lemma untilFault_stop fault pre s post :
  (∀ r, r ∈ pre → fault (id r) = false) → fault (id s) = true →
  untilFault fault (pre ++ s :: post) = pre.
Proof.
  intros Hpre Hs. induction pre as [|r pre IH]; simpl.
  - by rewrite Hs.
  - rewrite Hpre by (apply elem_of_cons; by left). f_equal. apply IH.
    intros r' Hr'. apply Hpre, elem_of_cons. by right.
Qed.

Lemma untilFault_elem fault l s : s ∈ untilFault fault l → s ∈ l ∧ fault (id s) = false.
Proof.
  induction l as [|r l IH]; simpl; intros H; [by apply elem_of_nil in H|].
  destruct (fault (id r)) eqn:E; [by apply elem_of_nil in H|].
  apply elem_of_cons in H as [->|H]; [split; [apply elem_of_cons; by left|done]|].
  destruct (IH H) as [? ?]. split; [apply elem_of_cons; by right|done].
Qed.

(** The loop of [cleanupIncompleteSessions] deletes the sessions that come
    before the first rejected deletion, and yields a count only when no
    deletion is rejected. *)
Lemma deleteAll_spec fault l deletedCount db :
  NoDup (id <$> l) → (∀ s, s ∈ l → s ∈ sessions db) →
  deleteAll fault l deletedCount db =
    (if forallb (λ s, negb (fault (id s))) l
     then Some (deletedCount + Z.of_nat (length l)) else None,
     UserService.deleteEach fault (map id (untilFault fault l)) db).
Proof.
  revert deletedCount db. induction l as [|s l IH]; intros n db Hnd Hin.
  - simpl. by rewrite Z.add_0_r.
  - rewrite fmap_cons in Hnd. apply NoDup_cons in Hnd as [Hs Hnd].
    assert (Hrest : ∀ r, r ∈ l → r ∈ sessions (Prisma.delete fault db (id s)).2).
    { intros r Hr. apply delete_keeps_others; [apply Hin, elem_of_cons; by right|].
      intros Heq. apply Hs. rewrite <- Heq. by apply list_elem_of_fmap_2. }
    pose proof (delete_outcome fault db (id s)) as Hout.
    destruct (findUnique_present db s) as [r0 Hr0]; [apply Hin, elem_of_cons; by left|].
    rewrite Hr0 in Hout. cbn [deleteAll forallb untilFault].
    destruct (fault (id s)) eqn:Hf.
    + unfold Prisma.delete in *. rewrite Hf. done.
    + destruct (Prisma.delete fault db (id s)) as [[r|e] db'] eqn:E; simpl in Hout; [|done].
      simpl in Hrest. rewrite (IH _ db' Hnd Hrest). cbn [negb andb map UserService.deleteEach].
      rewrite E. cbn [snd length]. rewrite Nat2Z.inj_succ.
      replace (n + 1 + Z.of_nat (length l)) with (n + Z.succ (Z.of_nat (length l))) by lia.
      done.
Qed.

Lemma deleteEach_clean fault ids db :
  (∀ i, i ∈ ids → fault i = false) →
  sessions (UserService.deleteEach fault ids db) =
    List.filter (λ s, negb (bool_decide (id s ∈ ids))) (sessions db).
Proof.
  intros H. rewrite deleteEach_sessions. apply filter_ext. intros s.
  rewrite shouldGo_spec. destruct (bool_decide (id s ∈ ids)) eqn:E; [|done].
  apply bool_decide_eq_true in E. by rewrite (H _ E).
Qed.

Lemma forallb_all {A} (f : A → bool) l : (∀ x, x ∈ l → f x = true) → forallb f l = true.
Proof.
  intros H. apply forallb_forall. intros x Hx. by apply H, list_elem_of_In.
Qed.

(** X3. With unique ids, when the store accepts the deletion of every
    abandoned session (never completed, no transcript, created before the
    threshold), cleanupIncompleteSessions removes exactly those sessions,
    returns their number, and a second run finds nothing left to do. *)
Theorem cleanupIncompleteSessions_removes_abandoned fault olderThanDays now db :
  NoDup (id <$> sessions db) →
  (∀ s, s ∈ sessions db → abandoned olderThanDays now s = true → fault (id s) = false) →
  let out := cleanupIncompleteSessions fault olderThanDays now db in
  out.1 = count (abandoned olderThanDays now) (sessions db) ∧
  sessions out.2 = List.filter (λ s, negb (abandoned olderThanDays now s)) (sessions db) ∧
  cleanupIncompleteSessions fault olderThanDays now out.2 = (0, out.2).
Proof.
  intros Hnd Hok.
  assert (Hrun : ∀ d, NoDup (id <$> sessions d) →
            (∀ s, s ∈ sessions d → abandoned olderThanDays now s = true → fault (id s) = false) →
            cleanupIncompleteSessions fault olderThanDays now d =
              (count (abandoned olderThanDays now) (sessions d),
               UserService.deleteEach fault
                 (map id (List.filter (abandoned olderThanDays now) (sessions d))) d)).
  { intros d Hd Hf. unfold cleanupIncompleteSessions. cbv zeta.
    rewrite abandoned_query, deleteAll_spec.
    - rewrite forallb_all, untilFault_all; [done|..].
      + intros s Hs. apply filter_elem in Hs as [Hs Ha]. by apply Hf.
      + intros s Hs. apply filter_elem in Hs as [Hs Ha]. by rewrite Hf.
    - by apply NoDup_id_filter.
    - intros s Hs. by apply filter_elem in Hs as [Hs _]. }
  cbv zeta. rewrite (Hrun db Hnd Hok). cbn [fst snd].
  assert (Hafter : sessions (UserService.deleteEach fault
             (map id (List.filter (abandoned olderThanDays now) (sessions db))) db) =
           List.filter (λ s, negb (abandoned olderThanDays now s)) (sessions db)).
  { rewrite deleteEach_filter by done. apply filter_ext_in. intros s Hs.
    destruct (abandoned olderThanDays now s) eqn:E; [|done].
    apply list_elem_of_In in Hs. by rewrite (Hok s Hs E). }
  split; [done|]. split; [done|].
  rewrite Hrun.
  - unfold count. rewrite Hafter, filter_filter.
    rewrite (filter_nothing (λ x, negb (abandoned olderThanDays now x) && _))
      by (intros s; by destruct (abandoned olderThanDays now s)).
    done.
  - rewrite Hafter. by apply NoDup_id_filter.
  - rewrite Hafter. intros s Hs. apply filter_elem in Hs as [Hs _]. by apply Hok.
Qed.

Lemma cleanupIncompleteSessions_removes_abandoned_witness :
  let out := cleanupIncompleteSessions Examples.noFault 7 Examples.later CleanupExamples.table in
  out.1 = count (abandoned 7 Examples.later) (sessions CleanupExamples.table) ∧
  sessions out.2 =
    List.filter (λ s, negb (abandoned 7 Examples.later s)) (sessions CleanupExamples.table) ∧
  cleanupIncompleteSessions Examples.noFault 7 Examples.later out.2 = (0, out.2).
Proof.
  apply (cleanupIncompleteSessions_removes_abandoned Examples.noFault 7 Examples.later
           CleanupExamples.table).
  - unique_ids.
  - reflexivity.
Defined.

(** X4. When the store rejects a deletion, cleanupIncompleteSessions
    returns 0 although the abandoned sessions that came before the rejected
    one have already been deleted, and are not restored. *)
Theorem cleanupIncompleteSessions_underreports fault olderThanDays now db pre s post :
  NoDup (id <$> sessions db) →
  List.filter (abandoned olderThanDays now) (sessions db) = pre ++ s :: post →
  (∀ r, r ∈ pre → fault (id r) = false) → fault (id s) = true →
  let out := cleanupIncompleteSessions fault olderThanDays now db in
  out.1 = 0 ∧
  sessions out.2 = List.filter (λ r, negb (bool_decide (id r ∈ map id pre))) (sessions db) ∧
  length (sessions out.2) = (length (sessions db) - length pre)%nat.
Proof.
  intros Hnd Hq Hpre Hs. cbv zeta. unfold cleanupIncompleteSessions. cbv zeta.
  rewrite abandoned_query, deleteAll_spec.
  - rewrite Hq, untilFault_stop by done.
    assert (Hfa : forallb (λ r, negb (fault (id r))) (pre ++ s :: post) = false).
    { rewrite forallb_app. simpl. rewrite Hs. simpl. apply andb_false_r. }
    rewrite Hfa. cbn [fst snd]. split; [done|].
    assert (Hafter : sessions (UserService.deleteEach fault (map id pre) db) =
              List.filter (λ r, negb (bool_decide (id r ∈ map id pre))) (sessions db)).
    { apply deleteEach_clean. intros i Hi.
      apply (list_elem_of_fmap_1 id) in Hi as (r & -> & Hr). by apply Hpre. }
    split; [done|]. rewrite Hafter.
    assert (Hsub : ∀ r, r ∈ pre → r ∈ sessions db).
    { intros r Hr. assert (H : r ∈ List.filter (abandoned olderThanDays now) (sessions db))
        by (rewrite Hq; apply elem_of_app; by left).
      by apply filter_elem in H as [H _]. }
    assert (Hndpre : NoDup (id <$> pre)).
    { pose proof (NoDup_id_filter (abandoned olderThanDays now) _ Hnd) as H.
      rewrite Hq, fmap_app in H. by apply NoDup_app in H as [H _]. }
    clear Hq Hfa Hafter Hpre.
    pose proof (List.filter_length (λ r, bool_decide (id r ∈ map id pre)) (sessions db)) as Hlen.
    cbv beta in Hlen.
    assert (Hcount : length (List.filter (λ r, bool_decide (id r ∈ map id pre)) (sessions db))
                     = length pre).
    { apply Permutation_length. apply NoDup_Permutation.
      - apply (NoDup_fmap_1 id). by apply NoDup_id_filter.
      - by apply (NoDup_fmap_1 id).
      - intros r. rewrite filter_elem. split.
        + intros [Hr Hin]. apply bool_decide_eq_true in Hin.
          apply (list_elem_of_fmap_1 id) in Hin as (r' & Hid & Hr').
          assert (r = r') by (apply (NoDup_id_inj (sessions db)); auto). by subst.
        + intros Hr. split; [by apply Hsub|]. apply bool_decide_eq_true_2.
          by apply (list_elem_of_fmap_2 id). }
    lia.
  - by apply NoDup_id_filter.
  - intros r Hr. by apply filter_elem in Hr as [Hr _].
Qed.

Lemma cleanupIncompleteSessions_underreports_witness :
  let out := cleanupIncompleteSessions CleanupExamples.faultOnSecond 7 Examples.later
               CleanupExamples.shells in
  out.1 = 0 ∧
  sessions out.2 =
    List.filter (λ r, negb (bool_decide (id r ∈ map id [CleanupExamples.row 0%nat None false 0])))
      (sessions CleanupExamples.shells) ∧
  length (sessions out.2) = (length (sessions CleanupExamples.shells) - 1)%nat.
Proof.
  apply (cleanupIncompleteSessions_underreports CleanupExamples.faultOnSecond 7 Examples.later
           CleanupExamples.shells [CleanupExamples.row 0%nat None false 0]
           (CleanupExamples.row 1%nat None false 0) [CleanupExamples.row 2%nat None false 0]).
  - unique_ids.
  - reflexivity.
  - intros r Hr. apply list_elem_of_singleton in Hr. by subst r.
  - reflexivity.
Defined.

(** X5. With unique ids, the nightly runFullCleanup only ever removes
    sessions that are stale under the retention settings or abandoned for
    seven days: every other session, in particular every unfinished session
    that has a transcript, is still in the table afterwards, and the
    progress rows are untouched. *)
Theorem runFullCleanup_spares_the_rest read s3 fault now db s :
  NoDup (id <$> sessions db) →
  s ∈ sessions db → stale read now s = false → abandoned 7 now s = false →
  s ∈ sessions (runFullCleanup read s3 fault now db).2 ∧
  progress (runFullCleanup read s3 fault now db).2 = progress db.
Proof.
  intros Hnd Hs Hstale Hab. unfold runFullCleanup.
  destruct (cleanupOldSessions_table read s3 fault now db Hnd) as [H1 Hp1].
  destruct (cleanupOldSessions read s3 fault now db) as [completedResult db1].
  simpl in H1, Hp1.
  assert (Hnd1 : NoDup (id <$> sessions db1)) by (rewrite H1; by apply NoDup_id_filter).
  assert (Hs1 : s ∈ sessions db1).
  { rewrite H1. apply filter_elem. split; [done|]. by rewrite Hstale. }
  unfold cleanupIncompleteSessions. cbv zeta.
  rewrite abandoned_query, deleteAll_spec.
  - set (ids := map id (untilFault fault (List.filter (abandoned 7 now) (sessions db1)))).
    assert (Hkeep : s ∈ sessions (UserService.deleteEach fault ids db1)).
    { rewrite deleteEach_sessions. apply filter_elem. split; [done|].
      rewrite shouldGo_spec. rewrite bool_decide_eq_false_2; [done|].
      intros Hin. apply (list_elem_of_fmap_1 id) in Hin as (r & Hid & Hr).
      apply untilFault_elem in Hr as [Hr _]. apply filter_elem in Hr as [Hr Har].
      assert (s = r) by (by apply (NoDup_id_inj (sessions db1))). subst r. congruence. }
    destruct (deleteEach_tables fault ids db1) as [Hp2 _].
    destruct (forallb _ _); simpl; (split; [done|by rewrite Hp2]).
  - by apply NoDup_id_filter.
  - intros r Hr. by apply filter_elem in Hr as [Hr _].
Qed.

Lemma runFullCleanup_spares_the_rest_witness :
  CleanupExamples.row 4%nat (Some Examples.tenQuestions) false 0 ∈
    sessions (runFullCleanup (ReadRow (Some CleanupExamples.thirtyDays)) CleanupExamples.s3
                Examples.noFault Examples.later CleanupExamples.table).2 ∧
  progress (runFullCleanup (ReadRow (Some CleanupExamples.thirtyDays)) CleanupExamples.s3
              Examples.noFault Examples.later CleanupExamples.table).2 =
    progress CleanupExamples.table.
Proof.
  apply (runFullCleanup_spares_the_rest (ReadRow (Some CleanupExamples.thirtyDays))
           CleanupExamples.s3 Examples.noFault Examples.later CleanupExamples.table
           (CleanupExamples.row 4%nat (Some Examples.tenQuestions) false 0)).
  - unique_ids.
  - unfold CleanupExamples.table. simpl. rewrite !elem_of_cons. auto 10.
  - reflexivity.
  - reflexivity.
Defined.


(** ** The three retention routines *)

Lemma deleteMany_sessions db where_ :
  sessions (Prisma.deleteMany db where_).2 = List.filter (λ r, negb (where_ r)) (sessions db).
Proof. done. Qed.

(** X6. For settings whose duration, when it is a number, is positive, the
    policy routine of the user service removes at least what
    cleanupOldSessions removes under the same settings: whatever it leaves
    in the table, cleanupOldSessions leaves as well. *)
Theorem policy_cleanup_keeps_less_than_cleanupOldSessions settings s3 fault now db s :
  NoDup (id <$> sessions db) →
  (∀ n, JS.parseInt (retentionDuration settings) = Some n → 0 < n) →
  s ∈ sessions (Retention.cleanupSessionsByRetentionPolicy (Some settings) now db).2 →
  s ∈ sessions (cleanupOldSessions (ReadRow (Some settings)) s3 fault now db).2.
Proof.
  intros Hnd Hpos.
  destruct (cleanupOldSessions_table (ReadRow (Some settings)) s3 fault now db Hnd) as [-> _].
  unfold Retention.cleanupSessionsByRetentionPolicy, Retention.retentionOff, stale. simpl.
  destruct (dataRetention settings); simpl.
  2:{ rewrite filter_none. intros H. by apply elem_of_nil in H. }
  destruct (bool_decide (retentionDuration settings = "never")) eqn:Hnever; simpl.
  { rewrite filter_none. intros H. by apply elem_of_nil in H. }
  destruct (bool_decide (retentionDuration settings = "")) eqn:Hempty.
  - apply bool_decide_eq_true in Hempty. rewrite Hempty. simpl.
    rewrite !filter_elem. intros [Hs _]. done.
  - destruct (JS.parseInt (retentionDuration settings)) as [n|] eqn:Hparse.
    + rewrite (proj2 (Z.ltb_lt 0 n)) by (by apply Hpos).
      rewrite deleteMany_sessions, !filter_elem. intros [Hs Hrecent].
      split; [done|]. destruct (updatedAt s <? minusDays now n); [done|].
      by rewrite andb_false_r.
    + rewrite !filter_elem. intros Hs. done.
Qed.

Lemma policy_cleanup_keeps_less_than_cleanupOldSessions_witness :
  CleanupExamples.row 2%nat None true (399 * DAY_MS) ∈
    sessions (cleanupOldSessions (ReadRow (Some CleanupExamples.thirtyDays)) CleanupExamples.s3
                Examples.faultOnFirst Examples.later CleanupExamples.table).2.
Proof.
  apply (policy_cleanup_keeps_less_than_cleanupOldSessions CleanupExamples.thirtyDays
           CleanupExamples.s3 Examples.faultOnFirst Examples.later CleanupExamples.table).
  - unique_ids.
  - intros n Hn. vm_compute in Hn. injection Hn as <-. lia.
  - apply list_elem_of_In. vm_compute. auto.
Defined.

(** ** The session lists *)

Import SessionQueries.

(** X7. Unless the duration is "never", the list of completed sessions does
    not depend on whether the policy routine has already run: it shows
    exactly the completed sessions of the user that the routine leaves in the
    table. *)
Theorem getCompleteSessions_ignores_policy_cleanup row u now db :
  retentionDuration (AdminService.getSettings row) ≠ "never" →
  getCompleteSessions row u now (Retention.cleanupSessionsByRetentionPolicy row now db).2 =
    getCompleteSessions row u now db.
Proof.
  intros Hnever. unfold getCompleteSessions, Retention.cleanupSessionsByRetentionPolicy,
    Retention.retentionOff, cutoffDate. cbv zeta.
  destruct (dataRetention (AdminService.getSettings row)); simpl; [|done].
  rewrite (bool_decide_eq_false_2 (_ = "never")) by done.
  destruct (JS.parseInt _) as [n|]; [|done].
  destruct (0 <? n); [|done].
  rewrite deleteMany_sessions, filter_filter. f_equal. apply filter_ext. intros s.
  rewrite Z.leb_antisym. destruct (updatedAt s <? minusDays now n); simpl; [|done].
  by rewrite andb_false_r.
Qed.

Lemma getCompleteSessions_ignores_policy_cleanup_witness :
  getCompleteSessions (Some CleanupExamples.thirtyDays) "alice" Examples.later
    (Retention.cleanupSessionsByRetentionPolicy (Some CleanupExamples.thirtyDays)
       Examples.later CleanupExamples.table).2 =
  getCompleteSessions (Some CleanupExamples.thirtyDays) "alice" Examples.later
    CleanupExamples.table.
Proof.
  apply (getCompleteSessions_ignores_policy_cleanup (Some CleanupExamples.thirtyDays) "alice"
           Examples.later CleanupExamples.table).
  discriminate.
Defined.

Lemma find_owned l i u s :
  NoDup (id <$> l) → s ∈ l → id s = i → userId s = u →
  List.find (λ r, bool_decide (id r = i) && bool_decide (userId r = u)) l = Some s.
Proof.
  intros Hnd Hs Hi Hu.
  destruct (List.find _ l) as [r|] eqn:E.
  - apply find_some in E as [Hr Hb]. apply andb_prop in Hb as [Hb _].
    apply bool_decide_eq_true in Hb. apply list_elem_of_In in Hr.
    f_equal. apply (NoDup_id_inj l); [done..|]. by rewrite Hb, Hi.
  - apply list_elem_of_In in Hs. pose proof (find_none _ _ E s Hs) as H. simpl in H.
    by rewrite !bool_decide_eq_true_2 in H.
Qed.

Lemma getIncompleteSessions_elem u db s :
  s ∈ getIncompleteSessions u db ↔
  s ∈ sessions db ∧ userId s = u ∧ completed s = false ∧ worthShowing s = true.
Proof.
  unfold getIncompleteSessions. rewrite filter_elem, sort_desc_elem, filter_elem.
  rewrite andb_true_iff, bool_decide_eq_true, negb_true_iff. tauto.
Qed.

Lemma getCompleteSessions_elem row u now db s :
  s ∈ getCompleteSessions row u now db →
  s ∈ sessions db ∧ userId s = u ∧ completed s = true.
Proof.
  unfold getCompleteSessions. cbv zeta.
  destruct (negb _); [intros H; by apply elem_of_nil in H|].
  rewrite sort_desc_elem, filter_elem, !andb_true_iff, bool_decide_eq_true. tauto.
Qed.

(** X8. With unique ids, every session that getIncompleteSessions lists for
    a user can be resumed by that user, and every session that
    getCompleteSessions lists is refused with status 400. *)
Theorem listed_sessions_and_resume row u now db s :
  NoDup (id <$> sessions db) →
  (s ∈ getIncompleteSessions u db → UserController.resumeSession u (id s) db = Success s) ∧
  (s ∈ getCompleteSessions row u now db →
   UserController.resumeSession u (id s) db =
     Failure 400 (Err "Cannot resume a completed session")).
Proof.
  intros Hnd. split.
  - intros H. apply getIncompleteSessions_elem in H as (Hs & Hu & Hc & _).
    unfold UserController.resumeSession, resumeSession.
    rewrite (find_owned _ _ _ s Hnd Hs eq_refl Hu), Hc. done.
  - intros H. apply getCompleteSessions_elem in H as (Hs & Hu & Hc).
    unfold UserController.resumeSession, resumeSession.
    rewrite (find_owned _ _ _ s Hnd Hs eq_refl Hu), Hc. done.
Qed.

Lemma listed_sessions_and_resume_witness :
  UserController.resumeSession "alice" (id Examples.studySession) Examples.studyDb =
    Success Examples.studySession.
Proof.
  apply (listed_sessions_and_resume None "alice" 3000 Examples.studyDb Examples.studySession).
  - unique_ids.
  - apply list_elem_of_In. vm_compute. auto.
Defined.

Lemma filter_length_le {A} (f : A → bool) l : (length (List.filter f l) ≤ length l)%nat.
Proof. induction l as [|x l IH]; simpl; [lia|]. destruct (f x); simpl; lia. Qed.

Lemma filter_disjoint_length {A} (f g h : A → bool) l :
  (∀ x, f x = true → h x = true) → (∀ x, g x = true → h x = true) →
  (∀ x, f x = true → g x = false) →
  (length (List.filter f l) + length (List.filter g l) ≤ length (List.filter h l))%nat.
Proof.
  intros Hf Hg Hfg. induction l as [|x l IH]; simpl; [lia|].
  destruct (f x) eqn:Ef, (g x) eqn:Eg, (h x) eqn:Eh; simpl; try lia.
  - rewrite (Hfg x Ef) in Eg. done.
  - rewrite (Hfg x Ef) in Eg. done.
  - rewrite (Hf x Ef) in Eh. done.
  - rewrite (Hg x Eg) in Eh. done.
Qed.

(** X9. getSessionCounts never counts a session twice: the total it reports
    is at most the number of sessions the user has, and the two lists it
    counts share no session. *)
Theorem getSessionCounts_bounded row u now db :
  (totalCount (getSessionCounts row u now db) ≤ length (getUserSessions u db))%nat ∧
  ∀ s, s ∈ getIncompleteSessions u db → s ∉ getCompleteSessions row u now db.
Proof.
  split.
  - unfold getSessionCounts, getUserSessions, getIncompleteSessions, getCompleteSessions.
    cbv zeta. cbn [totalCount]. rewrite sort_desc_length.
    etrans; [apply Nat.add_le_mono_r, filter_length_le|]. rewrite sort_desc_length.
    destruct (negb _).
    + simpl. rewrite Nat.add_0_r.
      pose proof (filter_disjoint_length
                    (λ s, bool_decide (userId s = u) && negb (completed s)) (λ _, false)
                    (λ s, bool_decide (userId s = u)) (sessions db)) as H.
      rewrite (filter_nothing (λ _, false)) in H by done. simpl in H.
      rewrite Nat.add_0_r in H. apply H; [|done..].
      intros s Hs. by apply andb_prop in Hs as [Hs _].
    + rewrite sort_desc_length. apply filter_disjoint_length.
      * intros s Hs. by apply andb_prop in Hs as [Hs _].
      * intros s Hs. apply andb_prop in Hs as [Hs _]. by apply andb_prop in Hs as [Hs _].
      * intros s Hs. apply andb_prop in Hs as [_ Hs]. apply negb_true_iff in Hs.
        rewrite Hs. by rewrite andb_false_r.
  - intros s Hi Hc. apply getIncompleteSessions_elem in Hi as (_ & _ & Hi & _).
    apply getCompleteSessions_elem in Hc as (_ & _ & Hc). congruence.
Qed.


(** ** The request handlers *)

Lemma sameButRow_refl i db : sameButRow i db db.
Proof. exists (λ r, r). by rewrite map_id. Qed.

Lemma sameButRow_trans i db1 db2 db3 :
  sameButRow i db1 db2 → sameButRow i db2 db3 → sameButRow i db1 db3.
Proof.
  intros (g & Hg & Hid & Hne) (h & Hh & Hid' & Hne').
  exists (λ r, h (g r)). split; [by rewrite Hh, Hg, map_map|]. split.
  - intros r. by rewrite Hid', Hid.
  - intros r Hr. rewrite (Hne r Hr). by apply Hne'.
Qed.

Lemma sameButRow_ext i db db' : sessions db' = sessions db → sameButRow i db db'.
Proof. intros H. exists (λ r, r). by rewrite map_id. Qed.

Lemma update_sameButRow db now i f :
  (∀ r, id (f r) = id r) → sameButRow i db (Prisma.update db now i f).2.
Proof.
  intros Hf. unfold Prisma.update.
  destruct (Prisma.findUnique db i) as [s|]; [|apply sameButRow_refl].
  exists (λ r, if bool_decide (id r = i) then Prisma.touch now (f r) else r).
  split; [done|]. split.
  - intros r. destruct (bool_decide (id r = i)); [apply Hf|done].
  - intros r Hr. by rewrite bool_decide_eq_false_2.
Qed.

Lemma recordCompletion_sameButRow reply now s db :
  sameButRow (id s) db (recordCompletion reply now s db).
Proof.
  unfold recordCompletion.
  destruct (data s) as [sd|]; [|apply sameButRow_refl].
  destruct (List.filter notWelcome (messages sd)) as [|m real]; [apply sameButRow_refl|].
  destruct (Classifier.detectAllSubjectsFromConversation _ _) as [|b rest].
  - apply sameButRow_ext. apply createProgressRecords_tables.
  - destruct (negb _).
    + pose proof (update_sameButRow db now (id s) (setSubject b) (λ r, eq_refl)) as H.
      destruct (Prisma.update db now (id s) (setSubject b)) as [[r|e] db']; simpl in H.
      * eapply sameButRow_trans; [exact H|].
        apply sameButRow_ext. apply createProgressRecords_tables.
      * apply sameButRow_refl.
    + apply sameButRow_ext. apply createProgressRecords_tables.
Qed.

Lemma updateSession_sameButRow reply now i patch db :
  sameButRow i db (UserService.updateSession reply now i patch db).2.
Proof.
  unfold UserService.updateSession.
  pose proof (update_sameButRow db now i (Prisma.assign patch) (id_assign patch)) as H.
  pose proof (update_found db now i (Prisma.assign patch)) as Hfound.
  unfold Prisma.update in *.
  destruct (Prisma.findUnique db i) as [s|] eqn:E; [|apply sameButRow_refl].
  apply find_id_some in E as [Hid _].
  simpl in *. destruct (_ && _); [|done]. simpl.
  eapply sameButRow_trans; [exact H|].
  pose proof (recordCompletion_sameButRow reply now
                (Prisma.touch now (Prisma.assign patch s))) as Hrec.
  simpl in Hrec. rewrite Hid in Hrec. apply Hrec.
Qed.

Lemma runJob_sameButRow joy reply now j db :
  sameButRow (jobRow j) db (runJob joy reply now j db).2.
Proof.
  destruct j as [i|i realMessages]; simpl.
  - unfold recalculateSessionMetrics.
    destruct (Prisma.findUnique db i) as [s|]; [|apply sameButRow_refl].
    destruct (data s) as [sd|]; [|apply sameButRow_refl].
    destruct (messages sd) as [|m msgs]; [apply sameButRow_refl|].
    pose proof (update_sameButRow db now i
                  (setMetrics joy (Z.of_nat (length (List.filter isPhotoUpload (m :: msgs)))))
                  (λ r, eq_refl)) as H.
    by destruct (Prisma.update _ _ _ _) as [[r|e] db'].
  - destruct (Classifier.detectAllSubjectsFromConversation _ _) as [|b rest];
      [apply sameButRow_refl|].
    pose proof (update_sameButRow db now i (setSubject b) (λ r, eq_refl)) as H.
    by destruct (Prisma.update _ _ _ _) as [[r|e] db'].
Qed.

Lemma runJobs_sameButRow joy reply now i jobs db :
  Forall (λ j, jobRow j = i) jobs → sameButRow i db (runJobs joy reply now jobs db).
Proof.
  unfold runJobs. intros H. revert db.
  induction H as [|j jobs Hj _ IH]; intros db; simpl; [apply sameButRow_refl|].
  eapply sameButRow_trans; [|apply IH]. rewrite <- Hj. apply runJob_sameButRow.
Qed.

Lemma backgroundJobs_row i patch : Forall (λ j, jobRow j = i) (backgroundJobs i patch).
Proof.
  unfold backgroundJobs. destruct (p_data patch) as [sd|]; [|done].
  destruct (messages sd) as [|m msgs]; [done|]. constructor; [done|].
  destruct (List.filter _ _); [done|]. by constructor.
Qed.

Lemma sameButRow_keeps i db db' s :
  sameButRow i db db' → s ∈ sessions db → id s ≠ i → s ∈ sessions db'.
Proof.
  intros (g & Hg & _ & Hne) Hs Hi. rewrite Hg, <- (Hne s Hi).
  apply list_elem_of_In, in_map. by apply list_elem_of_In.
Qed.

Lemma sameButRow_length i db db' :
  sameButRow i db db' → length (sessions db') = length (sessions db).
Proof. intros (g & Hg & _). by rewrite Hg, length_map. Qed.

Lemma findUnique_is db i s r :
  NoDup (id <$> sessions db) → Prisma.findUnique db i = Some s → r ∈ sessions db → id r = i →
  r = s.
Proof.
  intros Hnd Hf Hr Hi. apply find_id_some in Hf as [Hid Hs].
  apply (NoDup_id_inj (sessions db)); [done..|]. by rewrite Hi, Hid.
Qed.

(** X10. With unique ids, the PATCH handler of a session, together with the
    computations it queues, changes no row but the one addressed, and only
    when the caller owns it: every session of another user, and every other
    session of the caller, is in the table afterwards exactly as before, and
    no row is added or removed. *)
Theorem updateSession_handler_changes_only_own_row
    reply now user i body joy queuedReply db s :
  NoDup (id <$> sessions db) →
  s ∈ sessions db → userId s ≠ user ∨ id s ≠ i →
  let out := UserController.updateSession reply now user i body db in
  let after := runJobs joy queuedReply now out.1.2 out.2 in
  s ∈ sessions after ∧ length (sessions after) = length (sessions db).
Proof.
  intros Hnd Hs Hother. cbv zeta. unfold UserController.updateSession, getSession.
  destruct (Prisma.findUnique db i) as [session|] eqn:Hfind; [|done].
  destruct (bool_decide (userId session = user)) eqn:Hown; simpl; [|done].
  apply bool_decide_eq_true in Hown.
  assert (Hi : id s ≠ i).
  { destruct Hother as [Hu|Hi]; [|done]. intros Hi. apply Hu.
    by rewrite (findUnique_is db i session s Hnd Hfind Hs Hi). }
  pose proof (updateSession_sameButRow reply now i body db) as Hsame.
  unfold UserService.updateSession in *.
  destruct (Prisma.update db now i (Prisma.assign body)) as [[updated|e] db1] eqn:Hup.
  - assert (Hall : sameButRow i db
                     (runJobs joy queuedReply now (backgroundJobs i body)
                        (if bool_decide (p_completed body = Some true) && hasData updated
                         then recordCompletion reply now updated db1 else db1))).
    { eapply sameButRow_trans; [|apply runJobs_sameButRow, backgroundJobs_row].
      by destruct (_ && _). }
    destruct (_ && _); simpl;
      (split; [by apply (sameButRow_keeps i db)|by apply (sameButRow_length i)]).
  - simpl in *. split; [by apply (sameButRow_keeps i db)|by apply (sameButRow_length i)].
Qed.

Lemma updateSession_handler_changes_only_own_row_witness :
  let out :=
    UserController.updateSession Examples.twoSubjects 5000 "alice" 1%nat markCompleted
      Examples.duplicates in
  let after := runJobs 0 NotJson 5000 out.1.2 out.2 in
  Examples.dup 2%nat (Some Examples.tenQuestions) 10 ∈ sessions after ∧
  length (sessions after) = length (sessions Examples.duplicates).
Proof.
  apply (updateSession_handler_changes_only_own_row Examples.twoSubjects 5000 "alice" 1%nat
           markCompleted 0 NotJson Examples.duplicates
           (Examples.dup 2%nat (Some Examples.tenQuestions) 10)).
  - unique_ids.
  - apply list_elem_of_In. vm_compute. auto.
  - right. simpl. lia.
Defined.

(** X11. With unique ids, the DELETE handler of a session never removes a
    session of another user nor any session but the one addressed, and
    whenever it answers with success the session addressed is not in the
    table any more, also when it was not there to begin with. *)
Theorem deleteSession_handler_removes_only_own_row fault user i db :
  NoDup (id <$> sessions db) →
  let out := UserController.deleteSession fault user i db in
  (∀ s, s ∈ sessions db → userId s ≠ user ∨ id s ≠ i → s ∈ sessions out.2) ∧
  (∀ message, out.1 = Success message → getSession i out.2 = None).
Proof.
  intros Hnd. cbv zeta. unfold UserController.deleteSession, getSession.
  destruct (Prisma.findUnique db i) as [session|] eqn:Hfind; [|done].
  destruct (bool_decide (userId session = user)) eqn:Hown; simpl; [|done].
  apply bool_decide_eq_true in Hown.
  unfold UserService.deleteSession, Prisma.delete. rewrite Hfind.
  destruct (fault i); simpl; [done|]. split.
  - intros s Hs Hother. apply filter_elem. split; [done|].
    rewrite bool_decide_eq_false_2; [done|].
    destruct Hother as [Hu|Hi]; [|done]. intros Hi. apply Hu.
    by rewrite (findUnique_is db i session s Hnd Hfind Hs Hi).
  - intros _ _. apply find_id_filtered.
Qed.

Lemma deleteSession_handler_removes_only_own_row_witness :
  let out := UserController.deleteSession Examples.noFault "alice" 1%nat Examples.duplicates in
  (∀ s, s ∈ sessions Examples.duplicates → userId s ≠ "alice" ∨ id s ≠ 1%nat →
        s ∈ sessions out.2) ∧
  (∀ message, out.1 = Success message → getSession 1%nat out.2 = None).
Proof.
  apply (deleteSession_handler_removes_only_own_row Examples.noFault "alice" 1%nat
           Examples.duplicates).
  unique_ids.
Defined.

(** X12. The rename handler does not look at the caller: for any caller and
    any session that exists, whoever owns it, it succeeds, the session read
    back carries the new title and the same owner, and no other row
    changes. *)
Theorem renameSession_handler_ignores_the_caller now user i title db s :
  NoDup (id <$> sessions db) →
  getSession i db = Some s →
  let out := UserController.renameSession now user i (Some title) db in
  ∃ renamed,
    out.1 = Success renamed ∧ subject renamed = title ∧ userId renamed = userId s ∧
    getSession i out.2 = Some renamed ∧ sameButRow i db out.2.
Proof.
  intros Hnd Hget. cbv zeta. unfold UserController.renameSession, renameSession.
  set (p := {| p_userId := None; p_data := None; p_completed := None; p_lastPoint := None;
               p_subject := Some title; p_topic := None; p_duration := None;
               p_questionsAnswered := None; p_correctAnswers := None |}).
  pose proof (findUnique_update db now i (Prisma.assign p) s (id_assign p) Hget) as Hback.
  pose proof (update_sameButRow db now i (Prisma.assign p) (id_assign p)) as Hsame.
  rewrite (update_found db now i (Prisma.assign p) s Hget) in *. simpl in *.
  exists (Prisma.touch now (Prisma.assign p s)). done.
Qed.

Lemma renameSession_handler_ignores_the_caller_witness :
  let out :=
    UserController.renameSession 5000 "mallory" 0%nat (Some (Some "Mine")) Examples.studyDb in
  ∃ renamed,
    out.1 = Success renamed ∧ subject renamed = Some "Mine" ∧
    userId renamed = userId Examples.studySession ∧
    getSession 0%nat out.2 = Some renamed ∧ sameButRow 0%nat Examples.studyDb out.2.
Proof.
  apply (renameSession_handler_ignores_the_caller 5000 "mallory" 0%nat (Some "Mine")
           Examples.studyDb Examples.studySession).
  - unique_ids.
  - reflexivity.
Defined.









(** ** The accessor, once more *)

Lemma filter_single (P : Session → bool) l kept :
  NoDup (id <$> l) → kept ∈ l → P kept = true →
  List.filter (λ s, P s && bool_decide (id s = id kept)) l = [kept].
Proof.
  intros Hnd Hk HP. apply Permutation_singleton_r, NoDup_Permutation.
  - apply (NoDup_fmap_1 id). by apply NoDup_id_filter.
  - apply NoDup_singleton.
  - intros s. rewrite filter_elem, list_elem_of_singleton, andb_true_iff, bool_decide_eq_true.
    split.
    + intros (Hs & _ & Hid). by apply (NoDup_id_inj l).
    + intros ->. done.
Qed.

(** The table after [getActiveSession] has repaired duplicates whose
    deletions were all accepted holds one true-active session of the user:
    the one returned. *)
Lemma getActiveSession_repaired fault u db :
  NoDup (id <$> sessions db) →
  (∀ s, s ∈ sessions db → isActiveOf u s = true → fault (id s) = false) →
  (1 < length (findActive u db))%nat →
  ∃ kept, (getActiveSession fault u db).1 = Some kept ∧
          List.filter (isActiveOf u) (sessions (getActiveSession fault u db).2) = [kept].
Proof.
  intros Hnd Hok Hlen.
  destruct (getActiveSession_many fault u db Hlen) as (pre & kept & post & HL & _ & _ & Hget).
  exists kept. rewrite Hget. split; [done|]. simpl.
  assert (Hk : kept ∈ sessions db ∧ isActiveOf u kept = true).
  { apply findActive_elem. rewrite HL. apply elem_of_app. right. apply elem_of_cons. by left. }
  destruct Hk as [Hk Hact].
  rewrite deleteEach_sessions, filter_filter.
  rewrite <- (filter_single (isActiveOf u) (sessions db) kept Hnd Hk Hact).
  apply filter_ext_in. intros s Hs. apply list_elem_of_In in Hs.
  rewrite shouldGo_spec.
  destruct (isActiveOf u s) eqn:Es; [|by rewrite andb_false_r].
  rewrite (Hok s Hs Es). simpl. rewrite !andb_true_r.
  destruct (bool_decide (id s = id kept)) eqn:Ek.
  - apply bool_decide_eq_true in Ek. rewrite bool_decide_eq_false_2; [done|].
    intros Hin. apply (others_ids u db pre kept post s Hnd HL Hs) in Hin as [_ Hne]. done.
  - apply bool_decide_eq_false in Ek. rewrite bool_decide_eq_true_2; [done|].
    by apply (others_ids u db pre kept post s Hnd HL Hs).
Qed.

(** X14. With unique ids, when the store accepts the deletions that
    getActiveSession asks for, the user is left with at most one true-active
    session, and asking again returns the same session and deletes
    nothing. *)
Theorem getActiveSession_settles fault u db :
  NoDup (id <$> sessions db) →
  (∀ s, s ∈ sessions db → isActiveOf u s = true → fault (id s) = false) →
  let out := getActiveSession fault u db in
  (length (List.filter (isActiveOf u) (sessions out.2)) ≤ 1)%nat ∧
  getActiveSession fault u out.2 = out.
Proof.
  intros Hnd Hok. cbv zeta.
  destruct (decide (1 < length (findActive u db))%nat) as [Hmany|Hfew].
  - destruct (getActiveSession_repaired fault u db Hnd Hok Hmany) as (kept & Hres & Hone).
    rewrite Hone. split; [simpl; lia|].
    rewrite (getActiveSession_one fault u _ kept Hone).
    destruct (getActiveSession fault u db) as [r db']. simpl in *. by rewrite Hres.
  - pose proof (sort_desc_length updatedAt (List.filter (isActiveOf u) (sessions db))) as Hlen.
    fold (findActive u db) in Hlen.
    assert (Hsame : (getActiveSession fault u db).2 = db).
    { unfold getActiveSession. cbv zeta.
      destruct (findActive u db) as [|a [|b r]]; simpl in *; [done..|lia]. }
    rewrite Hsame. split; [lia|].
    destruct (getActiveSession fault u db) as [r db'] eqn:E. simpl in Hsame. by subst db'.
Qed.

Lemma getActiveSession_settles_witness :
  let out := getActiveSession Examples.noFault "alice" Examples.duplicates in
  (length (List.filter (isActiveOf "alice") (sessions out.2)) ≤ 1)%nat ∧
  getActiveSession Examples.noFault "alice" out.2 = out.
Proof.
  apply (getActiveSession_settles Examples.noFault "alice" Examples.duplicates).
  - unique_ids.
  - reflexivity.
Defined.

Lemma getActiveSession_returns_row fault u db s :
  NoDup (id <$> sessions db) →
  (getActiveSession fault u db).1 = Some s →
  s ∈ sessions (getActiveSession fault u db).2.
Proof.
  intros Hnd.
  destruct (decide (1 < length (findActive u db))%nat) as [Hmany|Hfew].
  - destruct (getActiveSession_many fault u db Hmany) as (pre & kept & post & HL & _ & _ & Hget).
    rewrite Hget. simpl. intros [= <-].
    assert (Hk : kept ∈ sessions db ∧ isActiveOf u kept = true).
    { apply findActive_elem. rewrite HL. apply elem_of_app. right. apply elem_of_cons. by left. }
    destruct Hk as [Hk Hact].
    rewrite deleteEach_sessions. apply filter_elem. split; [done|].
    rewrite shouldGo_spec, bool_decide_eq_false_2; [done|].
    intros Hin. apply (others_ids u db pre kept post kept Hnd HL Hk) in Hin as [_ Hne]. done.
  - unfold getActiveSession. cbv zeta.
    destruct (findActive u db) as [|a [|b r]] eqn:E; simpl in *; [done| |lia].
    intros [= <-].
    assert (H : a ∈ findActive u db) by (rewrite E; apply elem_of_cons; by left).
    by apply findActive_elem in H as [H _].
Qed.

Lemma getActiveSession_wellKeyed fault u db :
  wellKeyed db → wellKeyed (getActiveSession fault u db).2.
Proof.
  intros [Hnd Hlt].
  assert (H : ∃ ids, (getActiveSession fault u db).2 = deleteEach fault ids db).
  { unfold getActiveSession. cbv zeta.
    destruct (findActive u db) as [|a [|b r]]; [by exists []..|].
    destruct (selectValid _ _ _) as [[v|] del]; eauto. }
  destruct H as [ids ->]. unfold wellKeyed.
  rewrite deleteEach_sessions, (proj2 (deleteEach_tables fault ids db)).
  split; [by apply NoDup_id_filter|].
  intros s Hs. apply filter_elem in Hs as [Hs _]. by apply Hlt.
Qed.

Lemma find_new_row l (row : Session) :
  (∀ s, s ∈ l → id s ≠ id row) →
  List.find (λ s, bool_decide (id s = id row)) (l ++ [row]) = Some row.
Proof.
  intros H. induction l as [|r l IH]; simpl.
  - by rewrite bool_decide_eq_true_2.
  - rewrite bool_decide_eq_false_2 by (apply H, elem_of_cons; by left).
    apply IH. intros s Hs. apply H, elem_of_cons. by right.
Qed.

(** X15. On a table whose keys are unique and below the key generator,
    the session that createSession returns, whether found or inserted, is the
    one getSession reads back under its id, and the table keeps unique keys
    below the generator. *)
Theorem createSession_then_getSession fault now u data db :
  wellKeyed db →
  let out := createSession fault now u data db in
  getSession (id out.1) out.2 = Some out.1 ∧ wellKeyed out.2.
Proof.
  intros Hwk. cbv zeta. unfold createSession.
  pose proof (getActiveSession_wellKeyed fault u db Hwk) as Hwk'.
  pose proof (getActiveSession_returns_row fault u db) as Hrow.
  destruct (getActiveSession fault u db) as [[s|] db'] eqn:E; simpl in *.
  - split; [|done]. destruct Hwk as [Hnd _]. specialize (Hrow s Hnd eq_refl).
    destruct Hwk' as [Hnd' _]. unfold getSession, Prisma.findUnique.
    destruct (List.find _ (sessions db')) as [r|] eqn:Ef.
    + apply find_id_some in Ef as [Hid Hr]. f_equal. by apply (NoDup_id_inj (sessions db')).
    + apply list_elem_of_In in Hrow. pose proof (find_none _ _ Ef s Hrow) as H. simpl in H.
      by rewrite bool_decide_eq_true_2 in H.
  - destruct Hwk' as [Hnd' Hlt']. unfold Prisma.create, getSession, Prisma.findUnique. simpl.
    set (row := Prisma.assign data (Prisma.defaultRow (nextId db') u now)).
    assert (Hfresh : ∀ s, s ∈ sessions db' → id s ≠ id row).
    { intros s Hs. specialize (Hlt' s Hs). simpl. lia. }
    split.
    + by apply (find_new_row (sessions db') row).
    + split; simpl.
      * rewrite fmap_app. apply NoDup_app. split; [done|]. split.
        -- intros i Hi Hin. apply list_elem_of_singleton in Hin. subst i.
           apply list_elem_of_fmap in Hi as (s & Hid & Hs).
           by apply (Hfresh s Hs).
        -- apply NoDup_singleton.
      * intros s Hs. apply elem_of_app in Hs as [Hs|Hs].
        -- specialize (Hlt' s Hs). lia.
        -- apply list_elem_of_singleton in Hs. subst s. simpl. lia.
Qed.

Lemma createSession_then_getSession_witness :
  let out := createSession Examples.noFault 5000 "bob" emptyPatch Examples.studyDb in
  getSession (id out.1) out.2 = Some out.1 ∧ wellKeyed out.2.
Proof.
  apply (createSession_then_getSession Examples.noFault 5000 "bob" emptyPatch Examples.studyDb).
  split; [unique_ids|].
  intros s Hs. apply list_elem_of_singleton in Hs. subst s. simpl. lia.
Defined.


(** ** The streak of the personal statistics *)

Import PersonalStats.

Lemma sessionOn_nil tz d : ¬ sessionOn tz [] d.
Proof. intros (t & Ht & _). by apply elem_of_nil in Ht. Qed.

Lemma sessionOn_cons tz s l d :
  sessionOn tz (s :: l) d ↔ startOfDay tz (createdAt s) = d ∨ sessionOn tz l d.
Proof.
  unfold sessionOn, onDay. simpl. split.
  - intros (t & Ht & Hd). apply elem_of_cons in Ht as [->|Ht]; [by left|].
    right. by exists t.
  - intros [Hd|(t & Ht & Hd)].
    + exists (createdAt s). split; [apply elem_of_cons; by left|done].
    + exists t. split; [apply elem_of_cons; by right|done].
Qed.

Lemma sessionOn_perm tz l l' d : l ≡ₚ l' → sessionOn tz l d ↔ sessionOn tz l' d.
Proof.
  intros Hp. unfold sessionOn, onDay.
  assert (H : map createdAt l ≡ₚ map createdAt l') by (by apply Permutation_map).
  split; intros (t & Ht & Hd); exists t; split; try done.
  - by rewrite <- H.
  - by rewrite H.
Qed.

Lemma sessionOn_before tz s l d :
  Forall (desc createdAt s) l → sessionOn tz l d → d ≤ startOfDay tz (createdAt s).
Proof.
  intros Hall (t & Ht & <-). apply list_elem_of_In, in_map_iff in Ht as (r & <- & Hr).
  apply list_elem_of_In in Hr. pose proof (proj1 (Forall_forall _ _) Hall r Hr) as Hle.
  unfold desc in Hle. by apply startOfDay_mono.
Qed.

Lemma diffDays_is tz today t j :
  aligned tz today →
  (today - startOfDay tz t) / DAY_MS = j ↔ startOfDay tz t = minusDays today j.
Proof. intros. split; intros; days. Qed.

(** The loop counts the days today-i, today-i-1, ... as long as each has a
    session; sessions of a day already counted, or of a day after it, are
    passed over. *)
Lemma streakLoop_spec tz today l i :
  aligned tz today → StronglySorted (desc createdAt) l →
  let k := streakLoop tz today l i in
  i ≤ k ∧
  (∀ j, i ≤ j < k → sessionOn tz l (minusDays today j)) ∧
  ¬ sessionOn tz l (minusDays today k).
Proof.
  intros Ht Hsorted. revert i. induction Hsorted as [|s l Hl IH Hs]; intros i; simpl.
  - split; [lia|]. split; [lia|]. apply sessionOn_nil.
  - set (diff := (today - startOfDay tz (createdAt s)) / DAY_MS).
    assert (Hdiff : startOfDay tz (createdAt s) = minusDays today diff)
      by (by apply diffDays_is).
    assert (Hhead : ∀ j, startOfDay tz (createdAt s) = minusDays today j → j = diff).
    { intros j Hj. symmetry. by apply diffDays_is. }
    destruct (Z.eqb_spec diff i) as [Heq|Hne].
    + destruct (IH (i + 1)) as (Hle & Hrun & Hstop).
      split; [lia|]. split.
      * intros j Hj. apply sessionOn_cons.
        destruct (decide (j = i)) as [->|Hji]; [left; by rewrite Hdiff, Heq|].
        right. apply Hrun. lia.
      * rewrite sessionOn_cons. intros [Hd|Hd]; [|done].
        apply Hhead in Hd. lia.
    + destruct (Z.ltb_spec i diff) as [Hlt|Hge].
      * split; [lia|]. split; [lia|].
        rewrite sessionOn_cons. intros [Hd|Hd]; [apply Hhead in Hd; lia|].
        pose proof (sessionOn_before tz s l _ Hs Hd) as Hle.
        rewrite Hdiff in Hle. clear -Hle Hlt. unfold minusDays in Hle.
        change DAY_MS with 86400000 in Hle. lia.
      * destruct (IH i) as (Hle & Hrun & Hstop).
        split; [lia|]. split.
        -- intros j Hj. apply sessionOn_cons. right. by apply Hrun.
        -- rewrite sessionOn_cons. intros [Hd|Hd]; [|done].
           apply Hhead in Hd. lia.
Qed.

Lemma calculateStreak_spec tz now sessions :
  let today := startOfDay tz now in
  let k := calculateStreak tz now sessions in
  0 ≤ k ∧ consecutiveDays (sessionOn tz sessions) today k ∧
  ¬ sessionOn tz sessions (minusDays today k).
Proof.
  cbv zeta. unfold calculateStreak.
  destruct sessions as [|s l].
  - split; [lia|]. split; [intros j Hj; lia|]. apply sessionOn_nil.
  - cbv zeta.
    destruct (streakLoop_spec tz (startOfDay tz now) (JS.sort_desc createdAt (s :: l)) 0)
      as (Hle & Hrun & Hstop).
    + apply startOfDay_aligned.
    + apply sort_desc_sorted.
    + cbv zeta in *. split; [done|]. split.
      * intros j Hj. apply (sessionOn_perm tz _ _ _ (sort_desc_perm createdAt (s :: l))).
        by apply Hrun.
      * intros H. apply Hstop.
        by apply (sessionOn_perm tz _ _ _ (sort_desc_perm createdAt (s :: l))).
Qed.

Lemma minusDays_inj d j j' : minusDays d j = minusDays d j' → j = j'.
Proof. unfold minusDays. change DAY_MS with 86400000. lia. Qed.

(** A run of [k] consecutive days with a session needs [k] sessions. *)
Lemma run_needs_sessions tz createdAts d k :
  0 ≤ k → consecutiveDays (onDay tz createdAts) d k → k ≤ Z.of_nat (length createdAts).
Proof.
  intros Hk Hrun.
  set (run := (λ j : nat, minusDays d (Z.of_nat j)) <$> seq 0 (Z.to_nat k)).
  assert (Hnd : NoDup run).
  { apply NoDup_fmap_2_strong; [|apply NoDup_seq].
    intros x y _ _ H. apply minusDays_inj in H. lia. }
  assert (Hsub : run ⊆ sessionDays tz createdAts).
  { intros x Hx. apply list_elem_of_fmap in Hx as (j & -> & Hj).
    apply elem_of_seq in Hj. apply sessionDays_elem, Hrun. lia. }
  pose proof (submseteq_length _ _ (NoDup_submseteq _ _ Hnd Hsub)) as Hlen.
  unfold run in Hlen. rewrite length_fmap, length_seq in Hlen.
  unfold sessionDays in Hlen. rewrite sort_desc_length in Hlen.
  pose proof (submseteq_length _ _
                (NoDup_submseteq _ _ (NoDup_remove_dups (map (startOfDay tz) createdAts))
                   (λ x Hx, proj1 (elem_of_remove_dups _ x) Hx))) as Hlen'.
  rewrite length_map in Hlen'. lia.
Qed.

(** X16. calculateStreak returns the number of consecutive calendar days,
    counted backward from today, that each have a session of the list, and
    stops at the first day without one. Several sessions on one day count
    once, sessions dated after today are passed over, and the result is at
    most the number of sessions. *)
Theorem calculateStreak_counts_consecutive_days tz now sessions :
  let today := startOfDay tz now in
  let k := calculateStreak tz now sessions in
  0 ≤ k ≤ Z.of_nat (length sessions) ∧
  consecutiveDays (sessionOn tz sessions) today k ∧
  ¬ sessionOn tz sessions (minusDays today k).
Proof.
  cbv zeta. destruct (calculateStreak_spec tz now sessions) as (Hk0 & Hrun & Hstop).
  cbv zeta in *. split; [|done]. split; [done|].
  rewrite <- (length_map createdAt sessions).
  by apply (run_needs_sessions tz (map createdAt sessions) (startOfDay tz now)).
Qed.

(** X17. On the same sessions, none dated after now, calculateStreak of the
    personal statistics and the current streak of getProgressMetrics are the
    same number. *)
Theorem calculateStreak_agrees_with_getProgressMetrics tz now sessions :
  (∀ s, s ∈ sessions → createdAt s ≤ now) →
  calculateStreak tz now sessions = currentStreak (streaks tz now (map createdAt sessions)).
Proof.
  intros Hpast.
  destruct (calculateStreak_spec tz now sessions) as (Hk0 & Hkrun & Hkstop).
  destruct (streaks_spec tz now (map createdAt sessions)) as ((Hc0 & Hcrun & Hcstop) & _).
  cbv zeta in *. fold (sessionOn tz sessions) in Hcrun, Hcstop.
  assert (Hstop : ¬ sessionOn tz sessions
                     (minusDays (startOfDay tz now)
                        (currentStreak (streaks tz now (map createdAt sessions))))).
  { apply Hcstop. intros d (t & Ht & <-).
    apply list_elem_of_In, in_map_iff in Ht as (s & <- & Hs). apply list_elem_of_In in Hs.
    apply startOfDay_mono. by apply Hpast. }
  set (k := calculateStreak tz now sessions) in *.
  set (c := currentStreak (streaks tz now (map createdAt sessions))) in *.
  destruct (Z.lt_trichotomy k c) as [Hlt|[Heq|Hgt]]; [|done|].
  - exfalso. apply Hkstop, Hcrun. lia.
  - exfalso. apply Hstop, Hkrun. lia.
Qed.

Lemma calculateStreak_agrees_with_getProgressMetrics_witness :
  calculateStreak 0 Examples.noon StatsExamples.history =
    currentStreak (streaks 0 Examples.noon (map createdAt StatsExamples.history)).
Proof.
  apply (calculateStreak_agrees_with_getProgressMetrics 0 Examples.noon StatsExamples.history).
  intros s Hs. unfold StatsExamples.history in Hs. members Hs.
  destruct Hs as [-> | [-> | [-> | [-> | []]]]]; vm_compute; discriminate.
Defined.

(** ** The medals *)

Import ProgressMetrics.

Lemma streaks_bounds tz now createdAts :
  let r := streaks tz now createdAts in
  0 ≤ currentStreak r ∧ currentStreak r ≤ longestStreak r ∧
  longestStreak r ≤ Z.of_nat (length createdAts).
Proof.
  cbv zeta.
  destruct (streaks_spec tz now createdAts) as ((Hc0 & Hcrun & _) & (d & Hrun) & Hmax).
  cbv zeta in *. split; [done|]. split; [by apply (Hmax _ _ Hc0 Hcrun)|].
  apply (run_needs_sessions tz createdAts d); [|done].
  etrans; [exact Hc0|]. by apply (Hmax _ _ Hc0 Hcrun).
Qed.

(** X18. In the answer of getProgressMetrics the current streak is never
    negative and never above the longest streak, and the longest streak is at
    most the number of sessions the user has. *)
Theorem getProgressMetrics_streak_bounds tz now u db acts :
  let r := streak (getProgressMetrics tz now u db acts).1 in
  0 ≤ currentStreak r ∧ currentStreak r ≤ longestStreak r ∧
  longestStreak r ≤ Z.of_nat (length (getUserSessions u db)).
Proof.
  cbv zeta. unfold getProgressMetrics. cbv zeta.
  destruct (getTodayActivity tz now u acts) as [todayActivity acts']. cbn [fst streak].
  pose proof (streaks_bounds tz now
                (map createdAt
                   (JS.sort_desc createdAt
                      (List.filter (λ s, bool_decide (userId s = u)) (sessions db))))) as H.
  cbv zeta in H. rewrite length_map in H. exact H.
Qed.

(** X19. When none of the user's sessions is dated after now, the Streaker
    medal is reported as completed exactly when the user has a session on
    each of the 200 calendar days that end today. *)
Theorem streaker_medal_needs_200_consecutive_days tz now u db acts :
  (∀ s, s ∈ sessions db → userId s = u → createdAt s ≤ now) →
  streakerStatus (getProgressMetrics tz now u db acts).1 = "completed" ↔
  consecutiveDays (sessionOn tz (getUserSessions u db)) (startOfDay tz now) 200.
Proof.
  intros Hpast. unfold getProgressMetrics. cbv zeta.
  destruct (getTodayActivity tz now u acts) as [todayActivity acts']. cbn [fst streakerStatus].
  fold (getUserSessions u db).
  destruct (streaks_spec tz now (map createdAt (getUserSessions u db)))
    as ((Hc0 & Hcrun & Hcstop) & _).
  cbv zeta in *. fold (sessionOn tz (getUserSessions u db)) in Hcrun, Hcstop.
  set (c := currentStreak (streaks tz now (map createdAt (getUserSessions u db)))) in *.
  assert (Hstop : ¬ sessionOn tz (getUserSessions u db) (minusDays (startOfDay tz now) c)).
  { apply Hcstop. intros d (t & Ht & <-).
    apply list_elem_of_In, in_map_iff in Ht as (s & <- & Hs). apply list_elem_of_In in Hs.
    unfold getUserSessions in Hs. rewrite sort_desc_elem, filter_elem in Hs.
    destruct Hs as [Hs Hu]. apply bool_decide_eq_true in Hu.
    apply startOfDay_mono. by apply Hpast. }
  unfold status, STREAKER_THRESHOLD. destruct (Z.leb_spec 200 c) as [Hge|Hlt].
  - split; [|done]. intros _ j Hj. apply Hcrun. lia.
  - split; [done|]. intros Hrun. exfalso. apply Hstop, Hrun. lia.
Qed.

Lemma streaker_medal_needs_200_consecutive_days_witness :
  streakerStatus (getProgressMetrics 0 Examples.noon "alice" StatsExamples.historyDb []).1
    = "completed" ↔
  consecutiveDays (sessionOn 0 (getUserSessions "alice" StatsExamples.historyDb))
    (startOfDay 0 Examples.noon) 200.
Proof.
  apply (streaker_medal_needs_200_consecutive_days 0 Examples.noon "alice"
           StatsExamples.historyDb []).
  intros s Hs _. unfold StatsExamples.historyDb, StatsExamples.history in Hs. simpl in Hs.
  members Hs.
  destruct Hs as [-> | [-> | [-> | [-> | []]]]]; vm_compute; discriminate.
Defined.

(** ** The week of the personal statistics *)

(** X20. The week whose study time the personal statistics add up starts at
    the most recent Monday, 00:00 local time: the start is a local midnight,
    it falls on a Monday, and now lies within the seven days that follow
    it. *)
Theorem startOfWeek_is_last_monday tz now :
  aligned tz (startOfWeek tz now) ∧ getDay tz (startOfWeek tz now) = 1 ∧
  startOfWeek tz now ≤ now < startOfWeek tz now + 7 * DAY_MS.
Proof.
  unfold startOfWeek, getDay. cbv zeta.
  destruct (Z.eqb_spec (((now + tz) / DAY_MS + 4) mod 7) 0) as [H0|H0];
    unfold aligned, startOfDay, minusDays; change DAY_MS with 86400000 in *;
    repeat split; Z.div_mod_to_equations; lia.
Qed.

Lemma getTodayActivity_found tz now u acts :
  List.find (isActivityOf u (startOfDay tz now)) (getTodayActivity tz now u acts).2 =
    Some (getTodayActivity tz now u acts).1.
Proof.
  unfold getTodayActivity. cbv zeta.
  destruct (List.find _ acts) as [a|] eqn:E; simpl; [done|].
  apply find_snoc; [done|apply isActivityOf_new].
Qed.

Lemma getTodayActivity_present tz now u acts a :
  List.find (isActivityOf u (startOfDay tz now)) acts = Some a →
  getTodayActivity tz now u acts = (a, acts).
Proof. intros H. unfold getTodayActivity. cbv zeta. by rewrite H. Qed.

Lemma calculateStarProgress_present tz now u acts a :
  List.find (isActivityOf u (startOfDay tz now)) acts = Some a →
  calculateStarProgress tz now u acts =
    (starProgressOf (studyMinutes a) (ua_questionsAnswered a),
     map (λ x, if isActivityOf u (startOfDay tz now) x
               then setStarProgress (starProgressOf (studyMinutes a) (ua_questionsAnswered a)) x
               else x) acts).
Proof.
  intros H. unfold calculateStarProgress.
  rewrite (getTodayActivity_present _ _ _ _ _ H).
  unfold updateTodayActivity. cbv zeta. by rewrite H.
Qed.

(** X21. calculateStarProgress settles: computing the star progress a second
    time on the same day returns the same number and leaves the activity
    table as the first computation left it, whether or not today's row
    existed before. *)
Theorem calculateStarProgress_settles tz now u acts :
  let out := calculateStarProgress tz now u acts in
  calculateStarProgress tz now u out.2 = out.
Proof.
  cbv zeta.
  assert (Hgoal : ∀ l a, List.find (isActivityOf u (startOfDay tz now)) l = Some a →
            calculateStarProgress tz now u (calculateStarProgress tz now u l).2 =
            calculateStarProgress tz now u l).
  { intros l a Ha. rewrite (calculateStarProgress_present _ _ _ _ _ Ha). cbn [snd].
    set (p := starProgressOf (studyMinutes a) (ua_questionsAnswered a)).
    set (P := isActivityOf u (startOfDay tz now)).
    assert (HP : ∀ x, P (setStarProgress p x) = P x) by done.
    assert (Hfind : List.find P (map (λ x, if P x then setStarProgress p x else x) l)
                    = Some (setStarProgress p a)).
    { rewrite (find_map_update P (setStarProgress p) l HP). fold P in Ha. by rewrite Ha. }
    rewrite (calculateStarProgress_present _ _ _ _ _ Hfind).
    change (studyMinutes (setStarProgress p a)) with (studyMinutes a).
    change (ua_questionsAnswered (setStarProgress p a)) with (ua_questionsAnswered a).
    fold p P. f_equal.
    rewrite map_map. apply map_ext. intros x.
    destruct (P x) eqn:E; [|by rewrite E].
    by rewrite HP, E. }
  unfold calculateStarProgress at 2 3.
  pose proof (getTodayActivity_found tz now u acts) as Hfound.
  destruct (getTodayActivity tz now u acts) as [a acts0] eqn:Hget. simpl in Hfound.
  pose proof (Hgoal acts0 a Hfound) as H.
  rewrite (calculateStarProgress_present _ _ _ _ _ Hfound) in H.
  unfold updateTodayActivity. cbv zeta. rewrite Hfound. exact H.
Qed.

(** ** The two streaks of a user *)

Lemma sessionOn_sub tz l l' d :
  (∀ s, s ∈ l → s ∈ l') → sessionOn tz l d → sessionOn tz l' d.
Proof.
  intros Hsub (t & Ht & Hd). exists t. split; [|done].
  apply list_elem_of_In, in_map_iff in Ht as (s & <- & Hs). apply list_elem_of_In in Hs.
  apply list_elem_of_In, in_map. by apply list_elem_of_In, Hsub.
Qed.

(** X22. For a user none of whose sessions is dated after now, the current
    streak of the personal statistics, which only looks at completed sessions
    that have a transcript, never exceeds the current streak that
    getProgressMetrics reports from all the sessions. *)
Theorem personal_streak_at_most_medal_streak tz now u db acts :
  (∀ s, s ∈ sessions db → userId s = u → createdAt s ≤ now) →
  st_currentStreak (getUserPersonalStats tz now u db) ≤
    Metrics.currentStreak (streak (getProgressMetrics tz now u db acts).1).
Proof.
  intros Hpast. unfold getUserPersonalStats, getProgressMetrics. cbv zeta.
  destruct (getTodayActivity tz now u acts) as [todayActivity acts']. cbn [fst streak].
  cbn [st_currentStreak]. fold (getUserSessions u db).
  destruct (calculateStreak_spec tz now (completedSessions (getUserSessions u db)))
    as (Hk0 & Hkrun & _).
  destruct (streaks_spec tz now (map createdAt (getUserSessions u db)))
    as ((Hc0 & _ & Hcstop) & _).
  cbv zeta in *. fold (sessionOn tz (getUserSessions u db)) in Hcstop.
  set (k := calculateStreak tz now (completedSessions (getUserSessions u db))) in *.
  set (c := Metrics.currentStreak (streaks tz now (map createdAt (getUserSessions u db)))) in *.
  destruct (Z.le_gt_cases k c) as [Hle|Hgt]; [done|]. exfalso.
  apply Hcstop.
  - intros d (t & Ht & <-).
    apply list_elem_of_In, in_map_iff in Ht as (s & <- & Hs). apply list_elem_of_In in Hs.
    unfold getUserSessions in Hs. rewrite sort_desc_elem, filter_elem in Hs.
    destruct Hs as [Hs Hu]. apply bool_decide_eq_true in Hu.
    apply startOfDay_mono. by apply Hpast.
  - apply (sessionOn_sub tz (completedSessions (getUserSessions u db))).
    + intros s Hs. unfold completedSessions in Hs. by apply filter_elem in Hs as [Hs _].
    + apply Hkrun. lia.
Qed.

Lemma personal_streak_at_most_medal_streak_witness :
  st_currentStreak (getUserPersonalStats 0 Examples.noon "alice" StatsExamples.historyDb) ≤
    Metrics.currentStreak
      (streak (getProgressMetrics 0 Examples.noon "alice" StatsExamples.historyDb []).1).
Proof.
  apply (personal_streak_at_most_medal_streak 0 Examples.noon "alice"
           StatsExamples.historyDb []).
  intros s Hs _. unfold StatsExamples.historyDb, StatsExamples.history in Hs. simpl in Hs.
  members Hs.
  destruct Hs as [-> | [-> | [-> | [-> | []]]]]; vm_compute; discriminate.
Defined.

(** ** The files of a session *)







(** ** The longest streak of the personal statistics *)

Lemma sessionOn_here tz s l : sessionOn tz (s :: l) (startOfDay tz (createdAt s)).
Proof. apply sessionOn_cons. by left. Qed.

Lemma sessionOn_after tz s l d :
  Forall (λ r, createdAt s ≤ createdAt r) l → sessionOn tz l d →
  startOfDay tz (createdAt s) ≤ d.
Proof.
  intros Hall (t & Ht & <-). apply list_elem_of_In, in_map_iff in Ht as (r & <- & Hr).
  apply list_elem_of_In in Hr. pose proof (proj1 (Forall_forall _ _) Hall r Hr) as Hle.
  by apply startOfDay_mono.
Qed.

(** The loop only reports runs that exist. *)
Lemma personal_longestLoop_run tz (S : Z → Prop) rest prev temp longest :
  StronglySorted (λ a b, createdAt a ≤ createdAt b) (prev :: rest) →
  (∀ x, x ∈ prev :: rest → S (startOfDay tz (createdAt x))) →
  1 ≤ temp →
  consecutiveDays S (startOfDay tz (createdAt prev)) temp →
  (∃ d, consecutiveDays S d longest) →
  ∃ d, consecutiveDays S d
         (Z.max (longestLoop tz prev rest temp longest).2
                (longestLoop tz prev rest temp longest).1).
Proof.
  revert prev temp longest.
  induction rest as [|curr rest IH]; intros prev temp longest Hsorted HS Htemp Hrun Hlong;
    simpl.
  - destruct (Z.max_spec longest temp) as [[_ ->]|[_ ->]]; [eauto|done].
  - apply StronglySorted_inv in Hsorted as [Hsorted Hprev].
    assert (Hle : createdAt prev ≤ createdAt curr)
      by (apply (proj1 (Forall_forall _ _) Hprev), elem_of_cons; by left).
    apply (startOfDay_mono tz) in Hle.
    assert (HS' : ∀ x, x ∈ curr :: rest → S (startOfDay tz (createdAt x)))
      by (intros x Hx; apply HS, elem_of_cons; by right).
    assert (Hcurr : S (startOfDay tz (createdAt curr)))
      by (apply HS', elem_of_cons; by left).
    set (p := startOfDay tz (createdAt prev)) in *.
    set (c := startOfDay tz (createdAt curr)) in *.
    assert (Hp : aligned tz p) by apply startOfDay_aligned.
    assert (Hc : aligned tz c) by apply startOfDay_aligned.
    destruct (Z.eqb_spec ((c - p) / DAY_MS) 1) as [E|E].
    + assert (Hrun' : consecutiveDays S c (temp + 1)).
      { intros j Hj. destruct (decide (j = 0)) as [->|Hj0].
        - replace (minusDays c 0) with c by days. done.
        - replace (minusDays c j) with (minusDays p (j - 1)) by days. apply Hrun. lia. }
      apply IH; [done|done|lia|done|].
      destruct (Z.max_spec longest (temp + 1)) as [[_ ->]|[_ ->]]; [eauto|done].
    + destruct (Z.ltb_spec 1 ((c - p) / DAY_MS)) as [Hgt|Hle1].
      * apply IH; [done|done|lia| |done].
        intros j Hj. fold c. replace j with 0 by lia.
        replace (minusDays c 0) with c by days. done.
      * assert (c = p) by days.
        apply IH; [done|done|lia| |done]. fold c. by rewrite H.
Qed.

(** The loop misses no run. *)
Lemma personal_longestLoop_max tz rest prev temp longest :
  StronglySorted (λ a b, createdAt a ≤ createdAt b) (prev :: rest) →
  1 ≤ temp → temp = 1 ∨ temp ≤ longest →
  let r := longestLoop tz prev rest temp longest in
  longest ≤ r.2 ∧ 1 ≤ r.1 ∧ temp ≤ Z.max r.2 r.1 ∧
  ∀ d k, 1 ≤ k → consecutiveDays (sessionOn tz (prev :: rest)) d k →
    (minusDays d (k - 1) = startOfDay tz (createdAt prev) → k + temp - 1 ≤ Z.max r.2 r.1) ∧
    (minusDays d (k - 1) ≠ startOfDay tz (createdAt prev) → k ≤ Z.max r.2 r.1).
Proof.
  revert prev temp longest.
  induction rest as [|curr rest IH]; intros prev temp longest Hsorted Htemp Hinv; simpl.
  - split; [lia|]. split; [lia|]. split; [lia|]. intros d k Hk Hrun.
    assert (Hall : ∀ j, 0 ≤ j < k → minusDays d j = startOfDay tz (createdAt prev)).
    { intros j Hj. specialize (Hrun j Hj). apply sessionOn_cons in Hrun as [H|H]; [done|].
      by apply sessionOn_nil in H. }
    assert (k = 1).
    { destruct (decide (k = 1)) as [|Hk1]; [done|].
      pose proof (Hall 0 ltac:(lia)) as H0. pose proof (Hall 1 ltac:(lia)) as H1.
      rewrite <- H0 in H1. apply minusDays_inj in H1. lia. }
    subst k. split; [lia|]. intros Hne. destruct Hne. by apply Hall.
  - apply StronglySorted_inv in Hsorted as [Hsorted Hprev].
    assert (Hle : createdAt prev ≤ createdAt curr)
      by (apply (proj1 (Forall_forall _ _) Hprev), elem_of_cons; by left).
    apply (startOfDay_mono tz) in Hle.
    assert (Hsorted' := Hsorted).
    apply StronglySorted_inv in Hsorted' as [_ Hcurr].
    set (p := startOfDay tz (createdAt prev)) in *.
    set (c := startOfDay tz (createdAt curr)) in *.
    assert (Hp : aligned tz p) by apply startOfDay_aligned.
    assert (Hc : aligned tz c) by apply startOfDay_aligned.
    (* every day of the remaining sessions is the day of [curr] or a later one *)
    assert (Hlater : ∀ x, sessionOn tz (curr :: rest) x → c ≤ x).
    { intros x Hx. apply sessionOn_cons in Hx as [<-|Hx]; [done|].
      by apply (sessionOn_after tz curr rest). }
    (* a run whose first day is not the day of [prev] lies within the rest *)
    assert (Hrest : ∀ d k, 1 ≤ k → consecutiveDays (sessionOn tz (prev :: curr :: rest)) d k →
                           p < minusDays d (k - 1) ∨ p = c →
                           consecutiveDays (sessionOn tz (curr :: rest)) d k).
    { intros d k Hk Hrun Hd j Hj. specialize (Hrun j Hj).
      apply sessionOn_cons in Hrun as [Heq|Hin]; [|done].
      destruct Hd as [Hd|Hd].
      - exfalso. fold p in Heq. clear -Heq Hd Hj Hk. unfold minusDays in *.
        change DAY_MS with 86400000 in *. lia.
      - fold p in Heq. rewrite <- Heq, Hd. apply sessionOn_here. }
    (* the first day of a run within the sessions *)
    assert (Hfirst : ∀ d k, 1 ≤ k → consecutiveDays (sessionOn tz (prev :: curr :: rest)) d k →
                            minusDays d (k - 1) = p ∨ c ≤ minusDays d (k - 1)).
    { intros d k Hk Hrun. specialize (Hrun (k - 1) ltac:(lia)).
      apply sessionOn_cons in Hrun as [Heq|Hin]; [by left|]. right. by apply Hlater. }
    destruct (Z.eqb_spec ((c - p) / DAY_MS) 1) as [E|E].
    + assert (Hcp : c = p + DAY_MS) by days.
      destruct (IH curr (temp + 1) (Z.max longest (temp + 1)) Hsorted)
        as (HL & HT & Hge & Hruns); [lia|lia|]. fold c in Hruns.
      split; [lia|]. split; [lia|]. split; [lia|]. intros d k Hk Hrun. split.
      * intros He. destruct (decide (k = 1)) as [->|Hk1]; [lia|].
        assert (Hrun' : consecutiveDays (sessionOn tz (curr :: rest)) d (k - 1)).
        { apply Hrest; [lia| |left].
          - intros j Hj. apply Hrun. lia.
          - clear -He Hk1 Hk. unfold minusDays in *. change DAY_MS with 86400000 in *. lia. }
        destruct (Hruns d (k - 1) ltac:(lia) Hrun') as [H _].
        assert (minusDays d (k - 1 - 1) = c)
          by (clear -He Hcp; unfold minusDays in *; change DAY_MS with 86400000 in *; lia).
        specialize (H H0). lia.
      * intros Hne. destruct (Hfirst d k Hk Hrun) as [|Hge']; [done|].
        assert (Hrun' : consecutiveDays (sessionOn tz (curr :: rest)) d k).
        { apply Hrest; [done..|]. left. lia. }
        destruct (Hruns d k Hk Hrun') as [H1 H2].
        destruct (decide (minusDays d (k - 1) = c)) as [Hdc|Hdc];
          [specialize (H1 Hdc)|specialize (H2 Hdc)]; lia.
    + destruct (Z.ltb_spec 1 ((c - p) / DAY_MS)) as [Hgt|Hle1].
      * assert (Hgap : p + DAY_MS < c) by days.
        destruct (IH curr 1 longest Hsorted) as (HL & HT & Hge & Hruns); [lia|by left|].
        fold c in Hruns.
        split; [lia|]. split; [lia|]. split; [lia|]. intros d k Hk Hrun. split.
        -- intros He. destruct (decide (k = 1)) as [->|Hk1]; [lia|]. exfalso.
           pose proof (Hrun (k - 2) ltac:(lia)) as H2.
           apply sessionOn_cons in H2 as [Heq|Hin].
           ++ fold p in Heq. clear -Heq He. unfold minusDays in *.
              change DAY_MS with 86400000 in *. lia.
           ++ apply Hlater in Hin. clear -Hin He Hgap. unfold minusDays in *.
              change DAY_MS with 86400000 in *. lia.
        -- intros Hne. destruct (Hfirst d k Hk Hrun) as [|Hge']; [done|].
           assert (Hrun' : consecutiveDays (sessionOn tz (curr :: rest)) d k).
           { apply Hrest; [done..|]. left. lia. }
           destruct (Hruns d k Hk Hrun') as [H1 H2].
           destruct (decide (minusDays d (k - 1) = c)) as [Hdc|Hdc];
             [specialize (H1 Hdc)|specialize (H2 Hdc)]; lia.
      * assert (Hcp : c = p) by days.
        destruct (IH curr temp longest Hsorted) as (HL & HT & Hge & Hruns); [lia|done|].
        fold c in Hruns.
        split; [lia|]. split; [lia|]. split; [lia|]. intros d k Hk Hrun.
        assert (Hrun' : consecutiveDays (sessionOn tz (curr :: rest)) d k).
        { apply Hrest; [done..|]. by right. }
        rewrite <- Hcp. by apply Hruns.
Qed.

Lemma sorted_ascending (l : list Session) :
  StronglySorted (λ a b, createdAt a ≤ createdAt b) (JS.sort_desc (λ s, - createdAt s) l).
Proof.
  pose proof (sort_desc_sorted (λ s, - createdAt s) l) as H.
  induction H as [|a l' Hl IH Ha]; constructor; [done|].
  eapply Forall_impl; [exact Ha|]. intros b Hb. unfold desc in Hb. lia.
Qed.

Lemma longestStreakOf_spec tz sessions :
  let L := longestStreakOf tz sessions in
  (∃ d, consecutiveDays (sessionOn tz sessions) d L) ∧
  (∀ d k, 0 ≤ k → consecutiveDays (sessionOn tz sessions) d k → k ≤ L).
Proof.
  cbv zeta. unfold longestStreakOf.
  destruct sessions as [|s0 l0].
  { split; [exists 0; intros j Hj; lia|]. intros d k Hk Hrun.
    destruct (decide (k = 0)) as [->|Hk0]; [lia|].
    destruct (sessionOn_nil tz _ (Hrun 0 ltac:(lia))). }
  cbv zeta.
  pose proof (sort_desc_perm (λ s, - createdAt s) (s0 :: l0)) as Hperm.
  pose proof (sorted_ascending (s0 :: l0)) as Hsorted.
  destruct (JS.sort_desc (λ s, - createdAt s) (s0 :: l0)) as [|first rest] eqn:Hs.
  { by apply Permutation_nil_cons in Hperm. }
  pose proof (personal_longestLoop_run tz (sessionOn tz (first :: rest)) rest first 1 0 Hsorted)
    as Hrun.
  pose proof (personal_longestLoop_max tz rest first 1 0 Hsorted) as Hmax.
  destruct (longestLoop tz first rest 1 0) as [t L]. simpl in Hrun, Hmax.
  destruct Hmax as (HL & HT & _ & Hmax); [lia|by left|].
  split.
  - destruct Hrun as [d Hd].
    + intros x Hx. exists (createdAt x). split; [|done].
      apply list_elem_of_In, in_map. by apply list_elem_of_In.
    + lia.
    + intros j Hj. replace j with 0 by lia.
      replace (minusDays (startOfDay tz (createdAt first)) 0)
        with (startOfDay tz (createdAt first)) by days.
      apply sessionOn_here.
    + exists 0. intros j Hj. lia.
    + exists d. intros j Hj. apply (sessionOn_perm tz _ _ _ Hperm). by apply Hd.
  - intros d k Hk Hruns. destruct (decide (k = 0)) as [->|Hk0]; [lia|].
    assert (Hruns' : consecutiveDays (sessionOn tz (first :: rest)) d k).
    { intros j Hj. apply (sessionOn_perm tz _ _ _ Hperm). by apply Hruns. }
    destruct (Hmax d k ltac:(lia) Hruns') as [H1 H2].
    destruct (decide (minusDays d (k - 1) = startOfDay tz (createdAt first))) as [Hd|Hd];
      [specialize (H1 Hd)|specialize (H2 Hd)]; lia.
Qed.

(** X24. On the same sessions, the longest streak of the personal
    statistics, computed on the sessions in ascending order with same-day
    sessions left in, and the longest streak of getProgressMetrics, computed
    on the distinct days in descending order, are the same number: the
    greatest number of consecutive calendar days that each have a session. *)
Theorem longest_streaks_agree tz now sessions :
  let L := longestStreakOf tz sessions in
  L = Metrics.longestStreak (streaks tz now (map createdAt sessions)) ∧
  (∃ d, consecutiveDays (sessionOn tz sessions) d L) ∧
  (∀ d k, 0 ≤ k → consecutiveDays (sessionOn tz sessions) d k → k ≤ L).
Proof.
  cbv zeta. destruct (longestStreakOf_spec tz sessions) as [(d1 & Hrun1) Hmax1].
  destruct (streaks_spec tz now (map createdAt sessions)) as (_ & (d2 & Hrun2) & Hmax2).
  cbv zeta in *. fold (sessionOn tz sessions) in Hrun2, Hmax2.
  split; [|split; [by exists d1|done]].
  assert (H1 : 0 ≤ longestStreakOf tz sessions)
    by (apply (Hmax1 0 0); [lia|]; intros j Hj; lia).
  assert (H2 : 0 ≤ Metrics.longestStreak (streaks tz now (map createdAt sessions)))
    by (apply (Hmax2 0 0); [lia|]; intros j Hj; lia).
  pose proof (Hmax1 _ _ H2 Hrun2). pose proof (Hmax2 _ _ H1 Hrun1). lia.
Qed.
